(** * Z-stepper automatic alignment (G34) and probe-point selection (M422)

    A shallow embedding of [Marlin/src/gcode/calibrate/G34_M422.cpp].

    The two G-code handlers are written as programs in a small
    state-and-trace monad: the state is the part of the firmware's global
    state that the handlers read or write, the trace is the sequence of
    calls they make on the collaborating subsystems (planner, probe,
    stepper, tool changer, serial port).

    Numbers.  A C [float] is modelled as an exact rational or NaN
    ([cfloat]); rounding and infinities are outside the model.  The 8-bit
    integers of the source are integers with their wrap-around written
    out ([int8_t]). *)

From Stdlib Require Import ZArith QArith Qabs List String Bool Arith Lia Permutation.
Import ListNotations.
Local Open Scope Z_scope.

(** ** C numbers *)

Inductive cfloat : Type :=
| NaN : cfloat
| Fin : Q -> cfloat.

Definition isnan (a : cfloat) : bool :=
  match a with NaN => true | Fin _ => false end.

Definition fadd (a b : cfloat) : cfloat :=
  match a, b with Fin p, Fin q => Fin (p + q) | _, _ => NaN end.

Definition fsub (a b : cfloat) : cfloat :=
  match a, b with Fin p, Fin q => Fin (p - q) | _, _ => NaN end.

Definition fmul (a b : cfloat) : cfloat :=
  match a, b with Fin p, Fin q => Fin (p * q) | _, _ => NaN end.

(** Division by zero is never reached by the handlers (the only division
    is guarded by [z_align_abs > 0]); it is given the value NaN here. *)
Definition fdiv (a b : cfloat) : cfloat :=
  match a, b with
  | Fin p, Fin q => if Qeq_bool q 0 then NaN else Fin (p / q)
  | _, _ => NaN
  end.

(** Comparisons: every comparison with NaN is false, as in C. *)
Definition fle (a b : cfloat) : bool :=
  match a, b with Fin p, Fin q => Qle_bool p q | _, _ => false end.

Definition flt (a b : cfloat) : bool :=
  match a, b with Fin p, Fin q => negb (Qle_bool q p) | _, _ => false end.

Definition fge (a b : cfloat) : bool := fle b a.
Definition fgt (a b : cfloat) : bool := flt b a.

(** [ABS(x)] *)
Definition ABS (a : cfloat) : cfloat :=
  match a with Fin p => Fin (Qabs p) | NaN => NaN end.

(** Modelled from the spec: the macros [_MIN], [_MAX] and [WITHIN] of
    Marlin's [macros.h], which is not among the sources; the spec reads
    them as minimum, maximum and inclusive range check
    ([lhs < rhs ? lhs : rhs], [lhs > rhs ? lhs : rhs],
    [N >= L && N <= H]). *)
Definition _MIN (a b : cfloat) : cfloat := if flt a b then a else b.
Definition _MAX (a b : cfloat) : cfloat := if fgt a b then a else b.
Definition _MAX3 (a b c : cfloat) : cfloat := _MAX a (_MAX b c).
Definition WITHIN (n l h : cfloat) : bool := fge n l && fle n h.
Definition WITHIN_int (n l h : Z) : bool := (l <=? n) && (n <=? h).

(** [HYPOT2(x,y)] is [sq(x) + sq(y)]. *)
Definition HYPOT2 (a b : cfloat) : cfloat := fadd (fmul a a) (fmul b b).

(** Conversion of an integer to [int8_t]: reduction modulo 2^8 into
    -128..127. *)
Definition int8_t (z : Z) : Z := (z + 128) mod 256 - 128.

(** ** Build configuration

    The handlers are compiled under a configuration ([Configuration.h],
    [Configuration_adv.h]); its macros are the fields of [Config].  The
    square root of the C library is taken as a parameter as well. *)

Record Config : Type := {
  Z_TRIPLE_STEPPER_DRIVERS : bool;
  Z_STEPPER_ALIGN_ITERATIONS : Z;
  Z_STEPPER_ALIGN_ACC : cfloat;
  Z_STEPPER_ALIGN_AMP : cfloat;
  Z_CLEARANCE_BETWEEN_PROBES : cfloat;
  G34_MAX_GRADE : cfloat;
  X_MIN_POS : cfloat;
  X_MAX_POS : cfloat;
  Y_MIN_POS : cfloat;
  Y_MAX_POS : cfloat;
  Z_HOME_POS : cfloat;
  HAS_LEVELING : bool;
  RESTORE_LEVELING_AFTER_G34 : bool;
  CNC_WORKSPACE_PLANES : bool;
  HOTENDS : nat;
  HAS_DUPLICATION_MODE : bool;
  BLTOUCH_HS_MODE : bool;          (* BOTH(BLTOUCH, BLTOUCH_HS_MODE) *)
  PARKING_EXTRUDER : bool;
  SQRT : cfloat -> cfloat
}.

(** ** Data *)

Record xy_pos_t : Type := { pos_x : cfloat; pos_y : cfloat }.

Inductive ProbePtRaise : Type := PROBE_PT_STOW | PROBE_PT_RAISE.

Inductive plane_t : Type := PLANE_XY | PLANE_ZX | PLANE_YZ.

(** The lock flags of the stepper driver and its multi-axis switch. *)
Record Stepper : Type := {
  locked_Z_motor : bool;
  locked_Z2_motor : bool;
  locked_Z3_motor : bool;
  separate_multi_axis : bool
}.

(** What one call of [probe_at_point] gives back: the measured height (NaN
    when the probe did not trigger) and where it leaves the nozzle. *)
Record ProbeReading : Type := {
  measured_z : cfloat;
  z_after_probe : cfloat
}.

(** The global state the two handlers touch.  [probe_feed] is the
    sequence of readings the probe is going to deliver, in the order of
    the calls; a probe with nothing left to deliver reports NaN. *)
Record Machine : Type := {
  z_auto_align_pos : list xy_pos_t;
  leveling_active : bool;               (* planner.leveling_active *)
  workspace_plane : plane_t;
  active_extruder : Z;
  extruder_duplication_enabled : bool;
  xy_axes_known : bool;
  z_axis_known : bool;
  current_position_z : cfloat;          (* current_position.z *)
  stepper : Stepper;
  debug_leveling : bool;                (* DEBUGGING(LEVELING) *)
  probe_feed : list ProbeReading
}.

(** The calls made on the collaborating subsystems. *)
Inductive event : Type :=
| Ev_serial (msg : string)
| Ev_serial_int (msg : string) (v : Z)
| Ev_serial_float (msg : string) (v : cfloat)
| Ev_debug (msg : string)
| Ev_debug_float (msg : string) (n : Z) (v : cfloat)
| Ev_log_machine_info
| Ev_planner_synchronize
| Ev_set_bed_leveling_enabled (enable : bool)
| Ev_tool_change (tool : Z) (no_move : bool)
| Ev_home_all_axes
| Ev_do_blocking_move_to_z (z : cfloat)
| Ev_probe_at_point (pos : xy_pos_t) (raise_after : ProbePtRaise)
| Ev_set_separate_multi_axis (on : bool)
| Ev_set_z_lock (lock : bool)
| Ev_set_z2_lock (lock : bool)
| Ev_set_z3_lock (lock : bool)
| Ev_set_axis_is_not_at_home_Z
| Ev_STOW_PROBE
| Ev_process_subcommands_now (gcode : string).

(** The local variables of [G34] that live across loop iterations. *)
Record Locals : Type := {
  z_probe : cfloat;
  last_z_align_move : list cfloat;
  z_measured : list cfloat;
  z_maxdiff : cfloat;
  amplification : cfloat;
  err_break : bool
}.

(** The parameters of the two commands as the parser hands them over:
    [None] when the letter is absent from the command line. *)
Record G34_args : Type := {
  arg_I : option Z;
  arg_T : option cfloat;
  arg_A : option cfloat;
  arg_E : bool
}.

Record M422_args : Type := {
  arg_S : option Z;
  arg_X : option cfloat;
  arg_Y : option cfloat
}.

(** [parser.intval(c, dval)] and [parser.floatval(c, dval)] *)
Definition parser_val {A : Type} (a : option A) (dval : A) : A :=
  match a with Some v => v | None => dval end.

(** ** Record updates *)

Definition set_stepper (s : Stepper) (m : Machine) : Machine :=
  {| z_auto_align_pos := z_auto_align_pos m;
     leveling_active := leveling_active m;
     workspace_plane := workspace_plane m;
     active_extruder := active_extruder m;
     extruder_duplication_enabled := extruder_duplication_enabled m;
     xy_axes_known := xy_axes_known m;
     z_axis_known := z_axis_known m;
     current_position_z := current_position_z m;
     stepper := s;
     debug_leveling := debug_leveling m;
     probe_feed := probe_feed m |}.

Definition set_leveling_active (b : bool) (m : Machine) : Machine :=
  {| z_auto_align_pos := z_auto_align_pos m;
     leveling_active := b;
     workspace_plane := workspace_plane m;
     active_extruder := active_extruder m;
     extruder_duplication_enabled := extruder_duplication_enabled m;
     xy_axes_known := xy_axes_known m;
     z_axis_known := z_axis_known m;
     current_position_z := current_position_z m;
     stepper := stepper m;
     debug_leveling := debug_leveling m;
     probe_feed := probe_feed m |}.

Definition set_workspace_plane (p : plane_t) (m : Machine) : Machine :=
  {| z_auto_align_pos := z_auto_align_pos m;
     leveling_active := leveling_active m;
     workspace_plane := p;
     active_extruder := active_extruder m;
     extruder_duplication_enabled := extruder_duplication_enabled m;
     xy_axes_known := xy_axes_known m;
     z_axis_known := z_axis_known m;
     current_position_z := current_position_z m;
     stepper := stepper m;
     debug_leveling := debug_leveling m;
     probe_feed := probe_feed m |}.

Definition set_active_extruder (t : Z) (m : Machine) : Machine :=
  {| z_auto_align_pos := z_auto_align_pos m;
     leveling_active := leveling_active m;
     workspace_plane := workspace_plane m;
     active_extruder := t;
     extruder_duplication_enabled := extruder_duplication_enabled m;
     xy_axes_known := xy_axes_known m;
     z_axis_known := z_axis_known m;
     current_position_z := current_position_z m;
     stepper := stepper m;
     debug_leveling := debug_leveling m;
     probe_feed := probe_feed m |}.

Definition set_extruder_duplication_enabled (b : bool) (m : Machine) : Machine :=
  {| z_auto_align_pos := z_auto_align_pos m;
     leveling_active := leveling_active m;
     workspace_plane := workspace_plane m;
     active_extruder := active_extruder m;
     extruder_duplication_enabled := b;
     xy_axes_known := xy_axes_known m;
     z_axis_known := z_axis_known m;
     current_position_z := current_position_z m;
     stepper := stepper m;
     debug_leveling := debug_leveling m;
     probe_feed := probe_feed m |}.

Definition set_axes_known (xy z : bool) (m : Machine) : Machine :=
  {| z_auto_align_pos := z_auto_align_pos m;
     leveling_active := leveling_active m;
     workspace_plane := workspace_plane m;
     active_extruder := active_extruder m;
     extruder_duplication_enabled := extruder_duplication_enabled m;
     xy_axes_known := xy;
     z_axis_known := z;
     current_position_z := current_position_z m;
     stepper := stepper m;
     debug_leveling := debug_leveling m;
     probe_feed := probe_feed m |}.

Definition set_current_position_z (z : cfloat) (m : Machine) : Machine :=
  {| z_auto_align_pos := z_auto_align_pos m;
     leveling_active := leveling_active m;
     workspace_plane := workspace_plane m;
     active_extruder := active_extruder m;
     extruder_duplication_enabled := extruder_duplication_enabled m;
     xy_axes_known := xy_axes_known m;
     z_axis_known := z_axis_known m;
     current_position_z := z;
     stepper := stepper m;
     debug_leveling := debug_leveling m;
     probe_feed := probe_feed m |}.

Definition set_probe_feed (f : list ProbeReading) (m : Machine) : Machine :=
  {| z_auto_align_pos := z_auto_align_pos m;
     leveling_active := leveling_active m;
     workspace_plane := workspace_plane m;
     active_extruder := active_extruder m;
     extruder_duplication_enabled := extruder_duplication_enabled m;
     xy_axes_known := xy_axes_known m;
     z_axis_known := z_axis_known m;
     current_position_z := current_position_z m;
     stepper := stepper m;
     debug_leveling := debug_leveling m;
     probe_feed := f |}.

Definition set_z_auto_align_pos (p : list xy_pos_t) (m : Machine) : Machine :=
  {| z_auto_align_pos := p;
     leveling_active := leveling_active m;
     workspace_plane := workspace_plane m;
     active_extruder := active_extruder m;
     extruder_duplication_enabled := extruder_duplication_enabled m;
     xy_axes_known := xy_axes_known m;
     z_axis_known := z_axis_known m;
     current_position_z := current_position_z m;
     stepper := stepper m;
     debug_leveling := debug_leveling m;
     probe_feed := probe_feed m |}.

Definition set_z_probe (v : cfloat) (l : Locals) : Locals :=
  {| z_probe := v; last_z_align_move := last_z_align_move l;
     z_measured := z_measured l; z_maxdiff := z_maxdiff l;
     amplification := amplification l; err_break := err_break l |}.

Definition set_last_z_align_move (v : list cfloat) (l : Locals) : Locals :=
  {| z_probe := z_probe l; last_z_align_move := v;
     z_measured := z_measured l; z_maxdiff := z_maxdiff l;
     amplification := amplification l; err_break := err_break l |}.

Definition set_z_measured (v : list cfloat) (l : Locals) : Locals :=
  {| z_probe := z_probe l; last_z_align_move := last_z_align_move l;
     z_measured := v; z_maxdiff := z_maxdiff l;
     amplification := amplification l; err_break := err_break l |}.

Definition set_z_maxdiff (v : cfloat) (l : Locals) : Locals :=
  {| z_probe := z_probe l; last_z_align_move := last_z_align_move l;
     z_measured := z_measured l; z_maxdiff := v;
     amplification := amplification l; err_break := err_break l |}.

Definition set_amplification (v : cfloat) (l : Locals) : Locals :=
  {| z_probe := z_probe l; last_z_align_move := last_z_align_move l;
     z_measured := z_measured l; z_maxdiff := z_maxdiff l;
     amplification := v; err_break := err_break l |}.

Definition set_err_break (v : bool) (l : Locals) : Locals :=
  {| z_probe := z_probe l; last_z_align_move := last_z_align_move l;
     z_measured := z_measured l; z_maxdiff := z_maxdiff l;
     amplification := amplification l; err_break := v |}.

(** C arrays of [Z_STEPPER_COUNT] entries are lists; every index the
    handlers use is below [Z_STEPPER_COUNT]. *)
Definition array_get {A : Type} (d : A) (a : list A) (i : nat) : A := nth i a d.

Fixpoint array_set {A : Type} (a : list A) (i : nat) (v : A) : list A :=
  match a, i with
  | [], _ => []
  | _ :: t, O => v :: t
  | h :: t, S j => h :: array_set t j v
  end.

Definition fget (a : list cfloat) (i : nat) : cfloat := array_get NaN a i.

Definition origin : xy_pos_t := {| pos_x := Fin 0; pos_y := Fin 0 |}.

(** ** The state-and-trace monad

    A computation takes the machine state and gives back a result, the new
    state and the calls it made, oldest first. *)

Definition M (A : Type) : Type := Machine -> A * Machine * list event.

Definition ret {A : Type} (a : A) : M A := fun m => (a, m, []).

Definition bind {A B : Type} (c : M A) (k : A -> M B) : M B :=
  fun m =>
    let '(a, m1, t1) := c m in
    let '(b, m2, t2) := k a m1 in
    (b, m2, t1 ++ t2).

Declare Scope m_scope.
Delimit Scope m_scope with M.
Notation "x <- c ;; k" := (bind c (fun x => k))
  (at level 61, c at next level, right associativity) : m_scope.
Notation "c ;; k" := (bind c (fun _ => k))
  (at level 61, right associativity) : m_scope.
Notation "' p <- c ;; k" := (bind c (fun v => let 'p := v in k))
  (at level 61, p pattern, c at next level, right associativity) : m_scope.
Local Open Scope m_scope.

Definition call (e : event) : M unit := fun m => (tt, m, [e]).
Definition read {A : Type} (f : Machine -> A) : M A := fun m => (f m, m, []).
Definition write (f : Machine -> Machine) : M unit := fun m => (tt, f m, []).
Definition when (b : bool) (c : M unit) : M unit := if b then c else ret tt.

Definition trace_of {A : Type} (r : A * Machine * list event) : list event := snd r.
Definition state_of {A : Type} (r : A * Machine * list event) : Machine := snd (fst r).
Definition value_of {A : Type} (r : A * Machine * list event) : A := fst (fst r).

Definition nl : string := String (Ascii.ascii_of_nat 10) EmptyString.

(** ** The collaborating subsystems

    Modelled from the spec: the bodies of the planner, probe, stepper,
    tool-change, levelling and homing routines are not among the sources;
    each is a call recorded in the trace together with its effect on the
    state the handlers read back (the spec's section 6 interfaces). *)

Definition stepper_apply (s : Stepper) (e : event) : Stepper :=
  match e with
  | Ev_set_z_lock b =>
      {| locked_Z_motor := b; locked_Z2_motor := locked_Z2_motor s;
         locked_Z3_motor := locked_Z3_motor s;
         separate_multi_axis := separate_multi_axis s |}
  | Ev_set_z2_lock b =>
      {| locked_Z_motor := locked_Z_motor s; locked_Z2_motor := b;
         locked_Z3_motor := locked_Z3_motor s;
         separate_multi_axis := separate_multi_axis s |}
  | Ev_set_z3_lock b =>
      {| locked_Z_motor := locked_Z_motor s; locked_Z2_motor := locked_Z2_motor s;
         locked_Z3_motor := b;
         separate_multi_axis := separate_multi_axis s |}
  | Ev_set_separate_multi_axis b =>
      {| locked_Z_motor := locked_Z_motor s; locked_Z2_motor := locked_Z2_motor s;
         locked_Z3_motor := locked_Z3_motor s;
         separate_multi_axis := b |}
  | _ => s
  end.

Definition stepper_call (e : event) : M unit :=
  fun m => (tt, set_stepper (stepper_apply (stepper m) e) m, [e]).

Definition stepper_set_z_lock (b : bool) : M unit := stepper_call (Ev_set_z_lock b).
Definition stepper_set_z2_lock (b : bool) : M unit := stepper_call (Ev_set_z2_lock b).
Definition stepper_set_z3_lock (b : bool) : M unit := stepper_call (Ev_set_z3_lock b).
Definition stepper_set_separate_multi_axis (b : bool) : M unit :=
  stepper_call (Ev_set_separate_multi_axis b).

Definition SERIAL_ECHOLNPGM (s : string) : M unit := call (Ev_serial s).
Definition SERIAL_ECHOLNPAIR (s : string) (v : Z) : M unit := call (Ev_serial_int s v).
Definition SERIAL_ECHOPAIR_F (s : string) (v : cfloat) : M unit := call (Ev_serial_float s v).
Definition SERIAL_EOL : M unit := call (Ev_serial EmptyString).

Definition DEBUG (c : M unit) : M unit :=
  fun m => if debug_leveling m then c m else (tt, m, []).
Definition DEBUG_ECHOLNPGM (s : string) : M unit := DEBUG (call (Ev_debug s)).
Definition DEBUG_ECHOLNPAIR (s : string) (n : Z) (v : cfloat) : M unit :=
  DEBUG (call (Ev_debug_float s n v)).

Definition planner_synchronize : M unit := call Ev_planner_synchronize.

Definition set_bed_leveling_enabled (enable : bool) : M unit :=
  fun m => (tt, set_leveling_active enable m, [Ev_set_bed_leveling_enabled enable]).

Definition tool_change (tool : Z) (no_move : bool) : M unit :=
  fun m => (tt, set_active_extruder tool m, [Ev_tool_change tool no_move]).

Definition all_axes_known : M bool :=
  read (fun m => xy_axes_known m && z_axis_known m).

Definition do_blocking_move_to_z (z : cfloat) : M unit :=
  fun m => (tt, set_current_position_z z m, [Ev_do_blocking_move_to_z z]).

Definition probe_at_point (pos : xy_pos_t) (raise_after : ProbePtRaise) : M cfloat :=
  fun m =>
    match probe_feed m with
    | [] => (NaN, m, [Ev_probe_at_point pos raise_after])
    | r :: rest =>
        (measured_z r,
         set_current_position_z (z_after_probe r) (set_probe_feed rest m),
         [Ev_probe_at_point pos raise_after])
    end.

Definition set_axis_is_not_at_home_Z : M unit :=
  fun m => (tt, set_axes_known (xy_axes_known m) false m, [Ev_set_axis_is_not_at_home_Z]).

Definition STOW_PROBE : M unit := call Ev_STOW_PROBE.

Section Handlers.

Variable cfg : Config.

Definition Z_STEPPER_COUNT : nat := if Z_TRIPLE_STEPPER_DRIVERS cfg then 3%nat else 2%nat.

Definition home_all_axes : M unit :=
  fun m => (tt, set_current_position_z (Z_HOME_POS cfg) (set_axes_known true true m),
            [Ev_home_all_axes]).

(** [process_subcommands_now_P(PSTR("G28 Z"))]: the only command string
    the handler passes on is the Z homing command. *)
Definition process_subcommands_now (gcode : string) : M unit :=
  fun m => (tt, set_current_position_z (Z_HOME_POS cfg)
                  (set_axes_known (xy_axes_known m) true m),
            [Ev_process_subcommands_now gcode]).

(** [set_all_z_lock], lines 60-66 *)
Definition set_all_z_lock (lock : bool) : M unit :=
  stepper_set_z_lock lock ;;
  stepper_set_z2_lock lock ;;
  when (Z_TRIPLE_STEPPER_DRIVERS cfg) (stepper_set_z3_lock lock).

Definition Z_BASIC_CLEARANCE : cfloat :=
  if BLTOUCH_HS_MODE cfg
  then fadd (Z_CLEARANCE_BETWEEN_PROBES cfg) (Fin 7)
  else Z_CLEARANCE_BETWEEN_PROBES cfg.

(** Lines 133-141: the clearance height before anything is measured. *)
Definition initial_z_probe (pos : list xy_pos_t) : cfloat :=
  let p := array_get origin pos in
  let d i := fsub (pos_x (p i)) (pos_y (p i)) in
  fadd Z_BASIC_CLEARANCE
    (fmul (fmul (G34_MAX_GRADE cfg) (Fin (1 # 100)))
      (if Z_TRIPLE_STEPPER_DRIVERS cfg
       then SQRT cfg (_MAX3 (HYPOT2 (d 0%nat) (d 1%nat))
                            (HYPOT2 (d 1%nat) (d 2%nat))
                            (HYPOT2 (d 2%nat) (d 0%nat)))
       else SQRT cfg (HYPOT2 (d 0%nat) (d 1%nat)))).

(** Lines 149-152 and 157. *)
Definition initial_locals (z_probe0 z_auto_align_amplification : cfloat) : Locals :=
  {| z_probe := z_probe0;
     last_z_align_move := repeat (Fin 10000) Z_STEPPER_COUNT;
     z_measured := repeat (Fin 0) Z_STEPPER_COUNT;
     z_maxdiff := Fin 0;
     amplification := z_auto_align_amplification;
     err_break := false |}.

(** Line 168: [(iteration & 1) ? Z_STEPPER_COUNT - 1 - izstepper : izstepper] *)
Definition probe_zstepper (iteration izstepper : nat) : nat :=
  if negb (Nat.land iteration 1 =? 0)%nat
  then (Z_STEPPER_COUNT - 1 - izstepper)%nat
  else izstepper.

(** Line 171: [iteration == 0 || izstepper > 0] *)
Definition clearance_move_wanted (iteration izstepper : nat) : bool :=
  (iteration =? 0)%nat || (0 <? izstepper)%nat.

(** One pass through the body of the probing loop, lines 167-188.  The
    result says whether the loop goes on ([true]) or was left by
    [break]. *)
Definition probe_step (raise_after : ProbePtRaise) (iteration izstepper : nat)
    (l : Locals) (z_measured_min : cfloat) : M (Locals * cfloat * bool) :=
  let zstepper := probe_zstepper iteration izstepper in
  when (clearance_move_wanted iteration izstepper)
       (do_blocking_move_to_z (z_probe l)) ;;
  pos <- read (fun m => array_get origin (z_auto_align_pos m) zstepper) ;;
  z_probed_height <- probe_at_point pos raise_after ;;
  if isnan z_probed_height then
    SERIAL_ECHOLNPGM "Probing failed." ;;
    ret (set_err_break true l, z_measured_min, false)
  else
    let l1 := set_z_measured
                (array_set (z_measured l) zstepper
                   (fadd z_probed_height (Z_CLEARANCE_BETWEEN_PROBES cfg))) l in
    DEBUG_ECHOLNPAIR " measured position is " (Z.of_nat zstepper + 1)
                     (fget (z_measured l1) zstepper) ;;
    ret (l1, _MIN z_measured_min (fget (z_measured l1) zstepper), true).

(** The probing loop, lines 166-189, over the values [izstepper] takes. *)
Fixpoint probe_loop (raise_after : ProbePtRaise) (iteration : nat)
    (izsteppers : list nat) (l : Locals) (z_measured_min : cfloat)
    : M (Locals * cfloat) :=
  match izsteppers with
  | [] => ret (l, z_measured_min)
  | izstepper :: rest =>
      '(l1, zmin1, go_on) <- probe_step raise_after iteration izstepper l z_measured_min ;;
      if go_on then probe_loop raise_after iteration rest l1 zmin1
      else ret (l1, zmin1)
  end.

(** Lines 195-201: the clearance height for the next round. *)
Definition adapt_clearance (l : Locals) : Locals :=
  let z := fget (z_measured l) in
  if Z_TRIPLE_STEPPER_DRIVERS cfg then
    let l1 := set_z_maxdiff
                (_MAX3 (ABS (fsub (z 0%nat) (z 1%nat)))
                       (ABS (fsub (z 1%nat) (z 2%nat)))
                       (ABS (fsub (z 2%nat) (z 0%nat)))) l in
    set_z_probe (fadd (fadd Z_BASIC_CLEARANCE (_MAX3 (z 0%nat) (z 1%nat) (z 2%nat)))
                      (z_maxdiff l1)) l1
  else
    let l1 := set_z_maxdiff (ABS (fsub (z 0%nat) (z 1%nat))) l in
    set_z_probe (fadd (fadd Z_BASIC_CLEARANCE (_MAX (z 0%nat) (z 1%nat)))
                      (z_maxdiff l1)) l1.

(** Lines 203-211. *)
Definition report_differences (l : Locals) : M unit :=
  let z := fget (z_measured l) in
  SERIAL_ECHOPAIR_F (nl ++ "DIFFERENCE Z1-Z2=") (ABS (fsub (z 0%nat) (z 1%nat))) ;;
  when (Z_TRIPLE_STEPPER_DRIVERS cfg)
    (SERIAL_ECHOPAIR_F " Z2-Z3=" (ABS (fsub (z 1%nat) (z 2%nat))) ;;
     SERIAL_ECHOPAIR_F " Z3-Z1=" (ABS (fsub (z 2%nat) (z 0%nat)))) ;;
  SERIAL_EOL ;;
  SERIAL_EOL.

(** Line 220: the move of one stepper and its magnitude. *)
Definition z_align_move_of (l : Locals) (z_measured_min : cfloat) (zstepper : nat) : cfloat :=
  fsub (fget (z_measured l) zstepper) z_measured_min.

Definition z_align_abs_of (l : Locals) (z_measured_min : cfloat) (zstepper : nat) : cfloat :=
  ABS (z_align_move_of l z_measured_min zstepper).

(** Line 224: the amplification after the optional re-tuning. *)
Definition tuned_amplification (z_auto_align_amplification : cfloat) (iteration : nat)
    (l : Locals) (z_measured_min : cfloat) (zstepper : nat) : cfloat :=
  let z_align_abs := z_align_abs_of l z_measured_min zstepper in
  if fgt z_align_abs (Fin 0)
  then if (iteration =? 1)%nat
       then _MIN (fdiv (fget (last_z_align_move l) zstepper) z_align_abs) (Fin 2)
       else z_auto_align_amplification
  else amplification l.

(** Line 227: the test for decreasing accuracy. *)
Definition accuracy_decreased (l : Locals) (z_measured_min : cfloat) (zstepper : nat) : bool :=
  flt (fget (last_z_align_move l) zstepper)
      (fsub (z_align_abs_of l z_measured_min zstepper) (Fin 1)).

(** Lines 243-249: the [switch] that frees one stepper. *)
Definition unlock_one (zstepper : nat) : M unit :=
  match zstepper with
  | 0%nat => stepper_set_z_lock false
  | 1%nat => stepper_set_z2_lock false
  | 2%nat => when (Z_TRIPLE_STEPPER_DRIVERS cfg) (stepper_set_z3_lock false)
  | _ => ret tt
  end.

(** One pass through the body of the correction loop, lines 219-252.  The
    result carries [success_break] and whether the loop goes on. *)
Definition correct_step (z_auto_align_accuracy z_auto_align_amplification : cfloat)
    (iteration zstepper : nat) (l : Locals) (z_measured_min : cfloat)
    (success_break : bool) : M (Locals * bool * bool) :=
  let z_align_move := z_align_move_of l z_measured_min zstepper in
  let z_align_abs := z_align_abs_of l z_measured_min zstepper in
  let l1 := set_amplification
              (tuned_amplification z_auto_align_amplification iteration l
                 z_measured_min zstepper) l in
  if accuracy_decreased l z_measured_min zstepper then
    SERIAL_ECHOLNPGM "Decreasing accuracy detected." ;;
    ret (set_err_break true l1, success_break, false)
  else
    let l2 := set_last_z_align_move
                (array_set (last_z_align_move l1) zstepper z_align_abs) l1 in
    let success_break1 :=
      if fgt z_align_abs z_auto_align_accuracy then false else success_break in
    DEBUG_ECHOLNPAIR " corrected by " (Z.of_nat zstepper + 1) z_align_move ;;
    set_all_z_lock true ;;
    unlock_one zstepper ;;
    z <- read current_position_z ;;
    do_blocking_move_to_z (fadd (fmul (amplification l2) z_align_move) z) ;;
    ret (l2, success_break1, true).

(** The correction loop, lines 218-253. *)
Fixpoint correct_loop (z_auto_align_accuracy z_auto_align_amplification : cfloat)
    (iteration : nat) (zsteppers : list nat) (l : Locals) (z_measured_min : cfloat)
    (success_break : bool) : M (Locals * bool) :=
  match zsteppers with
  | [] => ret (l, success_break)
  | zstepper :: rest =>
      '(l1, sb1, go_on) <- correct_step z_auto_align_accuracy z_auto_align_amplification
                             iteration zstepper l z_measured_min success_break ;;
      if go_on
      then correct_loop z_auto_align_accuracy z_auto_align_amplification
             iteration rest l1 z_measured_min sb1
      else ret (l1, sb1)
  end.

(** The body of the iteration loop, lines 159-261.  The boolean of the
    result is [true] when the body left the loop by [break]. *)
Definition iteration_body (z_auto_align_accuracy z_auto_align_amplification : cfloat)
    (raise_after : ProbePtRaise) (iteration : nat) (l : Locals) : M (Locals * bool) :=
  DEBUG_ECHOLNPGM "> probing all positions." ;;
  SERIAL_ECHOLNPAIR (nl ++ "ITERATION: ") (Z.of_nat iteration + 1) ;;
  '(l1, z_measured_min) <-
     probe_loop raise_after iteration (seq 0 Z_STEPPER_COUNT) l (Fin 100000) ;;
  if err_break l1 then ret (l1, true)
  else
    let l2 := adapt_clearance l1 in
    report_differences l2 ;;
    stepper_set_separate_multi_axis true ;;
    '(l3, success_break) <-
       correct_loop z_auto_align_accuracy z_auto_align_amplification iteration
         (seq 0 Z_STEPPER_COUNT) l2 z_measured_min true ;;
    set_all_z_lock false ;;
    stepper_set_separate_multi_axis false ;;
    if err_break l3 then ret (l3, true)
    else if success_break
         then SERIAL_ECHOLNPGM "Target accuracy achieved." ;; ret (l3, true)
         else ret (l3, false).

(** The iteration loop, line 158: [todo] is what is left of
    [z_auto_align_iterations - iteration].  The result is the value of
    [iteration] after the loop and the locals. *)
Fixpoint iteration_loop (z_auto_align_accuracy z_auto_align_amplification : cfloat)
    (raise_after : ProbePtRaise) (todo iteration : nat) (l : Locals)
    : M (nat * Locals) :=
  match todo with
  | O => ret (iteration, l)
  | S todo' =>
      '(l1, broke) <- iteration_body z_auto_align_accuracy z_auto_align_amplification
                        raise_after iteration l ;;
      if broke then ret (iteration, l1)
      else iteration_loop z_auto_align_accuracy z_auto_align_amplification
             raise_after todo' (S iteration) l1
  end.

(** Lines 271-294: what follows a run that was not aborted. *)
Definition restore_after_alignment (leveling_was_active : bool) (old_tool_index : Z)
    : M unit :=
  when (1 <? HOTENDS cfg)%nat
    (tool_change old_tool_index (if PARKING_EXTRUDER cfg then false else true)) ;;
  when (HAS_LEVELING cfg && RESTORE_LEVELING_AFTER_G34 cfg)
    (set_bed_leveling_enabled leveling_was_active) ;;
  set_axis_is_not_at_home_Z ;;
  STOW_PROBE ;;
  process_subcommands_now "G28 Z".

(** Lines 99-294: the run proper, entered once the parameters are
    accepted. *)
Definition G34_run (z_auto_align_iterations : Z)
    (z_auto_align_accuracy z_auto_align_amplification : cfloat) (E : bool) : M unit :=
  planner_synchronize ;;
  leveling_was_active <- read leveling_active ;;
  when (HAS_LEVELING cfg) (set_bed_leveling_enabled false) ;;
  when (CNC_WORKSPACE_PLANES cfg) (write (set_workspace_plane PLANE_XY)) ;;
  old_tool_index <- read active_extruder ;;
  when (1 <? HOTENDS cfg)%nat (tool_change 0 true) ;;
  when (HAS_DUPLICATION_MODE cfg) (write (set_extruder_duplication_enabled false)) ;;
  pos <- read z_auto_align_pos ;;
  let z_probe0 := initial_z_probe pos in
  known <- all_axes_known ;;
  when (negb known) home_all_axes ;;
  z <- read current_position_z ;;
  write (set_current_position_z (fsub z (fmul z_probe0 (Fin (1 # 2))))) ;;
  let l0 := initial_locals z_probe0 z_auto_align_amplification in
  let raise_after := if E then PROBE_PT_STOW else PROBE_PT_RAISE in
  '(iteration, l) <-
     iteration_loop z_auto_align_accuracy z_auto_align_amplification raise_after
       (Z.to_nat z_auto_align_iterations) 0%nat l0 ;;
  if err_break l then SERIAL_ECHOLNPGM "G34 aborted."
  else
    SERIAL_ECHOLNPAIR "Did "
      (Z.of_nat iteration + (if Z.of_nat iteration =? z_auto_align_iterations then 0 else 1)) ;;
    SERIAL_ECHOLNPAIR " iterations of " z_auto_align_iterations ;;
    SERIAL_ECHOPAIR_F "Accuracy: " (z_maxdiff l) ;;
    SERIAL_EOL ;;
    restore_after_alignment leveling_was_active old_tool_index.

(** Lines 79-296: the [do { ... } while(0)] block with its checks. *)
Definition G34_block (a : G34_args) : M unit :=
  let z_auto_align_iterations :=
    int8_t (parser_val (arg_I a) (Z_STEPPER_ALIGN_ITERATIONS cfg)) in
  if negb (WITHIN_int z_auto_align_iterations 1 30) then
    SERIAL_ECHOLNPGM "?(I)teration out of bounds (1-30)."
  else
    let z_auto_align_accuracy := parser_val (arg_T a) (Z_STEPPER_ALIGN_ACC cfg) in
    if negb (WITHIN z_auto_align_accuracy (Fin (1 # 100)) (Fin 1)) then
      SERIAL_ECHOLNPGM "?(T)arget accuracy out of bounds (0.01-1.0)."
    else
      let z_auto_align_amplification := parser_val (arg_A a) (Z_STEPPER_ALIGN_AMP cfg) in
      if negb (WITHIN (ABS z_auto_align_amplification) (Fin (1 # 2)) (Fin 2)) then
        SERIAL_ECHOLNPGM "?(A)mplification out of bounds (0.5-2.0)."
      else
        G34_run z_auto_align_iterations z_auto_align_accuracy
                z_auto_align_amplification (arg_E a).

(** [GcodeSuite::G34], lines 73-299. *)
Definition G34 (a : G34_args) : M unit :=
  DEBUG (call (Ev_debug ">>> G34") ;; call Ev_log_machine_info) ;;
  G34_block a ;;
  DEBUG_ECHOLNPGM "<<< G34".

(** [GcodeSuite::M422], lines 304-327. *)
Definition M422 (a : M422_args) : M unit :=
  let zstepper := int8_t (parser_val (arg_S a) 0 - 1) in
  if negb (WITHIN_int zstepper 0 (Z.of_nat Z_STEPPER_COUNT - 1)) then
    SERIAL_ECHOLNPGM "?(S) Z-Stepper index invalid."
  else
    stored <- read (fun m => array_get origin (z_auto_align_pos m) (Z.to_nat zstepper)) ;;
    let pos := {| pos_x := parser_val (arg_X a) (pos_x stored);
                  pos_y := parser_val (arg_Y a) (pos_y stored) |} in
    if negb (WITHIN (pos_x pos) (X_MIN_POS cfg) (X_MAX_POS cfg)) then
      SERIAL_ECHOLNPGM "?(X) out of bounds."
    else if negb (WITHIN (pos_y pos) (Y_MIN_POS cfg) (Y_MAX_POS cfg)) then
      SERIAL_ECHOLNPGM "?(Y) out of bounds."
    else
      write (fun m => set_z_auto_align_pos
                        (array_set (z_auto_align_pos m) (Z.to_nat zstepper) pos) m).

End Handlers.

(** ** Reading a trace *)

Definition has_serial (msg : string) (t : list event) : bool :=
  existsb (fun e => match e with Ev_serial s => String.eqb s msg | _ => false end) t.

(** The spec's run status; the handler has no such variable and tells the
    outcomes apart by the line it prints. *)
Inductive Status : Type :=
| Running | Converged | IterationsExhausted | AbortedProbeFault | AbortedDiverging.

Definition run_status (t : list event) : Status :=
  if has_serial "Probing failed." t then AbortedProbeFault
  else if has_serial "Decreasing accuracy detected." t then AbortedDiverging
  else if has_serial "Target accuracy achieved." t then Converged
  else IterationsExhausted.

Definition is_iteration_banner (e : event) : bool :=
  match e with
  | Ev_serial_int s _ => String.eqb s (nl ++ "ITERATION: ")
  | _ => false
  end.

(** How many times the body of the iteration loop was entered. *)
Definition iterations_executed (t : list event) : nat :=
  List.length (filter is_iteration_banner t).

Definition is_probe (e : event) : bool :=
  match e with Ev_probe_at_point _ _ => true | _ => false end.

Definition probes_taken (t : list event) : nat := List.length (filter is_probe t).

Fixpoint probed_points (t : list event) : list xy_pos_t :=
  match t with
  | [] => []
  | Ev_probe_at_point p _ :: t' => p :: probed_points t'
  | _ :: t' => probed_points t'
  end.

(** Calls that command the steppers or change what they are allowed to do. *)
Definition is_stepper_event (e : event) : bool :=
  match e with
  | Ev_set_z_lock _ | Ev_set_z2_lock _ | Ev_set_z3_lock _
  | Ev_set_separate_multi_axis _ => true
  | _ => false
  end.

(** Calls that make the Z axis move. *)
Definition moves_z (e : event) : bool :=
  match e with
  | Ev_do_blocking_move_to_z _ | Ev_probe_at_point _ _
  | Ev_home_all_axes | Ev_process_subcommands_now _ => true
  | _ => false
  end.

(** Calls that touch the hardware or the machine state at all: anything
    but serial output. *)
Definition is_output_only (e : event) : bool :=
  match e with
  | Ev_serial _ | Ev_serial_int _ _ | Ev_serial_float _ _
  | Ev_debug _ | Ev_debug_float _ _ _ | Ev_log_machine_info => true
  | _ => false
  end.

(** The calls of the post-run restoration, lines 271-294. *)
Definition is_restoration (e : event) : bool :=
  match e with
  | Ev_set_axis_is_not_at_home_Z | Ev_STOW_PROBE
  | Ev_process_subcommands_now _ => true
  | _ => false
  end.

(** The lock state after a sequence of calls. *)
Definition replay (s : Stepper) (t : list event) : Stepper :=
  fold_left stepper_apply t s.

Definition unlocked_count (cfg : Config) (s : Stepper) : nat :=
  ((if locked_Z_motor s then 0 else 1)
   + (if locked_Z2_motor s then 0 else 1)
   + (if Z_TRIPLE_STEPPER_DRIVERS cfg
      then (if locked_Z3_motor s then 0 else 1) else 0))%nat.

(** No stepper is locked and the steppers are driven together. *)
Definition idle (cfg : Config) (s : Stepper) : bool :=
  negb (separate_multi_axis s)
  && (unlocked_count cfg s =? Z_STEPPER_COUNT cfg)%nat.

(** [free_at_moves free_inside free_outside s t]: at every call of [t]
    that moves the Z axis, the number of unlocked steppers is
    [free_inside] while the steppers are driven separately (the
    correction loop) and [free_outside] otherwise. *)
Fixpoint free_at_moves (cfg : Config) (free_inside free_outside : nat)
    (s : Stepper) (t : list event) : bool :=
  match t with
  | [] => true
  | e :: t' =>
      (if moves_z e
       then (unlocked_count cfg s =?
               (if separate_multi_axis s then free_inside else free_outside))%nat
       else true)
      && free_at_moves cfg free_inside free_outside (stepper_apply s e) t'
  end.

(** The lock discipline the handler keeps: one stepper free during a
    corrective move, all of them free outside the correction loop. *)
Definition lock_discipline (cfg : Config) (s : Stepper) (t : list event) : bool :=
  free_at_moves cfg 1 (Z_STEPPER_COUNT cfg) s t.

(** The lock discipline in the spec's words: one stepper free inside the
    isolated-actuation step, none outside. *)
Definition lock_discipline_spec (cfg : Config) (s : Stepper) (t : list event) : bool :=
  free_at_moves cfg 1 0 s t.

(** The height of the Z move a trace begins with, when it begins with
    one. *)
Definition leading_move (t : list event) : option cfloat :=
  match t with
  | Ev_do_blocking_move_to_z z :: _ => Some z
  | _ => None
  end.

(** The heights of the Z moves of a trace, in order. *)
Fixpoint move_heights (t : list event) : list cfloat :=
  match t with
  | [] => []
  | Ev_do_blocking_move_to_z z :: t' => z :: move_heights t'
  | _ :: t' => move_heights t'
  end.

(** The locals at the end of every pass through the body of the iteration
    loop, in order. *)
Fixpoint iteration_history (cfg : Config)
    (z_auto_align_accuracy z_auto_align_amplification : cfloat)
    (raise_after : ProbePtRaise) (todo iteration : nat) (l : Locals) (m : Machine)
    : list Locals :=
  match todo with
  | O => []
  | S todo' =>
      let r := iteration_body cfg z_auto_align_accuracy z_auto_align_amplification
                 raise_after iteration l m in
      fst (value_of r) ::
      (if snd (value_of r) then []
       else iteration_history cfg z_auto_align_accuracy z_auto_align_amplification
              raise_after todo' (S iteration) (fst (value_of r)) (state_of r))
  end.

(** Every stepper's last correction magnitude is within the target. *)
Definition within_target (cfg : Config) (z_auto_align_accuracy : cfloat) (l : Locals) : bool :=
  forallb (fun zstepper =>
             negb (fgt (fget (last_z_align_move l) zstepper) z_auto_align_accuracy))
          (seq 0 (Z_STEPPER_COUNT cfg)).

(** The order in which the steppers are probed in one iteration. *)
Definition probe_order (cfg : Config) (iteration : nat) : list nat :=
  map (probe_zstepper cfg iteration) (seq 0 (Z_STEPPER_COUNT cfg)).

(** The firmware state is well formed: one probe point per stepper. *)
Definition well_formed (cfg : Config) (m : Machine) : Prop :=
  List.length (z_auto_align_pos m) = Z_STEPPER_COUNT cfg.

(** ** A bench configuration

    A dual-Z machine with two hotends and bed levelling, used to run the
    handlers on concrete commands. *)

Definition sqrt_approx (a : cfloat) : cfloat :=
  match a with
  | NaN => NaN
  | Fin q => Fin (Z.sqrt (Qnum q * 1000000 / Zpos (Qden q)) # 1000)
  end.

Definition bench_cfg : Config :=
  {| Z_TRIPLE_STEPPER_DRIVERS := false;
     Z_STEPPER_ALIGN_ITERATIONS := 3;
     Z_STEPPER_ALIGN_ACC := Fin (2 # 100);
     Z_STEPPER_ALIGN_AMP := Fin 1;
     Z_CLEARANCE_BETWEEN_PROBES := Fin 5;
     G34_MAX_GRADE := Fin 5;
     X_MIN_POS := Fin 0;
     X_MAX_POS := Fin 235;
     Y_MIN_POS := Fin 0;
     Y_MAX_POS := Fin 235;
     Z_HOME_POS := Fin 0;
     HAS_LEVELING := true;
     RESTORE_LEVELING_AFTER_G34 := true;
     CNC_WORKSPACE_PLANES := false;
     HOTENDS := 2;
     HAS_DUPLICATION_MODE := false;
     BLTOUCH_HS_MODE := false;
     PARKING_EXTRUDER := false;
     SQRT := sqrt_approx |}.

Definition bench_cfg3 : Config :=
  {| Z_TRIPLE_STEPPER_DRIVERS := true;
     Z_STEPPER_ALIGN_ITERATIONS := 3;
     Z_STEPPER_ALIGN_ACC := Fin (2 # 100);
     Z_STEPPER_ALIGN_AMP := Fin 1;
     Z_CLEARANCE_BETWEEN_PROBES := Fin 5;
     G34_MAX_GRADE := Fin 5;
     X_MIN_POS := Fin 0;
     X_MAX_POS := Fin 235;
     Y_MIN_POS := Fin 0;
     Y_MAX_POS := Fin 235;
     Z_HOME_POS := Fin 0;
     HAS_LEVELING := true;
     RESTORE_LEVELING_AFTER_G34 := true;
     CNC_WORKSPACE_PLANES := false;
     HOTENDS := 2;
     HAS_DUPLICATION_MODE := false;
     BLTOUCH_HS_MODE := false;
     PARKING_EXTRUDER := false;
     SQRT := sqrt_approx |}.

Definition reading (z : Q) : ProbeReading :=
  {| measured_z := Fin z; z_after_probe := Fin (z + 5) |}.

Definition no_reading : ProbeReading :=
  {| measured_z := NaN; z_after_probe := Fin 0 |}.

Definition stepper_idle : Stepper :=
  {| locked_Z_motor := false; locked_Z2_motor := false;
     locked_Z3_motor := false; separate_multi_axis := false |}.

(** Homed, levelling on, second tool selected; [feed] is what the probe
    will report. *)
Definition bench (feed : list ProbeReading) : Machine :=
  {| z_auto_align_pos := [ {| pos_x := Fin 10; pos_y := Fin 100 |};
                           {| pos_x := Fin 200; pos_y := Fin 100 |} ];
     leveling_active := true;
     workspace_plane := PLANE_XY;
     active_extruder := 1;
     extruder_duplication_enabled := false;
     xy_axes_known := true;
     z_axis_known := true;
     current_position_z := Fin 10;
     stepper := stepper_idle;
     debug_leveling := false;
     probe_feed := feed |}.

Definition bench3 (feed : list ProbeReading) : Machine :=
  set_z_auto_align_pos
    [ {| pos_x := Fin 10; pos_y := Fin 20 |};
      {| pos_x := Fin 200; pos_y := Fin 20 |};
      {| pos_x := Fin 100; pos_y := Fin 200 |} ] (bench feed).

Definition G34_default : G34_args :=
  {| arg_I := None; arg_T := None; arg_A := None; arg_E := false |}.

Definition G34_I (n : Z) : G34_args :=
  {| arg_I := Some n; arg_T := None; arg_A := None; arg_E := false |}.

(** Hardware calls only: the trace without serial and debug output. *)
Definition hardware (t : list event) : list event :=
  filter (fun e => negb (is_output_only e)) t.


(** ** Which calls a computation can make *)

Definition emits {A : Type} (P : event -> bool) (c : M A) : Prop :=
  forall m, forallb P (trace_of (c m)) = true.

(** Calls that neither are stepper calls nor belong to the restoration,
    and no abort line: what the probing of one iteration may emit. *)
Definition probing_event (e : event) : bool :=
  match e with
  | Ev_serial _ | Ev_debug_float _ _ _
  | Ev_do_blocking_move_to_z _ | Ev_probe_at_point _ _ => true
  | _ => false
  end.

(** The first [n] readings the probe is going to deliver are all valid. *)
Definition all_valid (n : nat) (feed : list ProbeReading) : bool :=
  (n <=? List.length feed)%nat
  && forallb (fun r => negb (isnan (measured_z r))) (firstn n feed).

(** The probe point of a stepper. *)
Definition probe_point (m : Machine) (zstepper : nat) : xy_pos_t :=
  array_get origin (z_auto_align_pos m) zstepper.

Definition is_move (e : event) : bool :=
  match e with Ev_do_blocking_move_to_z _ => true | _ => false end.

(** What the correction loop may emit. *)
Definition correcting_event (e : event) : bool :=
  match e with
  | Ev_serial _ | Ev_debug_float _ _ _ | Ev_do_blocking_move_to_z _
  | Ev_set_z_lock _ | Ev_set_z2_lock _ | Ev_set_z3_lock _ => true
  | _ => false
  end.

(** A computation keeps the lock discipline: started with the steppers in
    a state [P], every Z move it commands is made with the right number of
    free steppers, and it leaves the steppers in a state [Q]. *)
Definition keeps_discipline (cfg : Config) {A : Type} (P Q : Stepper -> bool)
    (c : M A) : Prop :=
  forall m, P (stepper m) = true ->
    lock_discipline cfg (stepper m) (trace_of (c m)) = true
    /\ stepper (state_of (c m)) = replay (stepper m) (trace_of (c m))
    /\ Q (stepper (state_of (c m))) = true.

(** Every stepper is unlocked (whatever the multi-axis switch says). *)
Definition all_free (cfg : Config) (s : Stepper) : bool :=
  (unlocked_count cfg s =? Z_STEPPER_COUNT cfg)%nat.

(** The lock flag of stepper [i]. *)
Definition lock_flag (s : Stepper) (i : nat) : bool :=
  match i with
  | 0%nat => locked_Z_motor s
  | 1%nat => locked_Z2_motor s
  | _ => locked_Z3_motor s
  end.

(** Exactly stepper [zstepper] is unlocked. *)
Definition only_free (cfg : Config) (s : Stepper) (zstepper : nat) : bool :=
  forallb (fun i => Bool.eqb (lock_flag s i) (negb (i =? zstepper)%nat))
          (seq 0 (Z_STEPPER_COUNT cfg)).

Definition is_sep_on (e : event) : bool :=
  match e with Ev_set_separate_multi_axis b => b | _ => false end.

(** [corrects_in_turn s next t]: the Z moves of [t] that are made while
    the steppers are driven separately free the steppers in turn.  The
    first such move after separate driving is switched on is made with
    stepper 0 unlocked and every other stepper locked, the one after it
    with stepper 1 unlocked and every other locked, and so on; [next] is
    the stepper whose turn it is. *)
Fixpoint corrects_in_turn (cfg : Config) (s : Stepper) (next : nat)
    (t : list event) : bool :=
  match t with
  | [] => true
  | e :: t' =>
      (if moves_z e && separate_multi_axis s then only_free cfg s next else true)
      && corrects_in_turn cfg (stepper_apply s e)
           (if is_sep_on e then 0%nat
            else if moves_z e && separate_multi_axis s then S next else next) t'
  end.

(** A computation makes its corrective moves in turn: started with the
    steppers and the turn as [P] says, the check of its trace goes on, for
    whatever follows, from the lock state it leaves and a turn that [Q]
    describes. *)
Definition keeps_turn (cfg : Config) {A : Type} (P : Stepper -> nat -> bool)
    (Q : A -> Stepper -> nat -> bool) (c : M A) : Prop :=
  forall m n, P (stepper m) n = true ->
    exists n',
      (forall u, corrects_in_turn cfg (stepper m) n (trace_of (c m) ++ u)
                 = corrects_in_turn cfg (stepper (state_of (c m))) n' u)
      /\ Q (value_of (c m)) (stepper (state_of (c m))) n' = true.

(** The steppers are driven together. *)
Definition joint (s : Stepper) (n : nat) : bool := negb (separate_multi_axis s).

(** The steppers are driven separately. *)
Definition apart (s : Stepper) (n : nat) : bool := separate_multi_axis s.

(** The steppers are driven separately and it is the turn of [zstepper]. *)
Definition turn_at (zstepper : nat) (s : Stepper) (n : nat) : bool :=
  separate_multi_axis s && (n =? zstepper)%nat.

(** Calls that leave the steppers alone: no lock call, no Z move. *)
Definition quiet_event (e : event) : bool :=
  negb (is_stepper_event e) && negb (moves_z e).

(** Two iterations on a bed that is 1 mm out of level and level after the
    first correction. *)
Definition feed_converging : list ProbeReading :=
  [reading 1; reading 2; reading (3 # 2); reading (3 # 2)].

(** The line [msg] is not printed by this call. *)
Definition avoids (msg : string) (e : event) : bool :=
  match e with Ev_serial s => negb (String.eqb s msg) | _ => true end.

Definition not_banner (e : event) : bool := negb (is_iteration_banner e).

(** The arrays of the locals have one entry per stepper. *)
Definition locals_ok (cfg : Config) (l : Locals) : Prop :=
  List.length (last_z_align_move l) = Z_STEPPER_COUNT cfg
  /\ List.length (z_measured l) = Z_STEPPER_COUNT cfg.

Definition not_serial (e : event) : bool :=
  match e with Ev_serial _ => false | _ => true end.

(** The only line this call may print is [msg]. *)
Definition only_serial (msg : string) (e : event) : bool :=
  match e with Ev_serial s => String.eqb s msg | _ => true end.

(** What the report of the differences prints. *)
Definition report_event (e : event) : bool :=
  match e with
  | Ev_serial_float _ _ => true
  | Ev_serial s => String.eqb s EmptyString
  | _ => false
  end.

Definition not_restoration (e : event) : bool := negb (is_restoration e).
Definition not_stepper_event (e : event) : bool := negb (is_stepper_event e).

(** After a pass without abort, [last_z_align_move] holds the pass's
    correction magnitudes: the distances of the measurements from one
    common reference height. *)
Definition records_magnitudes (cfg : Config) (h : Locals) : Prop :=
  exists z_measured_min, forall zstepper, (zstepper < Z_STEPPER_COUNT cfg)%nat ->
    fget (last_z_align_move h) zstepper = z_align_abs_of h z_measured_min zstepper.

(** The preparation of a run, lines 99-147, as one computation: it gives
    back [leveling_was_active], [old_tool_index] and the first clearance
    height. *)
Definition G34_prepare (cfg : Config) : M (bool * Z * cfloat) :=
  (planner_synchronize ;;
   leveling_was_active <- read leveling_active ;;
   when (HAS_LEVELING cfg) (set_bed_leveling_enabled false) ;;
   when (CNC_WORKSPACE_PLANES cfg) (write (set_workspace_plane PLANE_XY)) ;;
   old_tool_index <- read active_extruder ;;
   when (1 <? HOTENDS cfg)%nat (tool_change 0 true) ;;
   when (HAS_DUPLICATION_MODE cfg) (write (set_extruder_duplication_enabled false)) ;;
   pos <- read z_auto_align_pos ;;
   known <- all_axes_known ;;
   when (negb known) (home_all_axes cfg) ;;
   z <- read current_position_z ;;
   write (set_current_position_z (fsub z (fmul (initial_z_probe cfg pos) (Fin (1 # 2))))) ;;
   ret (leveling_was_active, old_tool_index, initial_z_probe cfg pos))%M.

(** The end of a run that was not aborted, lines 267-294, as one
    computation. *)
Definition G34_finish (cfg : Config) (z_auto_align_iterations : Z) (iteration : nat)
    (l : Locals) (leveling_was_active : bool) (old_tool_index : Z) : M unit :=
  (SERIAL_ECHOLNPAIR "Did "
     (Z.of_nat iteration + (if Z.of_nat iteration =? z_auto_align_iterations then 0 else 1)) ;;
   SERIAL_ECHOLNPAIR " iterations of " z_auto_align_iterations ;;
   SERIAL_ECHOPAIR_F "Accuracy: " (z_maxdiff l) ;;
   SERIAL_EOL ;;
   restore_after_alignment cfg leveling_was_active old_tool_index)%M.

(** A computation leaves the table of probe points alone. *)
Definition keeps_pos {A : Type} (c : M A) : Prop :=
  forall m, z_auto_align_pos (state_of (c m)) = z_auto_align_pos m.

(** The number the line "Did n iterations of m" reports. *)
Fixpoint reported_iterations (t : list event) : option Z :=
  match t with
  | [] => None
  | Ev_serial_int s n :: t' =>
      if String.eqb s "Did " then Some n else reported_iterations t'
  | _ :: t' => reported_iterations t'
  end.

Definition not_did (e : event) : bool :=
  match e with
  | Ev_serial_int s _ => negb (String.eqb s "Did ")
  | _ => true
  end.

(** The parameter checks of [G34], lines 81-97, as one test. *)
Definition G34_accepts (cfg : Config) (a : G34_args) : bool :=
  WITHIN_int (int8_t (parser_val (arg_I a) (Z_STEPPER_ALIGN_ITERATIONS cfg))) 1 30
  && WITHIN (parser_val (arg_T a) (Z_STEPPER_ALIGN_ACC cfg)) (Fin (1 # 100)) (Fin 1)
  && WITHIN (ABS (parser_val (arg_A a) (Z_STEPPER_ALIGN_AMP cfg))) (Fin (1 # 2)) (Fin 2).

(** The calls of the preparation, in order. *)
Definition prepare_trace (cfg : Config) (m : Machine) : list event :=
  [Ev_planner_synchronize]
  ++ (if HAS_LEVELING cfg then [Ev_set_bed_leveling_enabled false] else [])
  ++ (if (1 <? HOTENDS cfg)%nat then [Ev_tool_change 0 true] else [])
  ++ (if xy_axes_known m && z_axis_known m then [] else [Ev_home_all_axes]).

(** The calls of the restoration, in order. *)
Definition restore_trace (cfg : Config) (leveling_was_active : bool)
    (old_tool_index : Z) : list event :=
  (if (1 <? HOTENDS cfg)%nat
   then [Ev_tool_change old_tool_index (if PARKING_EXTRUDER cfg then false else true)]
   else [])
  ++ (if HAS_LEVELING cfg && RESTORE_LEVELING_AFTER_G34 cfg
      then [Ev_set_bed_leveling_enabled leveling_was_active] else [])
  ++ [Ev_set_axis_is_not_at_home_Z; Ev_STOW_PROBE; Ev_process_subcommands_now "G28 Z"].

(** The second probe of the first iteration gives no reading. *)
Definition feed_fault : list ProbeReading := [reading 1; no_reading].

(** The second iteration (probed in descending order) finds the second
    stepper 3 mm off after it was 1 mm off. *)
Definition feed_diverging : list ProbeReading :=
  [reading 1; reading 2; reading 4; reading 1].

(** Two readings 20 m apart. *)
Definition feed_far : list ProbeReading := [reading 0; reading 20000].

(** A bed that stays 1 mm out of level. *)
Definition feed_stuck : list ProbeReading :=
  [reading 1; reading 2; reading 2; reading 1; reading 1; reading 2].

(** Locals as the second iteration may find them after probing. *)
Definition bench_locals : Locals :=
  {| z_probe := Fin 13;
     last_z_align_move := [Fin 0; Fin 1];
     z_measured := [Fin 6; Fin (13 # 2)];
     z_maxdiff := Fin (1 # 2);
     amplification := Fin 1;
     err_break := false |}.

Definition bench_locals_worse : Locals := set_z_measured [Fin 6; Fin 9] bench_locals.

(** ** Further readings of a trace *)

Definition ProbePtRaise_eqb (a b : ProbePtRaise) : bool :=
  match a, b with
  | PROBE_PT_STOW, PROBE_PT_STOW | PROBE_PT_RAISE, PROBE_PT_RAISE => true
  | _, _ => false
  end.

(** Everything the iteration loop can emit when it probes with
    [raise_after]: its four lines and end-of-line, the iteration banner,
    reports and debug output, Z moves, probes in that mode, and stepper
    calls. *)
Definition loop_event (raise_after : ProbePtRaise) (e : event) : bool :=
  match e with
  | Ev_serial s =>
      String.eqb s "Probing failed." || String.eqb s "Decreasing accuracy detected."
      || String.eqb s "Target accuracy achieved." || String.eqb s EmptyString
  | Ev_serial_int s _ => String.eqb s (nl ++ "ITERATION: ")
  | Ev_serial_float _ _ | Ev_debug _ | Ev_debug_float _ _ _ => true
  | Ev_do_blocking_move_to_z _ => true
  | Ev_probe_at_point _ r => ProbePtRaise_eqb r raise_after
  | Ev_set_separate_multi_axis _ | Ev_set_z_lock _ | Ev_set_z2_lock _
  | Ev_set_z3_lock _ => true
  | _ => false
  end.

(** Every probe of the trace is made in the mode [raise_after]. *)
Definition probes_in_mode (raise_after : ProbePtRaise) (t : list event) : bool :=
  forallb (fun e => match e with
                    | Ev_probe_at_point _ r => ProbePtRaise_eqb r raise_after
                    | _ => true
                    end) t.

Definition with_I (n : Z) (a : G34_args) : G34_args :=
  {| arg_I := Some n; arg_T := arg_T a; arg_A := arg_A a; arg_E := arg_E a |}.

(** The lines printed on the serial port, in order. *)
Fixpoint serial_lines (t : list event) : list string :=
  match t with
  | [] => []
  | Ev_serial s :: t' => s :: serial_lines t'
  | _ :: t' => serial_lines t'
  end.

(** The line a rejected [G34] prints: the checks are made in the order
    I, T, A and the first that fails is reported. *)
Definition G34_rejection_line (cfg : Config) (a : G34_args) : string :=
  if negb (WITHIN_int (int8_t (parser_val (arg_I a) (Z_STEPPER_ALIGN_ITERATIONS cfg))) 1 30)
  then "?(I)teration out of bounds (1-30)."
  else if negb (WITHIN (parser_val (arg_T a) (Z_STEPPER_ALIGN_ACC cfg)) (Fin (1 # 100)) (Fin 1))
  then "?(T)arget accuracy out of bounds (0.01-1.0)."
  else "?(A)mplification out of bounds (0.5-2.0).".

Definition M422_set (zstepper : nat) (x y : cfloat) : M422_args :=
  {| arg_S := Some (Z.of_nat zstepper + 1); arg_X := Some x; arg_Y := Some y |}.

(** The iteration loop as an accepted [G34] runs it: with the parameters
    of the command, from the state the preparation leaves. *)
Definition G34_loop_run (cfg : Config) (a : G34_args) (m : Machine)
    : nat * Locals * Machine * list event :=
  iteration_loop cfg
    (parser_val (arg_T a) (Z_STEPPER_ALIGN_ACC cfg))
    (parser_val (arg_A a) (Z_STEPPER_ALIGN_AMP cfg))
    (if arg_E a then PROBE_PT_STOW else PROBE_PT_RAISE)
    (Z.to_nat (int8_t (parser_val (arg_I a) (Z_STEPPER_ALIGN_ITERATIONS cfg))))
    0
    (initial_locals cfg (initial_z_probe cfg (z_auto_align_pos m))
       (parser_val (arg_A a) (Z_STEPPER_ALIGN_AMP cfg)))
    (state_of (G34_prepare cfg m)).

(** What follows the iteration loop in the trace. *)
Definition G34_tail (cfg : Config) (a : G34_args) (m : Machine) : list event :=
  let rl := G34_loop_run cfg a m in
  if err_break (snd (value_of rl)) then [Ev_serial "G34 aborted."]
  else
    [Ev_serial_int "Did "
       (Z.of_nat (fst (value_of rl))
        + (if Z.of_nat (fst (value_of rl))
              =? int8_t (parser_val (arg_I a) (Z_STEPPER_ALIGN_ITERATIONS cfg))
           then 0 else 1));
     Ev_serial_int " iterations of "
       (int8_t (parser_val (arg_I a) (Z_STEPPER_ALIGN_ITERATIONS cfg)));
     Ev_serial_float "Accuracy: " (z_maxdiff (snd (value_of rl)));
     Ev_serial EmptyString]
    ++ restore_trace cfg (leveling_active m) (active_extruder m).

Definition G34_debug_in (m : Machine) : list event :=
  if debug_leveling m then [Ev_debug ">>> G34"; Ev_log_machine_info] else [].

Definition G34_debug_out (m : Machine) : list event :=
  if debug_leveling m then [Ev_debug "<<< G34"] else [].

(** Calls that are neither output nor a probe: the preparation and the
    restoration consist of such calls. *)
Definition service_event (e : event) : bool :=
  match e with
  | Ev_planner_synchronize | Ev_set_bed_leveling_enabled _ | Ev_tool_change _ _
  | Ev_home_all_axes | Ev_set_axis_is_not_at_home_Z | Ev_STOW_PROBE
  | Ev_process_subcommands_now _ => true
  | _ => false
  end.

Definition debug_event (e : event) : bool :=
  match e with
  | Ev_debug _ | Ev_log_machine_info => true
  | _ => false
  end.

(** [set_all_z_lock(true)] followed by the [switch] of lines 243-249. *)
Definition isolate_stepper (cfg : Config) (zstepper : nat) : M unit :=
  (set_all_z_lock cfg true ;; unlock_one cfg zstepper)%M.


(** A computation leaves a part of the machine state as it found it. *)
Definition keeps_field {A B : Type} (f : Machine -> B) (c : M A) : Prop :=
  forall m, f (state_of (c m)) = f m.

(** [DEBUGGING(LEVELING)] switched on or off from outside the handlers. *)
Definition set_debug_leveling (b : bool) (m : Machine) : Machine :=
  {| z_auto_align_pos := z_auto_align_pos m;
     leveling_active := leveling_active m;
     workspace_plane := workspace_plane m;
     active_extruder := active_extruder m;
     extruder_duplication_enabled := extruder_duplication_enabled m;
     xy_axes_known := xy_axes_known m;
     z_axis_known := z_axis_known m;
     current_position_z := current_position_z m;
     stepper := stepper m;
     debug_leveling := b;
     probe_feed := probe_feed m |}.

(** What the [DEBUG_...] macros and [log_machine_info] write. *)
Definition debug_output (e : event) : bool :=
  match e with
  | Ev_debug _ | Ev_debug_float _ _ _ | Ev_log_machine_info => true
  | _ => false
  end.

Definition without_debug (t : list event) : list event :=
  filter (fun e => negb (debug_output e)) t.

(** A computation on which the debug flag has no influence but for the
    debug output itself: result, final state and every other call are the
    same whatever the flag is, the flag is left as it was, and with the flag
    off there is no debug output. *)
Definition debug_blind {A : Type} (c : M A) : Prop :=
  forall (b : bool) (m : Machine),
    value_of (c (set_debug_leveling b m)) = value_of (c m)
    /\ state_of (c (set_debug_leveling b m)) = set_debug_leveling b (state_of (c m))
    /\ without_debug (trace_of (c (set_debug_leveling b m)))
       = without_debug (trace_of (c m))
    /\ without_debug (trace_of (c (set_debug_leveling false m)))
       = trace_of (c (set_debug_leveling false m)).

(** ** The reported differences and accuracy *)

(** The value last printed with the label [label]. *)
Fixpoint last_reported (label : string) (t : list event) : option cfloat :=
  match t with
  | [] => None
  | e :: t' =>
      match last_reported label t' with
      | Some v => Some v
      | None =>
          match e with
          | Ev_serial_float s v => if String.eqb s label then Some v else None
          | _ => None
          end
      end
  end.

(** Calls that print no number with a label. *)
Definition no_float (e : event) : bool :=
  match e with Ev_serial_float _ _ => false | _ => true end.

(** The trace [t] last reported the differences of the measured heights
    of [l], and [z_maxdiff] of [l] is the largest of them. *)
Definition final_report (cfg : Config) (l : Locals) (t : list event) : Prop :=
  let z := fget (z_measured l) in
  last_reported (nl ++ "DIFFERENCE Z1-Z2=") t = Some (ABS (fsub (z 0%nat) (z 1%nat)))
  /\ (Z_TRIPLE_STEPPER_DRIVERS cfg = true ->
      last_reported " Z2-Z3=" t = Some (ABS (fsub (z 1%nat) (z 2%nat)))
      /\ last_reported " Z3-Z1=" t = Some (ABS (fsub (z 2%nat) (z 0%nat))))
  /\ z_maxdiff l
     = (if Z_TRIPLE_STEPPER_DRIVERS cfg
        then _MAX3 (ABS (fsub (z 0%nat) (z 1%nat))) (ABS (fsub (z 1%nat) (z 2%nat)))
                   (ABS (fsub (z 2%nat) (z 0%nat)))
        else ABS (fsub (z 0%nat) (z 1%nat))).
(** * Properties *)

Local Open Scope m_scope.

(** ** Numbers *)

Lemma flt_Fin (p q : Q) : flt (Fin p) (Fin q) = true <-> (p < q)%Q.
Proof.
  simpl. rewrite negb_true_iff. split; intro H.
  - apply Qnot_le_lt. intro C. apply Qle_bool_iff in C. congruence.
  - destruct (Qle_bool q p) eqn:E; [|reflexivity].
    apply Qle_bool_iff in E. exfalso. exact (Qlt_not_le _ _ H E).
Qed.

Lemma fle_Fin (p q : Q) : fle (Fin p) (Fin q) = true <-> (p <= q)%Q.
Proof. simpl. apply Qle_bool_iff. Qed.

Lemma not_fgt_Fin (p q : Q) : negb (fgt (Fin p) (Fin q)) = fle (Fin p) (Fin q).
Proof. simpl. apply negb_involutive. Qed.

Lemma int8_t_small (z : Z) : -128 <= z <= 127 -> int8_t z = z.
Proof. intro H. unfold int8_t. rewrite Z.mod_small by lia. lia. Qed.

Lemma int8_t_range (z : Z) : -128 <= int8_t z <= 127.
Proof. unfold int8_t. pose proof (Z.mod_pos_bound (z + 128) 256). lia. Qed.

Lemma WITHIN_int_iff (n l h : Z) : WITHIN_int n l h = true <-> l <= n <= h.
Proof. unfold WITHIN_int. rewrite andb_true_iff, !Z.leb_le. tauto. Qed.

(** ** Arrays *)

Lemma array_set_length {A : Type} (a : list A) (i : nat) (v : A) :
  List.length (array_set a i v) = List.length a.
Proof.
  revert i. induction a as [|h t IH]; intros [|j]; simpl; auto.
Qed.

Lemma array_get_set_same {A : Type} (d : A) (a : list A) (i : nat) (v : A) :
  (i < List.length a)%nat -> array_get d (array_set a i v) i = v.
Proof.
  unfold array_get. revert i. induction a as [|h t IH]; intros [|j] H; simpl in *;
    try lia; auto. apply IH. lia.
Qed.

Lemma array_get_set_other {A : Type} (d : A) (a : list A) (i j : nat) (v : A) :
  i <> j -> array_get d (array_set a i v) j = array_get d a j.
Proof.
  unfold array_get. revert i j. induction a as [|h t IH]; intros [|i] [|j] H; simpl;
    try congruence; auto.
Qed.

(** ** The monad *)

Lemma bind_trace {A B : Type} (c : M A) (k : A -> M B) (m : Machine) :
  trace_of (bind c k m)
  = trace_of (c m) ++ trace_of (k (value_of (c m)) (state_of (c m))).
Proof.
  unfold bind, trace_of, value_of, state_of.
  destruct (c m) as [[a m1] t1]. simpl. destruct (k a m1) as [[b m2] t2]. reflexivity.
Qed.

Lemma bind_state {A B : Type} (c : M A) (k : A -> M B) (m : Machine) :
  state_of (bind c k m) = state_of (k (value_of (c m)) (state_of (c m))).
Proof.
  unfold bind, trace_of, value_of, state_of.
  destruct (c m) as [[a m1] t1]. simpl. destruct (k a m1) as [[b m2] t2]. reflexivity.
Qed.

Lemma bind_value {A B : Type} (c : M A) (k : A -> M B) (m : Machine) :
  value_of (bind c k m) = value_of (k (value_of (c m)) (state_of (c m))).
Proof.
  unfold bind, trace_of, value_of, state_of.
  destruct (c m) as [[a m1] t1]. simpl. destruct (k a m1) as [[b m2] t2]. reflexivity.
Qed.

Lemma run_eta {A : Type} (r : A * Machine * list event) :
  r = (value_of r, state_of r, trace_of r).
Proof. destruct r as [[a m] t]. reflexivity. Qed.

(** ** Which calls a computation can make *)

Lemma emits_ret {A : Type} (P : event -> bool) (a : A) : emits P (ret a).
Proof. intro m. reflexivity. Qed.

Lemma emits_bind {A B : Type} (P : event -> bool) (c : M A) (k : A -> M B) :
  emits P c -> (forall a, emits P (k a)) -> emits P (bind c k).
Proof.
  intros Hc Hk m. rewrite bind_trace, forallb_app, Hc. simpl. apply Hk.
Qed.

Lemma emits_call (P : event -> bool) (e : event) : P e = true -> emits P (call e).
Proof. intros H m. simpl. rewrite H. reflexivity. Qed.

Lemma emits_stepper_call (P : event -> bool) (e : event) :
  P e = true -> emits P (stepper_call e).
Proof. intros H m. simpl. rewrite H. reflexivity. Qed.

Lemma emits_when (P : event -> bool) (b : bool) (c : M unit) :
  emits P c -> emits P (when b c).
Proof. intro H. destruct b; simpl; [exact H | apply emits_ret]. Qed.

Lemma emits_DEBUG (P : event -> bool) (c : M unit) : emits P c -> emits P (DEBUG c).
Proof.
  intros H m. unfold DEBUG. destruct (debug_leveling m); [apply H | reflexivity].
Qed.

Lemma emits_read {A : Type} (P : event -> bool) (f : Machine -> A) : emits P (read f).
Proof. intro m. reflexivity. Qed.

Lemma emits_write (P : event -> bool) (f : Machine -> Machine) : emits P (write f).
Proof. intro m. reflexivity. Qed.

Lemma emits_probe_at_point (P : event -> bool) (pos : xy_pos_t) (r : ProbePtRaise) :
  P (Ev_probe_at_point pos r) = true -> emits P (probe_at_point pos r).
Proof.
  intros H m. unfold probe_at_point.
  destruct (probe_feed m); simpl; rewrite H; reflexivity.
Qed.

Lemma emits_move (P : event -> bool) (z : cfloat) :
  P (Ev_do_blocking_move_to_z z) = true -> emits P (do_blocking_move_to_z z).
Proof. intros H m. simpl. rewrite H. reflexivity. Qed.

Lemma emits_weaken {A : Type} (P Q : event -> bool) (c : M A) :
  (forall e, P e = true -> Q e = true) -> emits P c -> emits Q c.
Proof.
  intros HPQ H m. specialize (H m). rewrite forallb_forall in *. auto.
Qed.

(** ** Reading traces *)

Lemma probed_points_app (t u : list event) :
  probed_points (t ++ u) = probed_points t ++ probed_points u.
Proof.
  induction t as [|e t IH]; simpl; [reflexivity|].
  destruct e; simpl; rewrite ?IH; reflexivity.
Qed.

Lemma probes_taken_points (t : list event) :
  probes_taken t = List.length (probed_points t).
Proof.
  unfold probes_taken. induction t as [|e t IH]; simpl; [reflexivity|].
  destruct e; simpl; rewrite ?IH; reflexivity.
Qed.

Lemma probes_taken_app (t u : list event) :
  probes_taken (t ++ u) = (probes_taken t + probes_taken u)%nat.
Proof. rewrite !probes_taken_points, probed_points_app, length_app. reflexivity. Qed.

Lemma iterations_executed_app (t u : list event) :
  iterations_executed (t ++ u) = (iterations_executed t + iterations_executed u)%nat.
Proof. unfold iterations_executed. rewrite filter_app, length_app. reflexivity. Qed.

Lemma has_serial_app (msg : string) (t u : list event) :
  has_serial msg (t ++ u) = has_serial msg t || has_serial msg u.
Proof. unfold has_serial. apply existsb_app. Qed.

Lemma replay_app (s : Stepper) (t u : list event) :
  replay s (t ++ u) = replay (replay s t) u.
Proof. unfold replay. apply fold_left_app. Qed.

Section Proofs.

Variable cfg : Config.

Lemma Z_STEPPER_COUNT_cases : Z_STEPPER_COUNT cfg = 2%nat \/ Z_STEPPER_COUNT cfg = 3%nat.
Proof. unfold Z_STEPPER_COUNT. destruct (Z_TRIPLE_STEPPER_DRIVERS cfg); auto. Qed.

(** ** The order of probing *)

Lemma iteration_bit (k : nat) : negb (Nat.land k 1 =? 0)%nat = Nat.odd k.
Proof.
  change 1%nat with (Nat.ones 1). rewrite Nat.land_ones.
  change (2 ^ 1)%nat with 2%nat.
  rewrite <- Nat.bit0_mod, Nat.bit0_odd. destruct (Nat.odd k); reflexivity.
Qed.

Lemma probe_order_even (k : nat) :
  Nat.even k = true -> probe_order cfg k = seq 0 (Z_STEPPER_COUNT cfg).
Proof.
  intro H. unfold probe_order, probe_zstepper. rewrite iteration_bit.
  rewrite <- Nat.negb_even, H. simpl. apply map_id.
Qed.

Lemma probe_order_odd (k : nat) :
  Nat.even k = false -> probe_order cfg k = rev (seq 0 (Z_STEPPER_COUNT cfg)).
Proof.
  intro H. unfold probe_order, probe_zstepper. rewrite iteration_bit.
  rewrite <- Nat.negb_even, H. simpl.
  destruct Z_STEPPER_COUNT_cases as [E|E]; rewrite E; reflexivity.
Qed.

Lemma probe_order_perm (k : nat) : Permutation (probe_order cfg k) (seq 0 (Z_STEPPER_COUNT cfg)).
Proof.
  destruct (Nat.even k) eqn:E.
  - rewrite probe_order_even by exact E. apply Permutation_refl.
  - rewrite probe_order_odd by exact E. apply Permutation_sym, Permutation_rev.
Qed.

Lemma probe_order_length (k : nat) : List.length (probe_order cfg k) = Z_STEPPER_COUNT cfg.
Proof. unfold probe_order. rewrite length_map, length_seq. reflexivity. Qed.

(** ** One pass of the probing loop *)

Ltac run_m :=
  cbv beta iota zeta delta
    [bind ret call read write when DEBUG DEBUG_ECHOLNPAIR DEBUG_ECHOLNPGM
     SERIAL_ECHOLNPGM SERIAL_ECHOLNPAIR SERIAL_ECHOPAIR_F SERIAL_EOL
     do_blocking_move_to_z probe_at_point stepper_call stepper_set_z_lock
     stepper_set_z2_lock stepper_set_z3_lock stepper_set_separate_multi_axis
     trace_of state_of value_of fst snd].

Lemma probe_step_spec (raise_after : ProbePtRaise) (k iz : nat) (l : Locals)
    (zmin : cfloat) (m : Machine) :
  let r := probe_step cfg raise_after k iz l zmin m in
  let l1 := fst (fst (value_of r)) in
  let go_on := snd (value_of r) in
  z_auto_align_pos (state_of r) = z_auto_align_pos m
  /\ stepper (state_of r) = stepper m
  /\ probe_feed (state_of r) = tl (probe_feed m)
  /\ probed_points (trace_of r) = [probe_point m (probe_zstepper cfg k iz)]
  /\ go_on = all_valid 1 (probe_feed m)
  /\ forallb probing_event (trace_of r) = true
  /\ leading_move (trace_of r)
     = (if clearance_move_wanted k iz then Some (z_probe l) else None)
  /\ last_z_align_move l1 = last_z_align_move l
  /\ amplification l1 = amplification l
  /\ z_probe l1 = z_probe l
  /\ List.length (z_measured l1) = List.length (z_measured l)
  /\ err_break l1 = (if go_on then err_break l else true)
  /\ has_serial "Probing failed." (trace_of r) = negb go_on
  /\ forallb (only_serial "Probing failed.") (trace_of r) = true
  /\ (go_on = false ->
      exists t0, trace_of r = t0 ++ [Ev_serial "Probing failed."]).
Proof.
  unfold probe_step, probe_point, all_valid. run_m.
  destruct (clearance_move_wanted k iz); simpl;
    (destruct (probe_feed m) as [|rd rest] eqn:Efeed; simpl;
     [|destruct (isnan (measured_z rd)); simpl;
       [|destruct (debug_leveling m); simpl]]);
    rewrite ?array_set_length;
    repeat split; try reflexivity; try discriminate; try assumption; intros _.
  - exists [Ev_do_blocking_move_to_z (z_probe l);
            Ev_probe_at_point (array_get origin (z_auto_align_pos m)
                                 (probe_zstepper cfg k iz)) raise_after].
    reflexivity.
  - exists [Ev_do_blocking_move_to_z (z_probe l);
            Ev_probe_at_point (array_get origin (z_auto_align_pos m)
                                 (probe_zstepper cfg k iz)) raise_after].
    reflexivity.
  - exists [Ev_probe_at_point (array_get origin (z_auto_align_pos m)
                                 (probe_zstepper cfg k iz)) raise_after].
    reflexivity.
  - exists [Ev_probe_at_point (array_get origin (z_auto_align_pos m)
                                 (probe_zstepper cfg k iz)) raise_after].
    reflexivity.
Qed.

Lemma all_valid_S (n : nat) (feed : list ProbeReading) :
  all_valid (S n) feed = all_valid 1 feed && all_valid n (tl feed).
Proof.
  unfold all_valid. destruct feed as [|r rest]; simpl.
  - reflexivity.
  - destruct (n <=? List.length rest)%nat, (isnan (measured_z r)); reflexivity.
Qed.

(** ** The probing loop *)

Lemma probe_loop_spec (raise_after : ProbePtRaise) (k : nat) (izs : list nat) :
  forall (l : Locals) (zmin : cfloat) (m : Machine),
  let r := probe_loop cfg raise_after k izs l zmin m in
  let l1 := fst (value_of r) in
  z_auto_align_pos (state_of r) = z_auto_align_pos m
  /\ stepper (state_of r) = stepper m
  /\ probed_points (trace_of r)
     = firstn (probes_taken (trace_of r))
         (map (fun iz => probe_point m (probe_zstepper cfg k iz)) izs)
  /\ forallb probing_event (trace_of r) = true
  /\ last_z_align_move l1 = last_z_align_move l
  /\ amplification l1 = amplification l
  /\ z_probe l1 = z_probe l
  /\ List.length (z_measured l1) = List.length (z_measured l)
  /\ has_serial "Probing failed." (trace_of r)
     = negb (all_valid (List.length izs) (probe_feed m))
  /\ forallb (only_serial "Probing failed.") (trace_of r) = true
  /\ (if all_valid (List.length izs) (probe_feed m)
      then err_break l1 = err_break l
           /\ probes_taken (trace_of r) = List.length izs
           /\ probe_feed (state_of r) = skipn (List.length izs) (probe_feed m)
      else err_break l1 = true
           /\ (probes_taken (trace_of r) <= List.length izs)%nat
           /\ exists t0, trace_of r = t0 ++ [Ev_serial "Probing failed."]).
Proof.
  induction izs as [|iz rest IH]; intros l zmin m.
  - simpl. repeat split; reflexivity.
  - cbn zeta. cbn [probe_loop].
    rewrite bind_trace, bind_state, bind_value.
    pose proof (probe_step_spec raise_after k iz l zmin m) as S0.
    cbn zeta in S0.
    set (r0 := probe_step cfg raise_after k iz l zmin m) in *.
    destruct S0 as (Hpos & Hst & Hfeed & Hpts & Hgo & Hev & _ & Hlast & Hamp & Hzp
                    & Hlen & Herr & Hhas & Honly & Hfail).
    destruct (value_of r0) as [[l1 zmin1] go_on] eqn:Ev.
    cbn [fst snd List.length] in *.
    rewrite all_valid_S, <- Hgo.
    destruct go_on.
    + specialize (IH l1 zmin1 (state_of r0)).
      cbn zeta in IH.
      set (r1 := probe_loop cfg raise_after k rest l1 zmin1 (state_of r0)) in *.
      destruct IH as (IHpos & IHst & IHpts & IHev & IHlast & IHamp & IHzp & IHlen
                      & IHhas & IHonly & IHv).
      rewrite has_serial_app, Hhas, IHhas, Hfeed.
      rewrite probed_points_app, probes_taken_app, !forallb_app, Hev, IHev, Hpts,
        Honly, IHonly.
      assert (H1 : probes_taken (trace_of r0) = 1%nat)
        by (rewrite probes_taken_points, Hpts; reflexivity).
      rewrite H1. cbn [List.length Nat.add app].
      rewrite IHpos, IHst, IHlast, IHamp, IHzp, IHlen, Hpos, Hst, Hlast, Hamp, Hzp, Hlen.
      repeat split; try reflexivity.
      * cbn [map firstn]. f_equal. rewrite IHpts. unfold probe_point. rewrite Hpos.
        reflexivity.
      * rewrite Hfeed in IHv. cbn [andb].
        destruct (all_valid (List.length rest) (tl (probe_feed m))).
        -- destruct IHv as (E1 & E2 & E3). rewrite E1, E2, E3, Herr.
           repeat split; try reflexivity.
           destruct (probe_feed m); simpl; [rewrite skipn_nil|]; reflexivity.
        -- destruct IHv as (E1 & E2 & t0 & E3). rewrite E1.
           repeat split; [lia|].
           exists (trace_of r0 ++ t0).
           rewrite E3, app_assoc. reflexivity.
    + cbn [trace_of state_of value_of ret fst snd]. rewrite app_nil_r.
      fold (trace_of r0). fold (state_of r0).
      rewrite Hpos, Hst, Hlast, Hamp, Hzp, Hlen, Hev, Herr, Hhas, Honly.
      rewrite probes_taken_points, Hpts. cbn [andb negb List.length map firstn].
      repeat split; try reflexivity; [lia|]. apply Hfail. reflexivity.
Qed.

(** ** One pass of the correction loop *)

Lemma correct_step_spec (acc amp : cfloat) (k z : nat) (l : Locals) (zmin : cfloat)
    (sb : bool) (m : Machine) :
  let r := correct_step cfg acc amp k z l zmin sb m in
  let l1 := fst (fst (value_of r)) in
  let sb1 := snd (fst (value_of r)) in
  let go_on := snd (value_of r) in
  go_on = negb (accuracy_decreased l zmin z)
  /\ amplification l1 = tuned_amplification amp k l zmin z
  /\ z_measured l1 = z_measured l
  /\ z_probe l1 = z_probe l
  /\ z_maxdiff l1 = z_maxdiff l
  /\ z_auto_align_pos (state_of r) = z_auto_align_pos m
  /\ probe_feed (state_of r) = probe_feed m
  /\ stepper (state_of r) = replay (stepper m) (trace_of r)
  /\ forallb correcting_event (trace_of r) = true
  /\ probed_points (trace_of r) = []
  /\ forallb (only_serial "Decreasing accuracy detected.") (trace_of r) = true
  /\ (if go_on
      then last_z_align_move l1
           = array_set (last_z_align_move l) z (z_align_abs_of l zmin z)
           /\ err_break l1 = err_break l
           /\ sb1 = (if fgt (z_align_abs_of l zmin z) acc then false else sb)
           /\ exists t0,
                trace_of r
                = t0 ++ [Ev_do_blocking_move_to_z
                           (fadd (fmul (tuned_amplification amp k l zmin z)
                                       (z_align_move_of l zmin z))
                                 (current_position_z m))]
                /\ forallb (fun e => negb (moves_z e)) t0 = true
                /\ forallb not_serial (trace_of r) = true
      else last_z_align_move l1 = last_z_align_move l
           /\ err_break l1 = true
           /\ sb1 = sb
           /\ state_of r = m
           /\ trace_of r = [Ev_serial "Decreasing accuracy detected."]).
Proof.
  unfold correct_step, set_all_z_lock, unlock_one, replay. run_m.
  destruct (accuracy_decreased l zmin z); simpl.
  - repeat split; reflexivity.
  - destruct (debug_leveling m), (Z_TRIPLE_STEPPER_DRIVERS cfg),
      z as [|[|[|z']]]; simpl; repeat split; try reflexivity;
      match goal with
      | |- exists t0, ?t = t0 ++ _ /\ _ =>
          exists (removelast t); repeat split; reflexivity
      end.
Qed.

(** ** The lock discipline *)

Lemma free_at_moves_app (fi fo : nat) (s : Stepper) (t u : list event) :
  free_at_moves cfg fi fo s (t ++ u)
  = free_at_moves cfg fi fo s t && free_at_moves cfg fi fo (replay s t) u.
Proof.
  revert s. induction t as [|e t IH]; intro s; simpl; [reflexivity|].
  rewrite IH, andb_assoc. reflexivity.
Qed.

Lemma kd_ret {A : Type} (P : Stepper -> bool) (a : A) :
  keeps_discipline cfg P P (ret a).
Proof. intros m H. simpl. auto. Qed.

Lemma kd_bind {A B : Type} (P Q R : Stepper -> bool) (c : M A) (k : A -> M B) :
  keeps_discipline cfg P Q c ->
  (forall a, keeps_discipline cfg Q R (k a)) ->
  keeps_discipline cfg P R (bind c k).
Proof.
  intros Hc Hk m HP. destruct (Hc m HP) as (D1 & S1 & Q1).
  destruct (Hk (value_of (c m)) (state_of (c m)) Q1) as (D2 & S2 & R2).
  rewrite bind_trace, bind_state. unfold lock_discipline in *.
  rewrite free_at_moves_app, replay_app, D1, <- S1, D2, <- S2. auto.
Qed.

Lemma kd_quiet {A : Type} (P : Stepper -> bool) (c : M A) :
  emits quiet_event c ->
  (forall m, stepper (state_of (c m)) = stepper m) ->
  keeps_discipline cfg P P c.
Proof.
  intros He Hs m HP. rewrite Hs. specialize (He m).
  assert (G : forall t s, forallb quiet_event t = true ->
              lock_discipline cfg s t = true /\ s = replay s t).
  { unfold lock_discipline, replay.
    induction t as [|e t IH]; intros s Ht; simpl in *; [auto|].
    apply andb_true_iff in Ht. destruct Ht as [He1 Ht]. unfold quiet_event in He1.
    apply andb_true_iff in He1. destruct He1 as [Hq Hm].
    apply negb_true_iff in Hm. rewrite Hm.
    assert (E : stepper_apply s e = s) by (destruct e; simpl in *; congruence).
    rewrite E. apply IH. exact Ht. }
  destruct (G _ (stepper m) He) as [G1 G2]. rewrite <- G2. auto.
Qed.

Lemma kd_when (P : Stepper -> bool) (b : bool) (c : M unit) :
  keeps_discipline cfg P P c -> keeps_discipline cfg P P (when b c).
Proof. intro H. destruct b; [exact H | apply kd_ret]. Qed.

Lemma kd_weaken {A : Type} (P P' Q Q' : Stepper -> bool) (c : M A) :
  (forall s, P' s = true -> P s = true) ->
  (forall s, Q s = true -> Q' s = true) ->
  keeps_discipline cfg P Q c -> keeps_discipline cfg P' Q' c.
Proof.
  intros HP HQ H m Hm. destruct (H m (HP _ Hm)) as (D & S & Q1). auto.
Qed.

(** A call that moves the Z axis while no stepper is locked. *)
Lemma kd_idle_move {A : Type} (c : M A) :
  (forall m, stepper (state_of (c m)) = stepper m) ->
  (forall m, exists e, trace_of (c m) = [e] /\ is_stepper_event e = false) ->
  keeps_discipline cfg (idle cfg) (idle cfg) c.
Proof.
  intros Hs Ht m HP. rewrite Hs. destruct (Ht m) as (e & Et & Ee). rewrite Et.
  assert (E : stepper_apply (stepper m) e = stepper m)
    by (destruct e; simpl in *; congruence).
  unfold lock_discipline, replay. simpl. rewrite E.
  unfold idle in HP. apply andb_true_iff in HP. destruct HP as [H1 H2].
  apply negb_true_iff in H1. rewrite H1, H2.
  unfold idle. rewrite H1, H2. destruct (moves_z e); auto.
Qed.

Lemma kd_probe_step (raise_after : ProbePtRaise) (k iz : nat) (l : Locals)
    (zmin : cfloat) :
  keeps_discipline cfg (idle cfg) (idle cfg) (probe_step cfg raise_after k iz l zmin).
Proof.
  unfold probe_step.
  apply kd_bind with (Q := idle cfg).
  { apply kd_when. apply kd_idle_move; intro m; [reflexivity|].
    eexists; split; reflexivity. }
  intros _. apply kd_bind with (Q := idle cfg).
  { apply kd_quiet; [apply emits_read | reflexivity]. }
  intros pos. apply kd_bind with (Q := idle cfg).
  { apply kd_idle_move; intro m; unfold probe_at_point;
      destruct (probe_feed m); try reflexivity; eexists; split; reflexivity. }
  intros z. destruct (isnan z).
  - apply kd_bind with (Q := idle cfg); [|intros; apply kd_ret].
    apply kd_quiet; [apply emits_call|]; reflexivity.
  - apply kd_bind with (Q := idle cfg); [|intros; apply kd_ret].
    apply kd_quiet.
    + apply emits_DEBUG, emits_call. reflexivity.
    + intro m. unfold DEBUG_ECHOLNPAIR, DEBUG. destruct (debug_leveling m); reflexivity.
Qed.

Lemma kd_probe_loop (raise_after : ProbePtRaise) (k : nat) (izs : list nat) :
  forall (l : Locals) (zmin : cfloat),
  keeps_discipline cfg (idle cfg) (idle cfg) (probe_loop cfg raise_after k izs l zmin).
Proof.
  induction izs as [|iz rest IH]; intros l zmin; cbn [probe_loop].
  - apply kd_ret.
  - apply kd_bind with (Q := idle cfg); [apply kd_probe_step|].
    intros [[l1 zmin1] go_on]. destruct go_on; [apply IH | apply kd_ret].
Qed.

Lemma kd_correct_step (acc amp : cfloat) (k z : nat) (l : Locals) (zmin : cfloat)
    (sb : bool) :
  (z < Z_STEPPER_COUNT cfg)%nat ->
  keeps_discipline cfg separate_multi_axis separate_multi_axis
    (correct_step cfg acc amp k z l zmin sb).
Proof.
  intros Hz m Hsep.
  destruct (correct_step_spec acc amp k z l zmin sb m)
    as (_ & _ & _ & _ & _ & _ & _ & Hst & _).
  split; [|split; [exact Hst|rewrite Hst]]; clear Hst;
    revert Hz Hsep;
    unfold correct_step, set_all_z_lock, unlock_one, lock_discipline, replay,
      unlocked_count, Z_STEPPER_COUNT; run_m;
    destruct (stepper m) as [a b c d];
    destruct (Z_TRIPLE_STEPPER_DRIVERS cfg) eqn:Et;
    destruct (accuracy_decreased l zmin z), (debug_leveling m),
      z as [|[|[|z']]]; simpl;
    unfold unlocked_count; rewrite ?Et; simpl;
    intros Hz Hsep; subst; try reflexivity; lia.
Qed.

Lemma kd_correct_loop (acc amp : cfloat) (k : nat) (zs : list nat) (zmin : cfloat) :
  Forall (fun z => (z < Z_STEPPER_COUNT cfg)%nat) zs ->
  forall (l : Locals) (sb : bool),
  keeps_discipline cfg separate_multi_axis separate_multi_axis
    (correct_loop cfg acc amp k zs l zmin sb).
Proof.
  induction 1 as [|z rest Hz Hrest IH]; intros l sb; cbn [correct_loop].
  - apply kd_ret.
  - apply kd_bind with (Q := separate_multi_axis); [apply kd_correct_step; exact Hz|].
    intros [[l1 sb1] go_on]. destruct go_on; [apply IH | apply kd_ret].
Qed.

Lemma seq_below (n : nat) : Forall (fun z => (z < n)%nat) (seq 0 n).
Proof. apply Forall_forall. intros z H. apply in_seq in H. lia. Qed.

Ltac emits_auto :=
  repeat first
    [ apply emits_ret | apply emits_read | apply emits_write
    | apply emits_when | apply emits_DEBUG
    | apply emits_call; reflexivity
    | apply emits_stepper_call; reflexivity
    | apply emits_move; reflexivity
    | apply emits_probe_at_point; reflexivity
    | apply emits_bind; [|intros]
    | (intro; reflexivity) ].

Ltac kd_quiet_auto :=
  apply kd_quiet;
  [ emits_auto
  | intro;
    repeat first
      [ reflexivity
      | match goal with
        | |- context [debug_leveling ?m] => destruct (debug_leveling m)
        | |- context [when ?b _] => destruct b
        end
      | progress (unfold DEBUG_ECHOLNPGM, DEBUG_ECHOLNPAIR, DEBUG;
                  rewrite ?bind_state) ] ].

Lemma kd_sep_on :
  keeps_discipline cfg (idle cfg) separate_multi_axis
    (stepper_set_separate_multi_axis true).
Proof. intros m H. unfold lock_discipline. simpl. auto. Qed.

Lemma kd_unlock_all (P : Stepper -> bool) :
  keeps_discipline cfg P (all_free cfg) (set_all_z_lock cfg false).
Proof.
  intros m _. unfold set_all_z_lock, lock_discipline, all_free, unlocked_count,
    Z_STEPPER_COUNT, replay. run_m.
  destruct (Z_TRIPLE_STEPPER_DRIVERS cfg); simpl; auto.
Qed.

Lemma kd_sep_off :
  keeps_discipline cfg (all_free cfg) (idle cfg)
    (stepper_set_separate_multi_axis false).
Proof.
  intros m H. unfold lock_discipline, idle, all_free in *. simpl.
  repeat split. exact H.
Qed.

Lemma kd_iteration_body (acc amp : cfloat) (raise_after : ProbePtRaise) (k : nat)
    (l : Locals) :
  keeps_discipline cfg (idle cfg) (idle cfg)
    (iteration_body cfg acc amp raise_after k l).
Proof.
  unfold iteration_body.
  apply kd_bind with (Q := idle cfg); [kd_quiet_auto|]. intros _.
  apply kd_bind with (Q := idle cfg); [kd_quiet_auto|]. intros _.
  apply kd_bind with (Q := idle cfg); [apply kd_probe_loop|]. intros [l1 zmin].
  destruct (err_break l1); [apply kd_ret|].
  apply kd_bind with (Q := idle cfg).
  { unfold report_differences. kd_quiet_auto. }
  intros _.
  apply kd_bind with (Q := separate_multi_axis); [apply kd_sep_on|]. intros _.
  apply kd_bind with (Q := separate_multi_axis).
  { apply kd_correct_loop, seq_below. }
  intros [l3 sb].
  apply kd_bind with (Q := all_free cfg); [apply kd_unlock_all|]. intros _.
  apply kd_bind with (Q := idle cfg); [apply kd_sep_off|]. intros _.
  destruct (err_break l3); [apply kd_ret|].
  destruct sb; [|apply kd_ret].
  apply kd_bind with (Q := idle cfg); [kd_quiet_auto|]. intros _. apply kd_ret.
Qed.

Lemma kd_iteration_loop (acc amp : cfloat) (raise_after : ProbePtRaise) (todo : nat) :
  forall (k : nat) (l : Locals),
  keeps_discipline cfg (idle cfg) (idle cfg)
    (iteration_loop cfg acc amp raise_after todo k l).
Proof.
  induction todo as [|todo IH]; intros k l; cbn [iteration_loop].
  - apply kd_ret.
  - apply kd_bind with (Q := idle cfg); [apply kd_iteration_body|].
    intros [l1 broke]. destruct broke; [apply kd_ret | apply IH].
Qed.

Ltac kd_step :=
  match goal with
  | |- keeps_discipline _ _ _ (bind _ _) =>
      apply kd_bind with (Q := idle cfg); [|intros]
  | |- keeps_discipline _ _ _ (ret _) => apply kd_ret
  | |- keeps_discipline _ _ _ (when _ _) => apply kd_when
  | |- keeps_discipline _ _ _ (home_all_axes _) =>
      apply kd_idle_move; intro; [reflexivity | eexists; split; reflexivity]
  | |- keeps_discipline _ _ _ (process_subcommands_now _ _) =>
      apply kd_idle_move; intro; [reflexivity | eexists; split; reflexivity]
  | |- keeps_discipline _ _ _ (iteration_loop _ _ _ _ _ _ _) =>
      apply kd_iteration_loop
  | |- keeps_discipline _ _ _ (if ?b then _ else _) => destruct b
  | |- keeps_discipline _ _ _ (let '(_, _) := ?p in _) => destruct p
  | |- keeps_discipline _ _ _ (read _) => kd_quiet_auto
  | |- keeps_discipline _ _ _ (write _) => kd_quiet_auto
  | |- keeps_discipline _ _ _ all_axes_known => kd_quiet_auto
  | |- keeps_discipline _ _ _ planner_synchronize => kd_quiet_auto
  | |- keeps_discipline _ _ _ (set_bed_leveling_enabled _) => kd_quiet_auto
  | |- keeps_discipline _ _ _ (tool_change _ _) => kd_quiet_auto
  | |- keeps_discipline _ _ _ set_axis_is_not_at_home_Z => kd_quiet_auto
  | |- keeps_discipline _ _ _ STOW_PROBE => kd_quiet_auto
  | |- keeps_discipline _ _ _ SERIAL_EOL => kd_quiet_auto
  | |- keeps_discipline _ _ _ (SERIAL_ECHOLNPGM _) => kd_quiet_auto
  | |- keeps_discipline _ _ _ (SERIAL_ECHOLNPAIR _ _) => kd_quiet_auto
  | |- keeps_discipline _ _ _ (SERIAL_ECHOPAIR_F _ _) => kd_quiet_auto
  | |- keeps_discipline _ _ _ (DEBUG_ECHOLNPGM _) => kd_quiet_auto
  | |- keeps_discipline _ _ _ (DEBUG _) => kd_quiet_auto
  end.

Lemma kd_G34_run (iterations : Z) (acc amp : cfloat) (E : bool) :
  keeps_discipline cfg (idle cfg) (idle cfg) (G34_run cfg iterations acc amp E).
Proof. unfold G34_run, restore_after_alignment. repeat kd_step. Qed.

Lemma kd_G34 (a : G34_args) :
  keeps_discipline cfg (idle cfg) (idle cfg) (G34 cfg a).
Proof.
  unfold G34, G34_block.
  repeat first [ apply kd_G34_run | kd_step ].
Qed.

(** C9.  The order in which the steppers are probed is ascending on even
    iterations and descending on odd ones, so it reverses from each
    iteration to the next; and the points the probing loop of iteration
    [k] probes are the probe points of the steppers in that order (all of
    them, or the first ones when a probe fails). *)
Theorem probe_order_alternates (raise_after : ProbePtRaise) (k : nat) (l : Locals)
    (zmin : cfloat) (m : Machine) :
  probe_order cfg k
  = (if Nat.even k then seq 0 (Z_STEPPER_COUNT cfg)
     else rev (seq 0 (Z_STEPPER_COUNT cfg)))
  /\ probe_order cfg (S k) = rev (probe_order cfg k)
  /\ probed_points
       (trace_of (probe_loop cfg raise_after k (seq 0 (Z_STEPPER_COUNT cfg)) l zmin m))
     = firstn
         (probes_taken
            (trace_of (probe_loop cfg raise_after k (seq 0 (Z_STEPPER_COUNT cfg)) l zmin m)))
         (map (probe_point m) (probe_order cfg k)).
Proof.
  split; [|split].
  - destruct (Nat.even k) eqn:E;
      [apply probe_order_even | apply probe_order_odd]; exact E.
  - destruct (Nat.even k) eqn:E.
    + rewrite (probe_order_even k E), probe_order_odd; [reflexivity|].
      rewrite Nat.even_succ, <- Nat.negb_even, E. reflexivity.
    + rewrite (probe_order_odd k E), rev_involutive. apply probe_order_even.
      rewrite Nat.even_succ, <- Nat.negb_even, E. reflexivity.
  - destruct (probe_loop_spec raise_after k (seq 0 (Z_STEPPER_COUNT cfg)) l zmin m)
      as (_ & _ & H & _).
    rewrite H. unfold probe_order. rewrite map_map. reflexivity.
Qed.

(** ** The correction loop *)

Lemma fgt_zero_false (q : Q) : (q == 0)%Q -> fgt (Fin q) (Fin 0) = false.
Proof.
  intro H. simpl. apply negb_false_iff, Qle_bool_iff. rewrite H. apply Qle_refl.
Qed.

(** C4.  In one pass of the correction loop the amplification is set to
    [_MIN(last_z_align_move[zstepper] / z_align_abs, 2)] when the
    magnitude is positive and the iteration index is 1, to the configured
    amplification when the magnitude is positive on any other iteration, and
    is left as the previous pass (of this or an earlier iteration) left it
    when the magnitude is not positive, in particular when it is zero; the
    corrective move of the pass is made with that amplification; and the
    first pass starts from the configured amplification. *)
Theorem amplification_selection (acc amp : cfloat) (k z : nat) (l : Locals)
    (zmin : cfloat) (sb : bool) (m : Machine) :
  let mag := z_align_abs_of l zmin z in
  let r := correct_step cfg acc amp k z l zmin sb m in
  let l1 := fst (fst (value_of r)) in
  (fgt mag (Fin 0) = true -> k = 1%nat ->
     amplification l1 = _MIN (fdiv (fget (last_z_align_move l) z) mag) (Fin 2))
  /\ (fgt mag (Fin 0) = true -> k <> 1%nat -> amplification l1 = amp)
  /\ (fgt mag (Fin 0) = false -> amplification l1 = amplification l)
  /\ (forall q, mag = Fin q -> (q == 0)%Q -> amplification l1 = amplification l)
  /\ (accuracy_decreased l zmin z = false ->
      exists t0,
        trace_of r
        = t0 ++ [Ev_do_blocking_move_to_z
                   (fadd (fmul (amplification l1) (z_align_move_of l zmin z))
                         (current_position_z m))]
        /\ forallb (fun e => negb (moves_z e)) t0 = true)
  /\ (forall z_probe0, amplification (initial_locals cfg z_probe0 amp) = amp).
Proof.
  cbn zeta.
  destruct (correct_step_spec acc amp k z l zmin sb m)
    as (Hgo & Hamp & _ & _ & _ & _ & _ & _ & _ & _ & _ & Hcase).
  rewrite Hamp. unfold tuned_amplification.
  repeat split.
  - intros H1 H2. rewrite H1, H2. reflexivity.
  - intros H1 H2. rewrite H1. apply Nat.eqb_neq in H2. rewrite H2. reflexivity.
  - intros H1. rewrite H1. reflexivity.
  - intros q H1 H2. rewrite H1, (fgt_zero_false q H2). reflexivity.
  - intros H. rewrite Hgo, H in Hcase. simpl in Hcase.
    destruct Hcase as (_ & _ & _ & t0 & E1 & E2 & _). exists t0. split; assumption.
Qed.

Lemma correct_loop_break (acc amp : cfloat) (k z : nat) (rest : list nat) (l : Locals)
    (zmin : cfloat) (sb : bool) (m : Machine) :
  snd (value_of (correct_step cfg acc amp k z l zmin sb m)) = false ->
  correct_loop cfg acc amp k (z :: rest) l zmin sb m
  = (fst (value_of (correct_step cfg acc amp k z l zmin sb m)),
     state_of (correct_step cfg acc amp k z l zmin sb m),
     trace_of (correct_step cfg acc amp k z l zmin sb m)).
Proof.
  intro H. cbn [correct_loop]. unfold bind.
  rewrite (run_eta (correct_step cfg acc amp k z l zmin sb m)).
  destruct (value_of (correct_step cfg acc amp k z l zmin sb m)) as [[l1 sb1] go_on].
  simpl in H. subst go_on. cbn. rewrite app_nil_r. reflexivity.
Qed.

Lemma iteration_loop_break (acc amp : cfloat) (raise_after : ProbePtRaise)
    (todo k : nat) (l : Locals) (m : Machine) :
  snd (value_of (iteration_body cfg acc amp raise_after k l m)) = true ->
  iteration_loop cfg acc amp raise_after (S todo) k l m
  = ((k, fst (value_of (iteration_body cfg acc amp raise_after k l m))),
     state_of (iteration_body cfg acc amp raise_after k l m),
     trace_of (iteration_body cfg acc amp raise_after k l m)).
Proof.
  intro H. cbn [iteration_loop]. unfold bind.
  rewrite (run_eta (iteration_body cfg acc amp raise_after k l m)).
  destruct (value_of (iteration_body cfg acc amp raise_after k l m)) as [l1 broke].
  simpl in H. subst broke. cbn. rewrite app_nil_r. reflexivity.
Qed.

Lemma iteration_loop_continue (acc amp : cfloat) (raise_after : ProbePtRaise)
    (todo k : nat) (l : Locals) (m : Machine) :
  snd (value_of (iteration_body cfg acc amp raise_after k l m)) = false ->
  let rb := iteration_body cfg acc amp raise_after k l m in
  let rl := iteration_loop cfg acc amp raise_after todo (S k)
              (fst (value_of rb)) (state_of rb) in
  iteration_loop cfg acc amp raise_after (S todo) k l m
  = (value_of rl, state_of rl, trace_of rb ++ trace_of rl).
Proof.
  intro H. cbn zeta. cbn [iteration_loop]. unfold bind.
  rewrite (run_eta (iteration_body cfg acc amp raise_after k l m)).
  destruct (value_of (iteration_body cfg acc amp raise_after k l m)) as [l1 broke].
  simpl in H. subst broke. cbn.
  rewrite (run_eta (iteration_loop cfg acc amp raise_after todo (S k) l1
                      (state_of (iteration_body cfg acc amp raise_after k l m)))).
  reflexivity.
Qed.

Lemma forallb_ext_in {A : Type} (f g : A -> bool) (t : list A) :
  (forall a, In a t -> f a = g a) -> forallb f t = forallb g t.
Proof.
  induction t as [|a t IH]; intro H; simpl; [reflexivity|].
  rewrite (H a) by (left; reflexivity). rewrite IH; [reflexivity|].
  intros b Hb. apply H. right. exact Hb.
Qed.

Lemma forallb_impl {A : Type} (P Q : A -> bool) (t : list A) :
  (forall e, P e = true -> Q e = true) -> forallb P t = true -> forallb Q t = true.
Proof. intros H Ht. rewrite forallb_forall in *. auto. Qed.

Lemma not_serial_has_serial (msg : string) (t : list event) :
  forallb not_serial t = true -> has_serial msg t = false.
Proof.
  induction t as [|e t IH]; simpl; [reflexivity|].
  intro H. apply andb_true_iff in H. destruct H as [He Ht].
  rewrite (IH Ht). destruct e; simpl in *; try reflexivity. discriminate.
Qed.

Lemma avoids_has_serial (msg : string) (t : list event) :
  forallb (avoids msg) t = true -> has_serial msg t = false.
Proof.
  induction t as [|e t IH]; simpl; [reflexivity|].
  intro H. apply andb_true_iff in H. destruct H as [He Ht].
  rewrite (IH Ht). destruct e; simpl in *; try reflexivity.
  apply negb_true_iff in He. rewrite He. reflexivity.
Qed.

Lemma not_banner_count (t : list event) :
  forallb not_banner t = true -> iterations_executed t = 0%nat.
Proof.
  unfold iterations_executed. induction t as [|e t IH]; simpl; [reflexivity|].
  intro H. apply andb_true_iff in H. destruct H as [He Ht].
  unfold not_banner in He. apply negb_true_iff in He. rewrite He. auto.
Qed.

Lemma accuracy_decreased_ext (l l' : Locals) (zmin : cfloat) (z : nat) :
  z_measured l' = z_measured l ->
  fget (last_z_align_move l') z = fget (last_z_align_move l) z ->
  accuracy_decreased l' zmin z = accuracy_decreased l zmin z.
Proof.
  intros H1 H2. unfold accuracy_decreased, z_align_abs_of, z_align_move_of.
  rewrite H1, H2. reflexivity.
Qed.

Lemma z_align_abs_of_ext (l l' : Locals) (zmin : cfloat) (z : nat) :
  z_measured l' = z_measured l -> z_align_abs_of l' zmin z = z_align_abs_of l zmin z.
Proof.
  intros H1. unfold z_align_abs_of, z_align_move_of. rewrite H1. reflexivity.
Qed.

Lemma correct_loop_spec (acc amp : cfloat) (k : nat) (zmin : cfloat) (zs : list nat) :
  NoDup zs ->
  forall (l : Locals) (sb : bool) (m : Machine),
  Forall (fun z => (z < List.length (last_z_align_move l))%nat) zs ->
  let r := correct_loop cfg acc amp k zs l zmin sb m in
  let l1 := fst (value_of r) in
  z_measured l1 = z_measured l
  /\ z_probe l1 = z_probe l
  /\ z_maxdiff l1 = z_maxdiff l
  /\ List.length (last_z_align_move l1) = List.length (last_z_align_move l)
  /\ z_auto_align_pos (state_of r) = z_auto_align_pos m
  /\ probe_feed (state_of r) = probe_feed m
  /\ probed_points (trace_of r) = []
  /\ forallb correcting_event (trace_of r) = true
  /\ forallb (only_serial "Decreasing accuracy detected.") (trace_of r) = true
  /\ (forall z, ~ In z zs ->
        fget (last_z_align_move l1) z = fget (last_z_align_move l) z)
  /\ (if existsb (accuracy_decreased l zmin) zs
      then err_break l1 = true
           /\ has_serial "Decreasing accuracy detected." (trace_of r) = true
      else err_break l1 = err_break l
           /\ snd (value_of r)
              = sb && forallb (fun z => negb (fgt (z_align_abs_of l zmin z) acc)) zs
           /\ (forall z, In z zs ->
                 fget (last_z_align_move l1) z = z_align_abs_of l zmin z)
           /\ forallb not_serial (trace_of r) = true).
Proof.
  induction 1 as [|z rest Hz Hnd IH]; intros l sb m Hlen.
  - simpl. rewrite andb_true_r. repeat split; try reflexivity. intros z [].
  - inversion Hlen as [|? ? Hzl Hrl]; subst.
    pose proof (correct_step_spec acc amp k z l zmin sb m) as S0. cbn zeta in S0.
    destruct S0 as (Hgo & _ & Hzm & Hzp & Hmd & Hpos & Hfeed & _ & Hev & Hpts & Honly
                    & Hcase).
    cbn zeta. cbn [existsb].
    destruct (accuracy_decreased l zmin z) eqn:Hdec.
    + rewrite correct_loop_break by (rewrite Hgo; reflexivity).
      cbn [value_of state_of trace_of fst snd].
      fold (value_of (correct_step cfg acc amp k z l zmin sb m)).
      fold (state_of (correct_step cfg acc amp k z l zmin sb m)).
      fold (trace_of (correct_step cfg acc amp k z l zmin sb m)).
      rewrite Hgo in Hcase. cbn [negb] in Hcase.
      destruct Hcase as (Hlast & Herr & Hsb & Hm & Ht).
      rewrite Hzm, Hzp, Hmd, Hpos, Hfeed, Hlast, Hpts, Hev, Herr, Honly, Ht.
      cbn [orb]. repeat split; reflexivity.
    + cbn [correct_loop]. rewrite bind_trace, bind_state, bind_value.
      set (r0 := correct_step cfg acc amp k z l zmin sb m) in *.
      destruct (value_of r0) as [[l1 sb1] go_on] eqn:Ev.
      cbn [fst snd] in *. subst go_on. cbn [negb] in *.
      destruct Hcase as (Hlast & Herr & Hsb & t0 & Et0 & _ & Hns).
      assert (Hlen1 : List.length (last_z_align_move l1)
                      = List.length (last_z_align_move l))
        by (rewrite Hlast; apply array_set_length).
      assert (Hrl1 : Forall (fun z => (z < List.length (last_z_align_move l1))%nat) rest)
        by (rewrite Hlen1; exact Hrl).
      specialize (IH l1 sb1 (state_of r0) Hrl1). cbn zeta in IH.
      set (r1 := correct_loop cfg acc amp k rest l1 zmin sb1 (state_of r0)) in *.
      destruct IH as (IHzm & IHzp & IHmd & IHlen & IHpos & IHfeed & IHpts & IHev
                      & IHonly & IHout & IHcase).
      rewrite probed_points_app, !forallb_app, Hpts, IHpts, Hev, IHev, Honly, IHonly.
      rewrite IHzm, IHzp, IHmd, IHlen, IHpos, IHfeed, Hzm, Hzp, Hmd, Hlen1, Hpos, Hfeed.
      assert (Hsame : forall z', z' <> z ->
                fget (last_z_align_move l1) z' = fget (last_z_align_move l) z').
      { intros z' Hne. rewrite Hlast. unfold fget.
        apply array_get_set_other. congruence. }
      assert (Hex : existsb (accuracy_decreased l1 zmin) rest
                    = existsb (accuracy_decreased l zmin) rest).
      { clear - Hz Hsame Hzm. induction rest as [|y ys IHy]; simpl; [reflexivity|].
        rewrite IHy by (intro; apply Hz; right; assumption).
        rewrite (accuracy_decreased_ext l l1 zmin y Hzm); [reflexivity|].
        apply Hsame. intro; subst. apply Hz. left. reflexivity. }
      rewrite Hex in IHcase. cbn [orb].
      repeat split; try reflexivity.
      * intros z' Hn. rewrite IHout by (intro; apply Hn; right; assumption).
        apply Hsame. intro; subst. apply Hn. left. reflexivity.
      * destruct (existsb (accuracy_decreased l zmin) rest).
        -- destruct IHcase as (E1 & E2). rewrite has_serial_app, E1, E2, orb_true_r.
           split; reflexivity.
        -- destruct IHcase as (E1 & E2 & E3 & E4).
           rewrite E1, E2, Herr, Hsb, Hns, E4.
           repeat split; try reflexivity.
           ++ cbn [forallb].
              assert (Hall : forallb (fun z0 => negb (fgt (z_align_abs_of l1 zmin z0) acc)) rest
                             = forallb (fun z0 => negb (fgt (z_align_abs_of l zmin z0) acc)) rest).
              { apply forallb_ext_in. intros y _.
                rewrite (z_align_abs_of_ext l l1 zmin y Hzm). reflexivity. }
              rewrite Hall.
              destruct (fgt (z_align_abs_of l zmin z) acc), sb; reflexivity.
           ++ intros z' [Hz'|Hz'].
              ** subst z'. rewrite IHout by exact Hz. rewrite Hlast. unfold fget.
                 apply array_get_set_same. exact Hzl.
              ** rewrite (E3 z' Hz'). apply z_align_abs_of_ext. exact Hzm.
Qed.

(** ** The body of the iteration loop *)

Lemma only_serial_has_serial (msg msg' : string) (t : list event) :
  msg' <> msg -> forallb (only_serial msg) t = true -> has_serial msg' t = false.
Proof.
  intro Hne. induction t as [|e t IH]; simpl; [reflexivity|].
  intro H. apply andb_true_iff in H. destruct H as [He Ht].
  rewrite (IH Ht). destruct e; simpl in *; try reflexivity.
  apply String.eqb_eq in He. subst. rewrite orb_false_r.
  apply String.eqb_neq. congruence.
Qed.

Lemma DEBUG_ECHOLNPGM_run (s : string) (m : Machine) :
  DEBUG_ECHOLNPGM s m = (tt, m, if debug_leveling m then [Ev_debug s] else []).
Proof. unfold DEBUG_ECHOLNPGM, DEBUG. destruct (debug_leveling m); reflexivity. Qed.

Lemma report_differences_run (l : Locals) (m : Machine) :
  state_of (report_differences cfg l m) = m
  /\ forallb report_event (trace_of (report_differences cfg l m)) = true.
Proof.
  unfold report_differences. run_m.
  destruct (Z_TRIPLE_STEPPER_DRIVERS cfg); simpl; split; reflexivity.
Qed.

Lemma set_all_z_lock_run (b : bool) (m : Machine) :
  z_auto_align_pos (state_of (set_all_z_lock cfg b m)) = z_auto_align_pos m
  /\ probe_feed (state_of (set_all_z_lock cfg b m)) = probe_feed m
  /\ forallb is_stepper_event (trace_of (set_all_z_lock cfg b m)) = true.
Proof.
  unfold set_all_z_lock. run_m.
  destruct (Z_TRIPLE_STEPPER_DRIVERS cfg); simpl; repeat split; reflexivity.
Qed.

Lemma adapt_clearance_keeps (l : Locals) :
  z_measured (adapt_clearance cfg l) = z_measured l
  /\ last_z_align_move (adapt_clearance cfg l) = last_z_align_move l
  /\ amplification (adapt_clearance cfg l) = amplification l
  /\ err_break (adapt_clearance cfg l) = err_break l.
Proof.
  unfold adapt_clearance. destruct (Z_TRIPLE_STEPPER_DRIVERS cfg); simpl;
    repeat split; reflexivity.
Qed.

Ltac splits := repeat match goal with |- _ /\ _ => split end.

Ltac class_impl :=
  let e := fresh "e" in
  let H := fresh "H" in
  intros e H; destruct e; simpl in *; try reflexivity; try discriminate;
  try (apply String.eqb_eq in H; subst; reflexivity).

Lemma probing_not_banner (t : list event) :
  forallb probing_event t = true -> forallb not_banner t = true.
Proof. apply forallb_impl. class_impl. Qed.

Lemma probing_not_restoration (t : list event) :
  forallb probing_event t = true -> forallb not_restoration t = true.
Proof. apply forallb_impl. class_impl. Qed.

Lemma probing_not_stepper (t : list event) :
  forallb probing_event t = true -> forallb not_stepper_event t = true.
Proof. apply forallb_impl. class_impl. Qed.

Lemma correcting_not_banner (t : list event) :
  forallb correcting_event t = true -> forallb not_banner t = true.
Proof. apply forallb_impl. class_impl. Qed.

Lemma correcting_not_restoration (t : list event) :
  forallb correcting_event t = true -> forallb not_restoration t = true.
Proof. apply forallb_impl. class_impl. Qed.

Lemma report_not_banner (t : list event) :
  forallb report_event t = true -> forallb not_banner t = true.
Proof. apply forallb_impl. class_impl. Qed.

Lemma report_not_restoration (t : list event) :
  forallb report_event t = true -> forallb not_restoration t = true.
Proof. apply forallb_impl. class_impl. Qed.

Lemma report_not_stepper (t : list event) :
  forallb report_event t = true -> forallb not_stepper_event t = true.
Proof. apply forallb_impl. class_impl. Qed.

Lemma report_has_serial (msg : string) (t : list event) :
  msg <> EmptyString -> forallb report_event t = true -> has_serial msg t = false.
Proof.
  intros Hne H. apply only_serial_has_serial with (msg := EmptyString); [exact Hne|].
  revert H. apply forallb_impl. class_impl.
Qed.

Lemma stepper_not_banner (t : list event) :
  forallb is_stepper_event t = true -> forallb not_banner t = true.
Proof. apply forallb_impl. class_impl. Qed.

Lemma stepper_not_restoration (t : list event) :
  forallb is_stepper_event t = true -> forallb not_restoration t = true.
Proof. apply forallb_impl. class_impl. Qed.

Lemma stepper_not_serial (t : list event) :
  forallb is_stepper_event t = true -> forallb not_serial t = true.
Proof. apply forallb_impl. class_impl. Qed.

Lemma iteration_body_unfold (acc amp : cfloat) (raise_after : ProbePtRaise)
    (k : nat) (l : Locals) (m : Machine) :
  iteration_body cfg acc amp raise_after k l m =
  let dbg := if debug_leveling m then [Ev_debug "> probing all positions."] else [] in
  let banner := Ev_serial_int (nl ++ "ITERATION: ") (Z.of_nat k + 1) in
  let rp := probe_loop cfg raise_after k (seq 0 (Z_STEPPER_COUNT cfg)) l (Fin 100000) m in
  let l1 := fst (value_of rp) in
  let zmin := snd (value_of rp) in
  if err_break l1 then ((l1, true), state_of rp, dbg ++ [banner] ++ trace_of rp)
  else
    let l2 := adapt_clearance cfg l1 in
    let rr := report_differences cfg l2 (state_of rp) in
    let ms := set_stepper (stepper_apply (stepper (state_of rp))
                             (Ev_set_separate_multi_axis true)) (state_of rp) in
    let rc := correct_loop cfg acc amp k (seq 0 (Z_STEPPER_COUNT cfg)) l2 zmin true ms in
    let l3 := fst (value_of rc) in
    let sb := snd (value_of rc) in
    let ru := set_all_z_lock cfg false (state_of rc) in
    let mf := set_stepper (stepper_apply (stepper (state_of ru))
                             (Ev_set_separate_multi_axis false)) (state_of ru) in
    let t := dbg ++ [banner] ++ trace_of rp ++ trace_of rr
             ++ [Ev_set_separate_multi_axis true] ++ trace_of rc ++ trace_of ru
             ++ [Ev_set_separate_multi_axis false] in
    if err_break l3 then ((l3, true), mf, t)
    else if sb then ((l3, true), mf, t ++ [Ev_serial "Target accuracy achieved."])
         else ((l3, false), mf, t).
Proof.
  cbn zeta. unfold iteration_body, bind. rewrite DEBUG_ECHOLNPGM_run.
  cbn [SERIAL_ECHOLNPAIR call].
  destruct (probe_loop cfg raise_after k (seq 0 (Z_STEPPER_COUNT cfg)) l (Fin 100000) m)
    as [[[l1 zmin] mp] tp] eqn:Ep.
  cbn [value_of state_of trace_of fst snd].
  destruct (err_break l1).
  - cbn [ret]. rewrite app_nil_r. reflexivity.
  - pose proof (report_differences_run (adapt_clearance cfg l1) mp) as [Hr _].
    destruct (report_differences cfg (adapt_clearance cfg l1) mp) as [[u mr] tr] eqn:Er.
    cbn [state_of fst snd] in Hr. subst mr.
    cbn [stepper_set_separate_multi_axis stepper_call].
    destruct (correct_loop cfg acc amp k (seq 0 (Z_STEPPER_COUNT cfg))
                (adapt_clearance cfg l1) zmin true
                (set_stepper (stepper_apply (stepper mp) (Ev_set_separate_multi_axis true)) mp))
      as [[[l3 sb] mc] tc] eqn:Ec.
    cbn [value_of state_of trace_of fst snd].
    destruct (set_all_z_lock cfg false mc) as [[u' mu] tu] eqn:Eu.
    cbn [value_of state_of trace_of fst snd].
    destruct (err_break l3); [|destruct sb]; cbn [ret SERIAL_ECHOLNPGM call];
      repeat (rewrite <- ?app_assoc, ?app_nil_r; cbn [app]); reflexivity.
Qed.


Lemma no_probe_points (t : list event) :
  forallb (fun e => negb (is_probe e)) t = true -> probed_points t = [].
Proof.
  induction t as [|e t IH]; simpl; [reflexivity|].
  intro H. apply andb_true_iff in H. destruct H as [He Ht].
  destruct e; simpl in *; try discriminate; auto.
Qed.

Lemma report_no_probe (t : list event) :
  forallb report_event t = true -> probed_points t = [].
Proof. intro H. apply no_probe_points. revert H. apply forallb_impl. class_impl. Qed.

Lemma stepper_no_probe (t : list event) :
  forallb is_stepper_event t = true -> probed_points t = [].
Proof. intro H. apply no_probe_points. revert H. apply forallb_impl. class_impl. Qed.

Lemma probes_taken_nil (t : list event) : probed_points t = [] -> probes_taken t = 0%nat.
Proof. intro H. rewrite probes_taken_points, H. reflexivity. Qed.

Lemma iteration_body_spec (acc amp : cfloat) (raise_after : ProbePtRaise)
    (k : nat) (l : Locals) (m : Machine) :
  locals_ok cfg l -> err_break l = false ->
  let r := iteration_body cfg acc amp raise_after k l m in
  let l1 := fst (value_of r) in
  let broke := snd (value_of r) in
  locals_ok cfg l1
  /\ z_auto_align_pos (state_of r) = z_auto_align_pos m
  /\ iterations_executed (trace_of r) = 1%nat
  /\ probed_points (trace_of r)
     = firstn (probes_taken (trace_of r)) (map (probe_point m) (probe_order cfg k))
  /\ has_serial "Probing failed." (trace_of r)
     = negb (all_valid (Z_STEPPER_COUNT cfg) (probe_feed m))
  /\ has_serial "G34 aborted." (trace_of r) = false
  /\ forallb not_restoration (trace_of r) = true
  /\ (err_break l1 = true -> broke = true)
  /\ (if all_valid (Z_STEPPER_COUNT cfg) (probe_feed m)
      then probes_taken (trace_of r) = Z_STEPPER_COUNT cfg
           /\ probe_feed (state_of r) = skipn (Z_STEPPER_COUNT cfg) (probe_feed m)
           /\ has_serial "Decreasing accuracy detected." (trace_of r) = err_break l1
           /\ has_serial "Target accuracy achieved." (trace_of r)
              = negb (err_break l1) && within_target cfg acc l1
           /\ broke = err_break l1 || within_target cfg acc l1
           /\ (err_break l1 = false ->
               exists zmin, forall z, (z < Z_STEPPER_COUNT cfg)%nat ->
                 fget (last_z_align_move l1) z = z_align_abs_of l1 zmin z)
      else broke = true
           /\ err_break l1 = true
           /\ last_z_align_move l1 = last_z_align_move l
           /\ amplification l1 = amplification l
           /\ (probes_taken (trace_of r) <= Z_STEPPER_COUNT cfg)%nat
           /\ forallb not_stepper_event (trace_of r) = true
           /\ stepper (state_of r) = stepper m
           /\ (exists t0, trace_of r = t0 ++ [Ev_serial "Probing failed."])
           /\ has_serial "Decreasing accuracy detected." (trace_of r) = false
           /\ has_serial "Target accuracy achieved." (trace_of r) = false).
Proof.
  intros [Hl1 Hl2] Herr0. cbn zeta. rewrite iteration_body_unfold. cbn zeta.
  pose proof (probe_loop_spec raise_after k (seq 0 (Z_STEPPER_COUNT cfg)) l (Fin 100000) m)
    as Sp.
  cbn zeta in Sp. rewrite length_seq in Sp.
  set (rp := probe_loop cfg raise_after k (seq 0 (Z_STEPPER_COUNT cfg)) l (Fin 100000) m) in *.
  set (dbg := if debug_leveling m then [Ev_debug "> probing all positions."] else []).
  assert (Dser : forall msg, has_serial msg dbg = false)
    by (intro; unfold dbg; destruct (debug_leveling m); reflexivity).
  assert (Dit : iterations_executed dbg = 0%nat)
    by (unfold dbg; destruct (debug_leveling m); reflexivity).
  assert (Dpts : probed_points dbg = [])
    by (unfold dbg; destruct (debug_leveling m); reflexivity).
  assert (Dcnt : probes_taken dbg = 0%nat)
    by (unfold dbg; destruct (debug_leveling m); reflexivity).
  assert (Dres : forallb not_restoration dbg = true)
    by (unfold dbg; destruct (debug_leveling m); reflexivity).
  assert (Dstp : forallb not_stepper_event dbg = true)
    by (unfold dbg; destruct (debug_leveling m); reflexivity).
  destruct Sp as (Ppos & Pst & Ppts & Pev & Plast & Pamp & Pzp & Plen & Phas & Ponly
                  & Pcase).
  assert (Pmap : map (fun iz => probe_point m (probe_zstepper cfg k iz))
                   (seq 0 (Z_STEPPER_COUNT cfg))
                 = map (probe_point m) (probe_order cfg k))
    by (unfold probe_order; rewrite map_map; reflexivity).
  rewrite Pmap in Ppts.
  destruct (all_valid (Z_STEPPER_COUNT cfg) (probe_feed m)) eqn:Hv.
  - destruct Pcase as (Perr & Pcnt & Pfeed). rewrite Perr, Herr0. cbv iota.
    destruct (adapt_clearance_keeps (fst (value_of rp))) as (Azm & Alast & Aamp & Aerr).
    set (l2 := adapt_clearance cfg (fst (value_of rp))) in *.
    pose proof (report_differences_run l2 (state_of rp)) as [_ Rev].
    set (rr := report_differences cfg l2 (state_of rp)) in *.
    set (ms := set_stepper (stepper_apply (stepper (state_of rp))
                              (Ev_set_separate_multi_axis true)) (state_of rp)) in *.
    assert (Hnd : NoDup (seq 0 (Z_STEPPER_COUNT cfg))) by apply seq_NoDup.
    assert (Hfa : Forall (fun z => (z < List.length (last_z_align_move l2))%nat)
                    (seq 0 (Z_STEPPER_COUNT cfg)))
      by (rewrite Alast, Plast, Hl1; apply seq_below).
    pose proof (correct_loop_spec acc amp k (snd (value_of rp))
                  (seq 0 (Z_STEPPER_COUNT cfg)) Hnd l2 true ms Hfa) as Sc.
    cbn zeta in Sc.
    set (rc := correct_loop cfg acc amp k (seq 0 (Z_STEPPER_COUNT cfg)) l2
                 (snd (value_of rp)) true ms) in *.
    destruct Sc as (Czm & Czp & Cmd & Clen & Cpos & Cfeed & Cpts & Cev & Conly & Cout
                    & Ccase).
    pose proof (set_all_z_lock_run false (state_of rc)) as (Upos & Ufeed & Uev).
    set (ru := set_all_z_lock cfg false (state_of rc)) in *.
    set (t := dbg ++ [Ev_serial_int (nl ++ "ITERATION: ") (Z.of_nat k + 1)]
              ++ trace_of rp ++ trace_of rr ++ [Ev_set_separate_multi_axis true]
              ++ trace_of rc ++ trace_of ru ++ [Ev_set_separate_multi_axis false]).
    assert (Tit : iterations_executed t = 1%nat).
    { unfold t. rewrite !iterations_executed_app, Dit,
        (not_banner_count _ (probing_not_banner _ Pev)),
        (not_banner_count _ (report_not_banner _ Rev)),
        (not_banner_count _ (correcting_not_banner _ Cev)),
        (not_banner_count _ (stepper_not_banner _ Uev)). reflexivity. }
    assert (Tpts : probed_points t = probed_points (trace_of rp)).
    { unfold t. rewrite !probed_points_app, Dpts, Cpts,
        (report_no_probe _ Rev), (stepper_no_probe _ Uev).
      cbn [probed_points app]. rewrite app_nil_r. reflexivity. }
    assert (Tcnt : probes_taken t = Z_STEPPER_COUNT cfg)
      by (rewrite probes_taken_points, Tpts, <- probes_taken_points; exact Pcnt).
    assert (Tser : forall msg, msg <> EmptyString ->
              has_serial msg t
              = has_serial msg (trace_of rp) || has_serial msg (trace_of rc)).
    { intros msg Hne. unfold t. rewrite !has_serial_app, Dser,
        (report_has_serial msg _ Hne Rev),
        (not_serial_has_serial msg _ (stepper_not_serial _ Uev)).
      cbn [has_serial existsb orb]. rewrite !orb_false_r. reflexivity. }
    assert (Tres : forallb not_restoration t = true).
    { unfold t. rewrite !forallb_app, Dres, (probing_not_restoration _ Pev),
        (report_not_restoration _ Rev), (correcting_not_restoration _ Cev),
        (stepper_not_restoration _ Uev). reflexivity. }
    assert (Ppf : forall msg, msg <> "Probing failed."%string ->
              has_serial msg (trace_of rp) = false)
      by (intros msg Hne; apply (only_serial_has_serial _ _ _ Hne Ponly)).
    assert (Cdec : forall msg, msg <> "Decreasing accuracy detected."%string ->
              has_serial msg (trace_of rc) = false)
      by (intros msg Hne; apply (only_serial_has_serial _ _ _ Hne Conly)).
    assert (Tpf : has_serial "Probing failed." t = false)
      by (rewrite Tser, Phas, Cdec by discriminate; reflexivity).
    assert (Tga : has_serial "G34 aborted." t = false)
      by (rewrite Tser, Ppf, Cdec by discriminate; reflexivity).
    assert (Ttar : has_serial "Target accuracy achieved." t = false)
      by (rewrite Tser, Ppf, Cdec by discriminate; reflexivity).
    assert (Tdec : has_serial "Decreasing accuracy detected." t
                   = has_serial "Decreasing accuracy detected." (trace_of rc))
      by (rewrite Tser, Ppf by discriminate; reflexivity).
    assert (Lok : locals_ok cfg (fst (value_of rc))).
    { split; [rewrite Clen, Alast, Plast; exact Hl1
             | rewrite Czm, Azm, Plen; exact Hl2]. }
    assert (Spos : z_auto_align_pos
                     (set_stepper (stepper_apply (stepper (state_of ru))
                                     (Ev_set_separate_multi_axis false)) (state_of ru))
                   = z_auto_align_pos m)
      by (cbn [set_stepper z_auto_align_pos]; rewrite Upos, Cpos; exact Ppos).
    assert (Sfeed : probe_feed
                      (set_stepper (stepper_apply (stepper (state_of ru))
                                      (Ev_set_separate_multi_axis false)) (state_of ru))
                    = skipn (Z_STEPPER_COUNT cfg) (probe_feed m))
      by (cbn [set_stepper probe_feed]; rewrite Ufeed, Cfeed; exact Pfeed).
    assert (Tfirst : probed_points t
                     = firstn (probes_taken t) (map (probe_point m) (probe_order cfg k)))
      by (rewrite Tpts, Tcnt, <- Pcnt; exact Ppts).
    fold t.
    destruct (existsb (accuracy_decreased l2 (snd (value_of rp)))
                (seq 0 (Z_STEPPER_COUNT cfg))).
    + destruct Ccase as (E1 & E2). rewrite E1. cbv iota.
      cbn [value_of state_of trace_of fst snd].
      rewrite Tpf, Tga, Tres, Tit, Tcnt, Tdec, E2, Ttar, E1.
      repeat split; try assumption; try reflexivity;
        try (destruct Lok; assumption); try (rewrite <- Tcnt; exact Tfirst);
        discriminate.
    + destruct Ccase as (E1 & E2 & E3 & E4).
      assert (E0 : err_break (fst (value_of rc)) = false)
        by (rewrite E1, Aerr, Perr; exact Herr0).
      assert (HW : snd (value_of rc) = within_target cfg acc (fst (value_of rc))).
      { rewrite E2. cbn [andb]. unfold within_target. apply forallb_ext_in.
        intros z Hz. rewrite (E3 z Hz). reflexivity. }
      assert (Hmag : exists zmin, forall z, (z < Z_STEPPER_COUNT cfg)%nat ->
                fget (last_z_align_move (fst (value_of rc))) z
                = z_align_abs_of (fst (value_of rc)) zmin z).
      { exists (snd (value_of rp)). intros z Hz.
        rewrite E3 by (apply in_seq; lia).
        symmetry. apply z_align_abs_of_ext. exact Czm. }
      assert (Tdec0 : has_serial "Decreasing accuracy detected." t = false)
        by (rewrite Tdec; apply not_serial_has_serial; exact E4).
      rewrite E0. cbv iota. rewrite HW.
      destruct (within_target cfg acc (fst (value_of rc))) eqn:EW;
        cbn [value_of state_of trace_of fst snd];
        rewrite ?iterations_executed_app, ?probed_points_app, ?probes_taken_app,
          ?has_serial_app, ?forallb_app, ?EW, ?E0;
        rewrite ?Tpf, ?Tga, ?Tres, ?Tit, ?Tcnt, ?Tdec0, ?Ttar;
        cbn [probed_points]; rewrite ?app_nil_r;
        try change (probes_taken [Ev_serial "Target accuracy achieved."]) with 0%nat;
        rewrite ?Nat.add_0_r;
        repeat split; try assumption; try reflexivity; try discriminate;
        try (intros _; exact Hmag);
        try (destruct Lok; assumption); try (rewrite <- Tcnt; exact Tfirst).
  - destruct Pcase as (Perr & Pcnt & t0 & Et). rewrite Perr. cbv iota.
    cbn [value_of state_of trace_of fst snd].
    assert (Ppf : forall msg, msg <> "Probing failed."%string ->
              has_serial msg (trace_of rp) = false)
      by (intros msg Hne; apply (only_serial_has_serial _ _ _ Hne Ponly)).
    rewrite !iterations_executed_app, !probed_points_app, !probes_taken_app,
      !has_serial_app, !forallb_app, Dit, Dpts, Dcnt, !Dser, Dres, Dstp, Phas,
      !Ppf by discriminate.
    rewrite (not_banner_count _ (probing_not_banner _ Pev)),
      (probing_not_restoration _ Pev), (probing_not_stepper _ Pev).
    cbn [probed_points app]. rewrite Ppos, Plast, Pamp, Pst, Perr.
    repeat split; try reflexivity; try assumption.
    + rewrite Plast. exact Hl1.
    + rewrite Plen. exact Hl2.
    + exists (dbg ++ [Ev_serial_int (nl ++ "ITERATION: ") (Z.of_nat k + 1)] ++ t0).
      rewrite Et, <- !app_assoc. reflexivity.
Qed.

(** ** The iteration loop *)

Lemma iteration_history_S (acc amp : cfloat) (raise_after : ProbePtRaise)
    (todo k : nat) (l : Locals) (m : Machine) :
  iteration_history cfg acc amp raise_after (S todo) k l m
  = fst (value_of (iteration_body cfg acc amp raise_after k l m))
    :: (if snd (value_of (iteration_body cfg acc amp raise_after k l m)) then []
        else iteration_history cfg acc amp raise_after todo (S k)
               (fst (value_of (iteration_body cfg acc amp raise_after k l m)))
               (state_of (iteration_body cfg acc amp raise_after k l m))).
Proof. reflexivity. Qed.

Lemma iteration_loop_spec (acc amp : cfloat) (raise_after : ProbePtRaise) (todo : nat) :
  forall (k : nat) (l : Locals) (m : Machine),
  locals_ok cfg l -> err_break l = false ->
  let r := iteration_loop cfg acc amp raise_after todo k l m in
  let it := fst (value_of r) in
  let lf := snd (value_of r) in
  let hist := iteration_history cfg acc amp raise_after todo k l m in
  z_auto_align_pos (state_of r) = z_auto_align_pos m
  /\ iterations_executed (trace_of r) = List.length hist
  /\ (List.length hist <= todo)%nat
  /\ has_serial "G34 aborted." (trace_of r) = false
  /\ forallb not_restoration (trace_of r) = true
  /\ (err_break lf = false ->
      has_serial "Probing failed." (trace_of r) = false
      /\ has_serial "Decreasing accuracy detected." (trace_of r) = false
      /\ Forall (records_magnitudes cfg) hist
      /\ ((exists pre h,
             hist = pre ++ [h]
             /\ Forall (fun h' => within_target cfg acc h' = false) pre
             /\ within_target cfg acc h = true
             /\ it = (k + List.length pre)%nat
             /\ has_serial "Target accuracy achieved." (trace_of r) = true)
          \/ (Forall (fun h' => within_target cfg acc h' = false) hist
              /\ List.length hist = todo
              /\ it = (k + todo)%nat
              /\ has_serial "Target accuracy achieved." (trace_of r) = false)))
  /\ (err_break lf = true ->
      has_serial "Probing failed." (trace_of r) = true
      \/ has_serial "Decreasing accuracy detected." (trace_of r) = true).
Proof.
  induction todo as [|todo IH]; intros k l m Hok Herr0.
  - cbn. splits; try reflexivity; try lia.
    + intros _. splits; try reflexivity; [constructor|].
      right. splits; [constructor | lia..].
    + intro H. congruence.
  - cbn zeta. rewrite iteration_history_S.
    pose proof (iteration_body_spec acc amp raise_after k l m Hok Herr0) as Sb.
    cbn zeta in Sb.
    set (rb := iteration_body cfg acc amp raise_after k l m) in *.
    destruct Sb as (Bok & Bpos & Bit & _ & Bpf & Bga & Bres & Bbrk & Bcase).
    destruct (snd (value_of rb)) eqn:Ebrk.
    + unfold rb. rewrite iteration_loop_break by exact Ebrk. fold rb.
      cbn [value_of state_of trace_of fst snd List.length].
      rewrite Bpos, Bit, Bga, Bres.
      splits; try reflexivity; try lia.
      * intro He. rewrite He in Bcase.
        destruct (all_valid (Z_STEPPER_COUNT cfg) (probe_feed m));
          [|destruct Bcase as (_ & C & _); congruence].
        destruct Bcase as (_ & _ & Cdec & Ctar & Cb & Cmag).
        rewrite Bpf, Cdec. splits; try reflexivity.
        { constructor; [exact (Cmag eq_refl) | constructor]. }
        left. exists [], (fst (value_of rb)). cbn [orb negb andb] in *.
        splits; [reflexivity | apply Forall_nil | congruence
                | cbn [List.length]; lia | congruence].
      * intro He. rewrite He in Bcase.
        destruct (all_valid (Z_STEPPER_COUNT cfg) (probe_feed m)).
        -- right. destruct Bcase as (_ & _ & Cdec & _). exact Cdec.
        -- left. exact Bpf.
    + unfold rb. rewrite iteration_loop_continue by exact Ebrk. fold rb. cbn zeta.
      cbn [value_of state_of trace_of fst snd].
      assert (He1 : err_break (fst (value_of rb)) = false).
      { destruct (err_break (fst (value_of rb))); [|reflexivity].
        specialize (Bbrk eq_refl). congruence. }
      rewrite He1 in Bcase.
      destruct (all_valid (Z_STEPPER_COUNT cfg) (probe_feed m));
        [|destruct Bcase as (C & _); congruence].
      destruct Bcase as (_ & _ & Cdec & Ctar & Cb & Cmag).
      cbn [orb negb andb] in *.
      assert (Hw : within_target cfg acc (fst (value_of rb)) = false) by congruence.
      rewrite Hw in Ctar.
      specialize (IH (S k) (fst (value_of rb)) (state_of rb) Bok He1). cbn zeta in IH.
      set (rl := iteration_loop cfg acc amp raise_after todo (S k)
                   (fst (value_of rb)) (state_of rb)) in *.
      set (hist := iteration_history cfg acc amp raise_after todo (S k)
                     (fst (value_of rb)) (state_of rb)) in *.
      destruct IH as (Ipos & Iit & Ilen & Iga & Ires & Iok & Ierr).
      rewrite !has_serial_app, iterations_executed_app, forallb_app.
      rewrite Ipos, Bpos, Bit, Iit, Bga, Iga, Bres, Ires, Bpf, Cdec, Ctar.
      cbn [List.length orb andb negb Nat.add].
      splits; try reflexivity; try lia.
      * intro He. destruct (Iok He) as (J1 & J2 & Jm & J3). rewrite J1, J2.
        splits; try reflexivity.
        { constructor; [exact (Cmag eq_refl) | exact Jm]. }
        destruct J3 as [(pre & h & E1 & E2 & E3 & E4 & E5)|(E1 & E2 & E3 & E4)].
        -- left. exists (fst (value_of rb) :: pre), h. rewrite E1.
           splits; try assumption.
           ++ reflexivity.
           ++ constructor; assumption.
           ++ cbn [List.length]. lia.
        -- right. splits; try assumption; try lia.
           constructor; assumption.
      * intro He. exact (Ierr He).
Qed.

Lemma iteration_body_err_breaks (acc amp : cfloat) (raise_after : ProbePtRaise)
    (k : nat) (l : Locals) (m : Machine) :
  err_break (fst (value_of (iteration_body cfg acc amp raise_after k l m))) = true ->
  snd (value_of (iteration_body cfg acc amp raise_after k l m)) = true.
Proof.
  rewrite iteration_body_unfold. cbn zeta.
  destruct (err_break (fst (value_of (probe_loop cfg raise_after k
                                        (seq 0 (Z_STEPPER_COUNT cfg)) l (Fin 100000) m))));
    [reflexivity|].
  match goal with
  | |- context [if err_break ?x then _ else _] => destruct (err_break x) eqn:E
  end; [reflexivity|].
  match goal with
  | |- context [if snd ?x then _ else _] => destruct (snd x)
  end; cbn [value_of fst snd]; congruence.
Qed.

Lemma run_status_cases (t : list event) :
  run_status t
  = if has_serial "Probing failed." t then AbortedProbeFault
    else if has_serial "Decreasing accuracy detected." t then AbortedDiverging
    else if has_serial "Target accuracy achieved." t then Converged
    else IterationsExhausted.
Proof. reflexivity. Qed.

(** C7.  In a pass of the iteration loop whose [Z_STEPPER_COUNT] probe
    readings are all valid, exactly [Z_STEPPER_COUNT] probes are taken,
    one at the probe point of each stepper, in the probing order of the
    iteration.  When one of the readings is invalid, the pass ends right
    after the failing probe with the line "Probing failed.": no stepper
    call (lock or multi-axis switch) is made, the lock flags, the last
    correction magnitudes and the amplification are as before the pass, and
    the iteration loop is left with this pass as its last. *)
Theorem probe_count_and_fault (acc amp : cfloat) (raise_after : ProbePtRaise)
    (todo k : nat) (l : Locals) (m : Machine) :
  locals_ok cfg l -> err_break l = false ->
  let rb := iteration_body cfg acc amp raise_after k l m in
  (all_valid (Z_STEPPER_COUNT cfg) (probe_feed m) = true ->
     probes_taken (trace_of rb) = Z_STEPPER_COUNT cfg
     /\ probed_points (trace_of rb) = map (probe_point m) (probe_order cfg k)
     /\ Permutation (probe_order cfg k) (seq 0 (Z_STEPPER_COUNT cfg)))
  /\ (all_valid (Z_STEPPER_COUNT cfg) (probe_feed m) = false ->
      run_status (trace_of rb) = AbortedProbeFault
      /\ (exists t0, trace_of rb = t0 ++ [Ev_serial "Probing failed."])
      /\ (probes_taken (trace_of rb) <= Z_STEPPER_COUNT cfg)%nat
      /\ forallb not_stepper_event (trace_of rb) = true
      /\ stepper (state_of rb) = stepper m
      /\ last_z_align_move (fst (value_of rb)) = last_z_align_move l
      /\ amplification (fst (value_of rb)) = amplification l
      /\ err_break (fst (value_of rb)) = true
      /\ iteration_loop cfg acc amp raise_after (S todo) k l m
         = ((k, fst (value_of rb)), state_of rb, trace_of rb)).
Proof.
  intros Hok Herr0. cbn zeta.
  pose proof (iteration_body_spec acc amp raise_after k l m Hok Herr0) as Sb.
  cbn zeta in Sb.
  destruct Sb as (_ & _ & _ & Bpts & Bpf & _ & _ & _ & Bcase).
  split; intro Hv; rewrite Hv in *.
  - destruct Bcase as (Ccnt & _). splits.
    + exact Ccnt.
    + rewrite Bpts, Ccnt, <- (probe_order_length k), <- (length_map (probe_point m)).
      apply firstn_all.
    + apply probe_order_perm.
  - destruct Bcase as (Cb & Ce & Cl & Ca & Cc & Cs & Cst & Ct & _).
    splits; try assumption.
    + rewrite run_status_cases, Bpf. reflexivity.
    + apply iteration_loop_break. exact Cb.
Qed.

Lemma sentinel_never_trips (l : Locals) (zmin : cfloat) (zs : list nat) :
  (forall z, In z zs -> fget (last_z_align_move l) z = Fin 10000) ->
  (forall z, In z zs ->
     exists q, z_align_abs_of l zmin z = Fin q /\ (q <= 10001)%Q) ->
  existsb (accuracy_decreased l zmin) zs = false.
Proof.
  intros Hs Hq. induction zs as [|z rest IH]; [reflexivity|].
  cbn [existsb]. rewrite IH.
  - rewrite orb_false_r. unfold accuracy_decreased.
    rewrite (Hs z) by (left; reflexivity).
    destruct (Hq z) as (q & Eq & Hle); [left; reflexivity|]. rewrite Eq.
    cbn [fsub]. destruct (flt (Fin 10000) (Fin (q - 1))) eqn:E; [|reflexivity].
    apply flt_Fin in E. exfalso.
    apply (Qlt_not_le _ _ E).
    apply (Qplus_le_l _ _ 1). ring_simplify. exact Hle.
  - intros z' Hz'. apply Hs. right. exact Hz'.
  - intros z' Hz'. apply Hq. right. exact Hz'.
Qed.

Lemma initial_sentinel (z_probe0 amp : cfloat) (z : nat) :
  (z < Z_STEPPER_COUNT cfg)%nat ->
  fget (last_z_align_move (initial_locals cfg z_probe0 amp)) z = Fin 10000.
Proof.
  intro Hz. unfold initial_locals, fget, array_get. cbn [last_z_align_move].
  apply nth_repeat_lt. exact Hz.
Qed.

(** C5 (amended).  A pass of the correction loop for stepper [z] aborts
    exactly when [last_z_align_move[z] < z_align_abs - 1.0]; it then prints
    "Decreasing accuracy detected.", sets [err_break], makes no lock call
    and no move, the correction loop ends with this pass (no further
    stepper is corrected), the pass of the iteration loop reports a break
    and the iteration loop is left.  With the last magnitudes at their
    initial value 10000.0 (as the first iteration finds them), the check
    does not trip in a correction loop over steppers whose magnitudes are at
    most 10001.0. *)
Theorem divergence_check (acc amp : cfloat) (k z : nat) (rest : list nat) (l : Locals)
    (zmin : cfloat) (sb : bool) (m : Machine) :
  let r := correct_step cfg acc amp k z l zmin sb m in
  (snd (value_of r) = false
   <-> flt (fget (last_z_align_move l) z) (fsub (z_align_abs_of l zmin z) (Fin 1)) = true)
  /\ (snd (value_of r) = false ->
      err_break (fst (fst (value_of r))) = true
      /\ trace_of r = [Ev_serial "Decreasing accuracy detected."]
      /\ run_status (trace_of r) = AbortedDiverging
      /\ state_of r = m
      /\ last_z_align_move (fst (fst (value_of r))) = last_z_align_move l
      /\ correct_loop cfg acc amp k (z :: rest) l zmin sb m
         = (fst (value_of r), state_of r, trace_of r))
  /\ (snd (value_of r) = true ->
      err_break (fst (fst (value_of r))) = err_break l)
  /\ (forall raise_after todo k' l' m',
        err_break (fst (value_of (iteration_body cfg acc amp raise_after k' l' m'))) = true ->
        iteration_loop cfg acc amp raise_after (S todo) k' l' m'
        = ((k', fst (value_of (iteration_body cfg acc amp raise_after k' l' m'))),
           state_of (iteration_body cfg acc amp raise_after k' l' m'),
           trace_of (iteration_body cfg acc amp raise_after k' l' m')))
  /\ (forall zs l0,
        NoDup zs ->
        Forall (fun z' => (z' < Z_STEPPER_COUNT cfg)%nat) zs ->
        last_z_align_move l0 = repeat (Fin 10000) (Z_STEPPER_COUNT cfg) ->
        (forall z', In z' zs ->
           exists q, z_align_abs_of l0 zmin z' = Fin q /\ (q <= 10001)%Q) ->
        err_break (fst (value_of (correct_loop cfg acc amp 0 zs l0 zmin sb m)))
        = err_break l0)
  /\ (forall z_probe0,
        last_z_align_move (initial_locals cfg z_probe0 amp)
        = repeat (Fin 10000) (Z_STEPPER_COUNT cfg)).
Proof.
  cbn zeta.
  destruct (correct_step_spec acc amp k z l zmin sb m)
    as (Hgo & _ & _ & _ & _ & _ & _ & _ & _ & _ & _ & Hcase).
  splits.
  - rewrite Hgo. unfold accuracy_decreased.
    destruct (flt (fget (last_z_align_move l) z) (fsub (z_align_abs_of l zmin z) (Fin 1)));
      simpl; split; congruence.
  - intro H. rewrite H in Hcase. destruct Hcase as (E1 & E2 & E3 & E4 & E5).
    splits; try assumption.
    + rewrite E5. reflexivity.
    + apply correct_loop_break. exact H.
  - intro H. rewrite H in Hcase. destruct Hcase as (_ & E2 & _). exact E2.
  - intros raise_after todo k' l' m' H. apply iteration_loop_break.
    apply iteration_body_err_breaks. exact H.
  - intros zs l0 Hnd Hlt Hlast Hq.
    assert (Hlen : Forall (fun z' => (z' < List.length (last_z_align_move l0))%nat) zs)
      by (rewrite Hlast, repeat_length; exact Hlt).
    pose proof (correct_loop_spec acc amp 0 zmin zs Hnd l0 sb m Hlen) as Sc.
    cbn zeta in Sc.
    destruct Sc as (_ & _ & _ & _ & _ & _ & _ & _ & _ & _ & Ccase).
    rewrite sentinel_never_trips in Ccase.
    + destruct Ccase as (E & _). exact E.
    + intros z' Hz'. rewrite Hlast. unfold fget, array_get.
      apply nth_repeat_lt. rewrite Forall_forall in Hlt. apply Hlt. exact Hz'.
    + exact Hq.
  - reflexivity.
Qed.


(** ** The whole run *)

Lemma G34_run_unfold (its : Z) (acc amp : cfloat) (E : bool) (m : Machine) :
  G34_run cfg its acc amp E m =
  let rp := G34_prepare cfg m in
  let lwa := fst (fst (value_of rp)) in
  let old := snd (fst (value_of rp)) in
  let zp0 := snd (value_of rp) in
  let rl := iteration_loop cfg acc amp (if E then PROBE_PT_STOW else PROBE_PT_RAISE)
              (Z.to_nat its) 0 (initial_locals cfg zp0 amp) (state_of rp) in
  let it := fst (value_of rl) in
  let l := snd (value_of rl) in
  if err_break l
  then (tt, state_of rl, trace_of rp ++ trace_of rl ++ [Ev_serial "G34 aborted."])
  else (tt, state_of (G34_finish cfg its it l lwa old (state_of rl)),
        trace_of rp ++ trace_of rl
        ++ trace_of (G34_finish cfg its it l lwa old (state_of rl))).
Proof.
  cbn zeta. unfold G34_run, G34_prepare, G34_finish, restore_after_alignment.
  cbv beta iota zeta delta
    [bind ret call read write when planner_synchronize set_bed_leveling_enabled
     tool_change all_axes_known home_all_axes SERIAL_ECHOLNPGM SERIAL_ECHOLNPAIR
     SERIAL_ECHOPAIR_F SERIAL_EOL set_axis_is_not_at_home_Z STOW_PROBE
     process_subcommands_now trace_of state_of value_of fst snd].
  destruct (HAS_LEVELING cfg), (RESTORE_LEVELING_AFTER_G34 cfg),
    (CNC_WORKSPACE_PLANES cfg), (1 <? HOTENDS cfg)%nat,
    (HAS_DUPLICATION_MODE cfg); cbn [set_leveling_active set_workspace_plane
      set_active_extruder set_extruder_duplication_enabled xy_axes_known z_axis_known
      z_auto_align_pos current_position_z leveling_active active_extruder andb];
    destruct (xy_axes_known m && z_axis_known m); cbn [negb];
    match goal with
    | |- context [iteration_loop ?a ?b ?c ?d ?e ?f ?g ?h] =>
        destruct (iteration_loop a b c d e f g h) as [[[it l] ml] tl]
    end;
    destruct (err_break l); cbn [app andb];
    rewrite <- ?app_assoc; cbn [app]; reflexivity.
Qed.

Lemma G34_prepare_spec (m : Machine) :
  let rp := G34_prepare cfg m in
  value_of rp = (leveling_active m, active_extruder m,
                 initial_z_probe cfg (z_auto_align_pos m))
  /\ trace_of rp = prepare_trace cfg m
  /\ z_auto_align_pos (state_of rp) = z_auto_align_pos m
  /\ stepper (state_of rp) = stepper m
  /\ probe_feed (state_of rp) = probe_feed m
  /\ debug_leveling (state_of rp) = debug_leveling m
  /\ leveling_active (state_of rp)
     = (if HAS_LEVELING cfg then false else leveling_active m)
  /\ active_extruder (state_of rp)
     = (if (1 <? HOTENDS cfg)%nat then 0 else active_extruder m)
  /\ xy_axes_known (state_of rp) && z_axis_known (state_of rp) = true.
Proof.
  unfold G34_prepare, prepare_trace.
  cbv beta iota zeta delta
    [bind ret call read write when planner_synchronize set_bed_leveling_enabled
     tool_change all_axes_known home_all_axes trace_of state_of value_of fst snd].
  destruct (HAS_LEVELING cfg), (CNC_WORKSPACE_PLANES cfg), (1 <? HOTENDS cfg)%nat,
    (HAS_DUPLICATION_MODE cfg); cbn [set_leveling_active set_workspace_plane
      set_active_extruder set_extruder_duplication_enabled xy_axes_known z_axis_known
      z_auto_align_pos current_position_z leveling_active active_extruder andb];
    destruct (xy_axes_known m && z_axis_known m) eqn:Ek; cbn;
    splits; try reflexivity; exact Ek.
Qed.

Lemma G34_finish_spec (its : Z) (it : nat) (l : Locals) (lwa : bool) (old : Z)
    (m : Machine) :
  let rf := G34_finish cfg its it l lwa old m in
  trace_of rf
  = [Ev_serial_int "Did " (Z.of_nat it + (if Z.of_nat it =? its then 0 else 1));
     Ev_serial_int " iterations of " its;
     Ev_serial_float "Accuracy: " (z_maxdiff l);
     Ev_serial EmptyString]
    ++ restore_trace cfg lwa old
  /\ z_auto_align_pos (state_of rf) = z_auto_align_pos m
  /\ stepper (state_of rf) = stepper m
  /\ probe_feed (state_of rf) = probe_feed m
  /\ debug_leveling (state_of rf) = debug_leveling m
  /\ leveling_active (state_of rf)
     = (if HAS_LEVELING cfg && RESTORE_LEVELING_AFTER_G34 cfg
        then lwa else leveling_active m)
  /\ active_extruder (state_of rf)
     = (if (1 <? HOTENDS cfg)%nat then old else active_extruder m)
  /\ z_axis_known (state_of rf) = true.
Proof.
  unfold G34_finish, restore_after_alignment, restore_trace.
  cbv beta iota zeta delta
    [bind ret call read write when set_bed_leveling_enabled tool_change
     SERIAL_ECHOLNPGM SERIAL_ECHOLNPAIR SERIAL_ECHOPAIR_F SERIAL_EOL
     set_axis_is_not_at_home_Z STOW_PROBE process_subcommands_now
     trace_of state_of value_of fst snd].
  destruct (HAS_LEVELING cfg), (RESTORE_LEVELING_AFTER_G34 cfg),
    (1 <? HOTENDS cfg)%nat; cbn; splits; reflexivity.
Qed.

Lemma G34_unfold (a : G34_args) (m : Machine) :
  G34 cfg a m
  = (tt, state_of (G34_block cfg a m),
     (if debug_leveling m then [Ev_debug ">>> G34"; Ev_log_machine_info] else [])
     ++ trace_of (G34_block cfg a m)
     ++ (if debug_leveling (state_of (G34_block cfg a m))
         then [Ev_debug "<<< G34"] else [])).
Proof.
  unfold G34, bind, DEBUG_ECHOLNPGM, DEBUG, call.
  destruct (debug_leveling m); destruct (G34_block cfg a m) as [[u mb] tb];
    cbn [value_of state_of trace_of fst snd];
    destruct (debug_leveling mb); cbn [app]; rewrite ?app_nil_r; reflexivity.
Qed.

Lemma G34_block_accepted (a : G34_args) (m : Machine) :
  G34_accepts cfg a = true ->
  G34_block cfg a m
  = G34_run cfg (int8_t (parser_val (arg_I a) (Z_STEPPER_ALIGN_ITERATIONS cfg)))
      (parser_val (arg_T a) (Z_STEPPER_ALIGN_ACC cfg))
      (parser_val (arg_A a) (Z_STEPPER_ALIGN_AMP cfg)) (arg_E a) m.
Proof.
  unfold G34_accepts, G34_block. intro H.
  apply andb_true_iff in H. destruct H as [H H3].
  apply andb_true_iff in H. destruct H as [H1 H2].
  rewrite H1, H2, H3. reflexivity.
Qed.

Lemma G34_block_rejected (a : G34_args) (m : Machine) :
  G34_accepts cfg a = false ->
  state_of (G34_block cfg a m) = m
  /\ (trace_of (G34_block cfg a m) = [Ev_serial "?(I)teration out of bounds (1-30)."]
      \/ trace_of (G34_block cfg a m)
         = [Ev_serial "?(T)arget accuracy out of bounds (0.01-1.0)."]
      \/ trace_of (G34_block cfg a m)
         = [Ev_serial "?(A)mplification out of bounds (0.5-2.0)."]).
Proof.
  unfold G34_accepts, G34_block. intro H.
  destruct (WITHIN_int _ 1 30); cbn [negb andb] in *; [|split; [reflexivity|auto]].
  destruct (WITHIN (parser_val (arg_T a) _) _ _); cbn [negb andb] in *;
    [|split; [reflexivity|auto]].
  rewrite H. cbn [negb]. split; [reflexivity|auto].
Qed.

Lemma initial_locals_ok (z_probe0 amp : cfloat) :
  locals_ok cfg (initial_locals cfg z_probe0 amp).
Proof. split; cbn [initial_locals last_z_align_move z_measured]; apply repeat_length. Qed.

Lemma G34_run_keeps_pos (its : Z) (acc amp : cfloat) (E : bool) (m : Machine) :
  z_auto_align_pos (state_of (G34_run cfg its acc amp E m)) = z_auto_align_pos m.
Proof.
  rewrite G34_run_unfold. cbn zeta.
  destruct (G34_prepare_spec m) as (_ & _ & Ppos & _). cbn zeta in Ppos.
  set (rp := G34_prepare cfg m) in *.
  pose proof (iteration_loop_spec acc amp (if E then PROBE_PT_STOW else PROBE_PT_RAISE)
                (Z.to_nat its) 0 (initial_locals cfg (snd (value_of rp)) amp) (state_of rp)
                (initial_locals_ok _ _) eq_refl) as Sl.
  cbn zeta in Sl. destruct Sl as (Lpos & _).
  match goal with
  | |- context [if err_break ?x then _ else _] => destruct (err_break x)
  end; cbn [state_of fst snd].
  - rewrite Lpos. exact Ppos.
  - match goal with
    | |- context [G34_finish ?a ?b ?c ?d ?e ?f ?g] =>
        destruct (G34_finish_spec b c d e f g) as (_ & Fpos & _)
    end.
    cbn zeta in Fpos. unfold state_of in *. rewrite Fpos, Lpos. exact Ppos.
Qed.

Lemma G34_keeps_pos (a : G34_args) (m : Machine) :
  z_auto_align_pos (state_of (G34 cfg a m)) = z_auto_align_pos m.
Proof.
  rewrite G34_unfold. cbn [state_of fst snd].
  fold (state_of (G34_block cfg a m)).
  destruct (G34_accepts cfg a) eqn:Ea.
  - rewrite G34_block_accepted by exact Ea. apply G34_run_keeps_pos.
  - destruct (G34_block_rejected a m Ea) as [Es _]. rewrite Es. reflexivity.
Qed.

(** ** M422 *)

Lemma M422_valid_index (zstepper : nat) :
  (zstepper < Z_STEPPER_COUNT cfg)%nat ->
  int8_t (Z.of_nat zstepper + 1 - 1) = Z.of_nat zstepper
  /\ WITHIN_int (Z.of_nat zstepper) 0 (Z.of_nat (Z_STEPPER_COUNT cfg) - 1) = true.
Proof.
  intro H. pose proof Z_STEPPER_COUNT_cases as Hc. split.
  - replace (Z.of_nat zstepper + 1 - 1) with (Z.of_nat zstepper) by lia.
    apply int8_t_small. lia.
  - apply WITHIN_int_iff. lia.
Qed.

(** C10.  For a valid stepper and a position within the travel limits,
    [M422] stores the position: reading the stepper's probe point gives
    exactly the position set, the probe points of the other steppers are as
    before, nothing is printed, and a run of [G34] with any parameters leaves
    the stored position as it is.  When X or Y is outside the travel limits,
    [M422] prints the line naming the coordinate and leaves the machine
    state, the stored position included, unchanged. *)
Theorem M422_set_then_read (zstepper : nat) (x y : cfloat) (m : Machine) :
  well_formed cfg m -> (zstepper < Z_STEPPER_COUNT cfg)%nat ->
  let a := {| arg_S := Some (Z.of_nat zstepper + 1);
              arg_X := Some x; arg_Y := Some y |} in
  let r := M422 cfg a m in
  (WITHIN x (X_MIN_POS cfg) (X_MAX_POS cfg) = true ->
   WITHIN y (Y_MIN_POS cfg) (Y_MAX_POS cfg) = true ->
     probe_point (state_of r) zstepper = {| pos_x := x; pos_y := y |}
     /\ (forall z', z' <> zstepper ->
           probe_point (state_of r) z' = probe_point m z')
     /\ trace_of r = []
     /\ well_formed cfg (state_of r)
     /\ (forall g, probe_point (state_of (G34 cfg g (state_of r))) zstepper
                   = {| pos_x := x; pos_y := y |}))
  /\ (WITHIN x (X_MIN_POS cfg) (X_MAX_POS cfg) = false ->
      state_of r = m /\ trace_of r = [Ev_serial "?(X) out of bounds."])
  /\ (WITHIN x (X_MIN_POS cfg) (X_MAX_POS cfg) = true ->
      WITHIN y (Y_MIN_POS cfg) (Y_MAX_POS cfg) = false ->
      state_of r = m /\ trace_of r = [Ev_serial "?(Y) out of bounds."]).
Proof.
  intros Hwf Hz. cbn zeta. unfold M422. cbn [arg_S arg_X arg_Y parser_val].
  destruct (M422_valid_index zstepper Hz) as [Hi Hw]. rewrite Hi, Hw.
  cbn [negb]. rewrite Nat2Z.id. unfold bind, read, write.
  cbn [pos_x pos_y]. splits.
  - intros Hx Hy. rewrite Hx, Hy. cbn [negb state_of trace_of fst snd app].
    assert (Hset : probe_point
              (set_z_auto_align_pos
                 (array_set (z_auto_align_pos m) zstepper {| pos_x := x; pos_y := y |}) m)
              zstepper = {| pos_x := x; pos_y := y |}).
    { unfold probe_point. cbn [set_z_auto_align_pos z_auto_align_pos].
      apply array_get_set_same. unfold well_formed in Hwf. lia. }
    splits.
    + exact Hset.
    + intros z' Hne. unfold probe_point. cbn [set_z_auto_align_pos z_auto_align_pos].
      apply array_get_set_other. congruence.
    + reflexivity.
    + unfold well_formed. cbn [set_z_auto_align_pos z_auto_align_pos].
      rewrite array_set_length. exact Hwf.
    + intro g. unfold probe_point in *. rewrite G34_keeps_pos. exact Hset.
  - intros Hx. rewrite Hx. cbn. split; reflexivity.
  - intros Hx Hy. rewrite Hx, Hy. cbn. split; reflexivity.
Qed.

(** ** What the loops emit *)

Lemma ProbePtRaise_eqb_refl (r : ProbePtRaise) : ProbePtRaise_eqb r r = true.
Proof. destruct r; reflexivity. Qed.

Lemma emits_probe_step (raise_after : ProbePtRaise) (k iz : nat) (l : Locals)
    (zmin : cfloat) :
  emits (loop_event raise_after) (probe_step cfg raise_after k iz l zmin).
Proof.
  unfold probe_step. apply emits_bind; [emits_auto|]. intros _.
  apply emits_bind; [emits_auto|]. intro pos.
  apply emits_bind; [apply emits_probe_at_point; apply ProbePtRaise_eqb_refl|].
  intro z. destruct (isnan z); unfold DEBUG_ECHOLNPAIR, SERIAL_ECHOLNPGM; emits_auto.
Qed.

Lemma emits_probe_loop (raise_after : ProbePtRaise) (k : nat) (izs : list nat) :
  forall (l : Locals) (zmin : cfloat),
  emits (loop_event raise_after) (probe_loop cfg raise_after k izs l zmin).
Proof.
  induction izs as [|iz rest IH]; intros l zmin; cbn [probe_loop].
  - apply emits_ret.
  - apply emits_bind; [apply emits_probe_step|].
    intros [[l1 zmin1] go_on]. destruct go_on; [apply IH | apply emits_ret].
Qed.

Lemma emits_set_all_z_lock (P : event -> bool) (b : bool) :
  P (Ev_set_z_lock b) = true -> P (Ev_set_z2_lock b) = true ->
  P (Ev_set_z3_lock b) = true ->
  emits P (set_all_z_lock cfg b).
Proof.
  intros H1 H2 H3. unfold set_all_z_lock.
  apply emits_bind; [apply emits_stepper_call; exact H1|]. intros _.
  apply emits_bind; [apply emits_stepper_call; exact H2|]. intros _.
  apply emits_when. apply emits_stepper_call. exact H3.
Qed.

Lemma emits_correct_step (raise_after : ProbePtRaise) (acc amp : cfloat) (k z : nat)
    (l : Locals) (zmin : cfloat) (sb : bool) :
  emits (loop_event raise_after) (correct_step cfg acc amp k z l zmin sb).
Proof.
  unfold correct_step. destruct (accuracy_decreased l zmin z).
  - unfold SERIAL_ECHOLNPGM. emits_auto.
  - apply emits_bind; [unfold DEBUG_ECHOLNPAIR; emits_auto|]. intros _.
    apply emits_bind; [apply emits_set_all_z_lock; reflexivity|]. intros _.
    apply emits_bind.
    { unfold unlock_one, stepper_set_z_lock, stepper_set_z2_lock, stepper_set_z3_lock.
      destruct z as [|[|[|z']]]; emits_auto. }
    intros _. emits_auto.
Qed.

Lemma emits_correct_loop (raise_after : ProbePtRaise) (acc amp : cfloat) (k : nat)
    (zs : list nat) (zmin : cfloat) :
  forall (l : Locals) (sb : bool),
  emits (loop_event raise_after) (correct_loop cfg acc amp k zs l zmin sb).
Proof.
  induction zs as [|z rest IH]; intros l sb; cbn [correct_loop].
  - apply emits_ret.
  - apply emits_bind; [apply emits_correct_step|].
    intros [[l1 sb1] go_on]. destruct go_on; [apply IH | apply emits_ret].
Qed.

Lemma emits_iteration_body (acc amp : cfloat) (raise_after : ProbePtRaise) (k : nat)
    (l : Locals) :
  emits (loop_event raise_after) (iteration_body cfg acc amp raise_after k l).
Proof.
  unfold iteration_body.
  apply emits_bind; [unfold DEBUG_ECHOLNPGM; emits_auto|]. intros _.
  apply emits_bind; [unfold SERIAL_ECHOLNPAIR; emits_auto|]. intros _.
  apply emits_bind; [apply emits_probe_loop|]. intros [l1 zmin].
  destruct (err_break l1); [apply emits_ret|].
  apply emits_bind.
  { unfold report_differences, SERIAL_ECHOPAIR_F, SERIAL_EOL. emits_auto. }
  intros _.
  apply emits_bind; [unfold stepper_set_separate_multi_axis; emits_auto|]. intros _.
  apply emits_bind; [apply emits_correct_loop|]. intros [l3 sb].
  apply emits_bind; [apply emits_set_all_z_lock; reflexivity|]. intros _.
  apply emits_bind; [unfold stepper_set_separate_multi_axis; emits_auto|]. intros _.
  destruct (err_break l3); [apply emits_ret|].
  destruct sb; [unfold SERIAL_ECHOLNPGM; emits_auto | apply emits_ret].
Qed.

Lemma emits_iteration_loop (acc amp : cfloat) (raise_after : ProbePtRaise) (todo : nat) :
  forall (k : nat) (l : Locals),
  emits (loop_event raise_after) (iteration_loop cfg acc amp raise_after todo k l).
Proof.
  induction todo as [|todo IH]; intros k l; cbn [iteration_loop].
  - apply emits_ret.
  - apply emits_bind; [apply emits_iteration_body|].
    intros [l1 broke]. destruct broke; [apply emits_ret | apply IH].
Qed.

(** ** Parameter checks *)

Lemma hardware_app (t u : list event) : hardware (t ++ u) = hardware t ++ hardware u.
Proof. unfold hardware. apply filter_app. Qed.

Lemma serial_lines_app (t u : list event) :
  serial_lines (t ++ u) = serial_lines t ++ serial_lines u.
Proof.
  induction t as [|e t IH]; simpl; [reflexivity|].
  destruct e; simpl; rewrite ?IH; reflexivity.
Qed.

(** X1.  A [G34] whose parameters (given or defaulted) fail a range check
    does nothing but print: the machine state is unchanged, no call on
    planner, probe, stepper, tool changer or levelling is made, and exactly
    one line is printed, naming the first parameter that fails in the
    order I, T, A. *)
Theorem G34_rejects_bad_parameters (a : G34_args) (m : Machine) :
  G34_accepts cfg a = false ->
  state_of (G34 cfg a m) = m
  /\ hardware (trace_of (G34 cfg a m)) = []
  /\ serial_lines (trace_of (G34 cfg a m)) = [G34_rejection_line cfg a].
Proof.
  intro H. rewrite G34_unfold. cbn [state_of trace_of fst snd].
  fold (state_of (G34_block cfg a m)). fold (trace_of (G34_block cfg a m)).
  assert (Hb : state_of (G34_block cfg a m) = m
               /\ trace_of (G34_block cfg a m) = [Ev_serial (G34_rejection_line cfg a)]).
  { revert H. unfold G34_accepts, G34_block, G34_rejection_line.
    destruct (WITHIN_int _ 1 30); cbn [negb andb]; [|intros _; split; reflexivity].
    destruct (WITHIN (parser_val (arg_T a) _) _ _); cbn [negb andb];
      [|intros _; split; reflexivity].
    intro H. rewrite H. split; reflexivity. }
  destruct Hb as [Es Et]. rewrite Es, Et.
  rewrite !hardware_app, !serial_lines_app.
  destruct (debug_leveling m); splits; reflexivity.
Qed.

Lemma WITHIN_Fin (n l h : Q) :
  WITHIN (Fin n) (Fin l) (Fin h) = true <-> (l <= n <= h)%Q.
Proof.
  unfold WITHIN, fge. rewrite andb_true_iff, !fle_Fin. tauto.
Qed.

Lemma G34_accepts_ranges (a : G34_args) (t g : Q) :
  parser_val (arg_T a) (Z_STEPPER_ALIGN_ACC cfg) = Fin t ->
  parser_val (arg_A a) (Z_STEPPER_ALIGN_AMP cfg) = Fin g ->
  (G34_accepts cfg a = true
   <-> 1 <= int8_t (parser_val (arg_I a) (Z_STEPPER_ALIGN_ITERATIONS cfg)) <= 30
       /\ (1 # 100 <= t <= 1)%Q
       /\ ((1 # 2 <= g <= 2)%Q \/ (- (2) <= g <= - (1 # 2))%Q)).
Proof.
  intros Ht Hg. unfold G34_accepts. rewrite Ht, Hg. cbn [ABS].
  rewrite !andb_true_iff, WITHIN_int_iff, !WITHIN_Fin.
  assert (Habs : ((1 # 2 <= Qabs g <= 2) <-> ((1 # 2 <= g <= 2) \/ (- (2) <= g <= - (1 # 2))))%Q).
  { split.
    - intros [H1 H2]. apply Qabs_Qle_condition in H2. destruct H2 as [H2 H3].
      destruct (Qlt_le_dec g 0) as [Hn|Hp].
      + right. rewrite Qabs_neg in H1 by (apply Qlt_le_weak; exact Hn).
        split; [exact H2|].
        apply Qopp_le_compat in H1. rewrite Qopp_involutive in H1. exact H1.
      + left. rewrite Qabs_pos in H1 by exact Hp. split; assumption.
    - intros [[H1 H2]|[H1 H2]].
      + assert (0 <= g)%Q by (eapply Qle_trans; [|exact H1]; discriminate).
        rewrite Qabs_pos by assumption. split; assumption.
      + assert (g <= 0)%Q by (eapply Qle_trans; [exact H2|]; discriminate).
        rewrite Qabs_neg by assumption. split.
        * apply Qopp_le_compat in H2. rewrite Qopp_involutive in H2. exact H2.
        * apply Qopp_le_compat in H1. rewrite Qopp_involutive in H1. exact H1. }
  rewrite Habs. tauto.
Qed.

Lemma int8_t_period (z : Z) : int8_t (z + 256) = int8_t z.
Proof.
  unfold int8_t. replace (z + 256 + 128) with (z + 128 + 1 * 256) by lia.
  rewrite Z.mod_add by lia. reflexivity.
Qed.

(** X3.  The iteration count of [G34] is read modulo 256: the handler does
    the same, state and trace, for I and I + 256. *)
Theorem G34_iterations_modulo_256 (n : Z) (a : G34_args) (m : Machine) :
  G34 cfg (with_I (n + 256) a) m = G34 cfg (with_I n a) m.
Proof.
  unfold G34, G34_block, with_I. cbn [arg_I arg_T arg_A arg_E parser_val].
  rewrite int8_t_period. reflexivity.
Qed.

(** ** More on M422 *)

Lemma M422_store (z : nat) (x y : cfloat) (m : Machine) :
  (z < Z_STEPPER_COUNT cfg)%nat ->
  WITHIN x (X_MIN_POS cfg) (X_MAX_POS cfg) = true ->
  WITHIN y (Y_MIN_POS cfg) (Y_MAX_POS cfg) = true ->
  M422 cfg (M422_set z x y) m
  = (tt, set_z_auto_align_pos
           (array_set (z_auto_align_pos m) z {| pos_x := x; pos_y := y |}) m, []).
Proof.
  intros Hz Hx Hy. unfold M422, M422_set. cbn [arg_S arg_X arg_Y parser_val].
  destruct (M422_valid_index z Hz) as [Hi Hw]. rewrite Hi, Hw.
  cbn [negb]. rewrite Nat2Z.id. unfold bind, read, write.
  cbn [pos_x pos_y]. rewrite Hx, Hy. reflexivity.
Qed.

(** X4.  [M422] without S, or with an S that does not name a stepper
    (below 1 or above [Z_STEPPER_COUNT], within the range of [int8_t]),
    prints "?(S) Z-Stepper index invalid." and leaves the machine state
    unchanged, whatever X and Y are. *)
Theorem M422_rejects_bad_index (a : M422_args) (m : Machine) :
  (arg_S a = None
   \/ exists s, arg_S a = Some s /\ -127 <= s <= 128
                /\ (s < 1 \/ Z.of_nat (Z_STEPPER_COUNT cfg) < s)) ->
  state_of (M422 cfg a m) = m
  /\ trace_of (M422 cfg a m) = [Ev_serial "?(S) Z-Stepper index invalid."].
Proof.
  intro H. unfold M422.
  assert (Hw : WITHIN_int (int8_t (parser_val (arg_S a) 0 - 1)) 0
                 (Z.of_nat (Z_STEPPER_COUNT cfg) - 1) = false).
  { destruct (WITHIN_int _ 0 _) eqn:E; [|reflexivity].
    apply WITHIN_int_iff in E. exfalso.
    destruct H as [H|(s & H & Hr & Hs)]; rewrite H in E; cbn [parser_val] in E.
    - rewrite int8_t_small in E by lia. lia.
    - rewrite int8_t_small in E by lia. lia. }
  rewrite Hw. split; reflexivity.
Qed.

(** X5.  [M422] with only one coordinate keeps the other as stored: for a
    valid stepper, an X within the limits and a stored Y within the limits,
    the probe point becomes (X, stored Y), and likewise with the roles of X
    and Y exchanged.  The stored coordinate is checked as well: when it is
    outside the limits the command is refused with the line of that
    coordinate and nothing is stored. *)
Theorem M422_keeps_missing_coordinate (z : nat) (v : cfloat) (m : Machine) :
  well_formed cfg m -> (z < Z_STEPPER_COUNT cfg)%nat ->
  let only_x := {| arg_S := Some (Z.of_nat z + 1); arg_X := Some v; arg_Y := None |} in
  let only_y := {| arg_S := Some (Z.of_nat z + 1); arg_X := None; arg_Y := Some v |} in
  (WITHIN v (X_MIN_POS cfg) (X_MAX_POS cfg) = true ->
   WITHIN (pos_y (probe_point m z)) (Y_MIN_POS cfg) (Y_MAX_POS cfg) = true ->
     probe_point (state_of (M422 cfg only_x m)) z
     = {| pos_x := v; pos_y := pos_y (probe_point m z) |})
  /\ (WITHIN (pos_x (probe_point m z)) (X_MIN_POS cfg) (X_MAX_POS cfg) = true ->
      WITHIN v (Y_MIN_POS cfg) (Y_MAX_POS cfg) = true ->
        probe_point (state_of (M422 cfg only_y m)) z
        = {| pos_x := pos_x (probe_point m z); pos_y := v |})
  /\ (WITHIN v (X_MIN_POS cfg) (X_MAX_POS cfg) = true ->
      WITHIN (pos_y (probe_point m z)) (Y_MIN_POS cfg) (Y_MAX_POS cfg) = false ->
        state_of (M422 cfg only_x m) = m
        /\ trace_of (M422 cfg only_x m) = [Ev_serial "?(Y) out of bounds."])
  /\ (WITHIN (pos_x (probe_point m z)) (X_MIN_POS cfg) (X_MAX_POS cfg) = false ->
        state_of (M422 cfg only_y m) = m
        /\ trace_of (M422 cfg only_y m) = [Ev_serial "?(X) out of bounds."]).
Proof.
  intros Hwf Hz. cbn zeta. unfold M422, probe_point.
  cbn [arg_S arg_X arg_Y parser_val].
  destruct (M422_valid_index z Hz) as [Hi Hw]. rewrite Hi, Hw.
  cbn [negb]. rewrite Nat2Z.id. unfold bind, read, write. cbn [pos_x pos_y].
  unfold well_formed in Hwf.
  splits.
  - intros Hx Hy. rewrite Hx, Hy. cbn [negb state_of fst snd].
    cbn [set_z_auto_align_pos z_auto_align_pos].
    apply array_get_set_same. lia.
  - intros Hx Hy. rewrite Hx, Hy. cbn [negb state_of fst snd].
    cbn [set_z_auto_align_pos z_auto_align_pos].
    apply array_get_set_same. lia.
  - intros Hx Hy. rewrite Hx, Hy. cbn. split; reflexivity.
  - intros Hx. rewrite Hx. cbn. split; reflexivity.
Qed.

Lemma M422_length (a : M422_args) (m : Machine) :
  List.length (z_auto_align_pos (state_of (M422 cfg a m)))
  = List.length (z_auto_align_pos m).
Proof.
  unfold M422. destruct (WITHIN_int _ 0 _); cbn [negb]; [|reflexivity].
  unfold bind, read, write.
  destruct (WITHIN (pos_x _) _ _); cbn [negb]; [|reflexivity].
  destruct (WITHIN (pos_y _) _ _); cbn [negb]; [|reflexivity].
  cbn. apply array_set_length.
Qed.

(** X6.  The table of probe points keeps its size under every [M422],
    accepted or refused, and is not written at all by [G34]: started with
    one probe point per stepper, any sequence of the two commands leaves one
    probe point per stepper. *)
Theorem handlers_keep_probe_table (m : Machine) :
  well_formed cfg m ->
  (forall a, well_formed cfg (state_of (M422 cfg a m)))
  /\ (forall g, z_auto_align_pos (state_of (G34 cfg g m)) = z_auto_align_pos m)
  /\ (forall g, well_formed cfg (state_of (G34 cfg g m))).
Proof.
  intro Hwf. unfold well_formed in *. splits.
  - intro a. rewrite M422_length. exact Hwf.
  - intro g. apply G34_keeps_pos.
  - intro g. rewrite G34_keeps_pos. exact Hwf.
Qed.

(** X7.  Two accepted [M422] commands compose: after setting stepper [z1]
    and then stepper [z2], stepper [z2] reads the second position, stepper
    [z1] reads the first when it is another stepper (the last set wins
    when it is the same one), and every other stepper reads what it read
    before. *)
Theorem M422_sets_compose (z1 z2 : nat) (x1 y1 x2 y2 : cfloat) (m : Machine) :
  well_formed cfg m ->
  (z1 < Z_STEPPER_COUNT cfg)%nat -> (z2 < Z_STEPPER_COUNT cfg)%nat ->
  WITHIN x1 (X_MIN_POS cfg) (X_MAX_POS cfg) = true ->
  WITHIN y1 (Y_MIN_POS cfg) (Y_MAX_POS cfg) = true ->
  WITHIN x2 (X_MIN_POS cfg) (X_MAX_POS cfg) = true ->
  WITHIN y2 (Y_MIN_POS cfg) (Y_MAX_POS cfg) = true ->
  let m2 := state_of (M422 cfg (M422_set z2 x2 y2)
                        (state_of (M422 cfg (M422_set z1 x1 y1) m))) in
  probe_point m2 z2 = {| pos_x := x2; pos_y := y2 |}
  /\ (z1 <> z2 -> probe_point m2 z1 = {| pos_x := x1; pos_y := y1 |})
  /\ (forall z3, z3 <> z1 -> z3 <> z2 -> probe_point m2 z3 = probe_point m z3).
Proof.
  intros Hwf Hz1 Hz2 Hx1 Hy1 Hx2 Hy2. cbn zeta.
  rewrite (M422_store z1 x1 y1 m Hz1 Hx1 Hy1). cbn [state_of fst snd].
  rewrite (M422_store z2 x2 y2 _ Hz2 Hx2 Hy2). cbn [state_of fst snd].
  unfold probe_point, well_formed in *.
  cbn [set_z_auto_align_pos z_auto_align_pos]. splits.
  - apply array_get_set_same. rewrite array_set_length. lia.
  - intro Hne. rewrite array_get_set_other by congruence.
    apply array_get_set_same. lia.
  - intros z3 H1 H2. rewrite !array_get_set_other by congruence. reflexivity.
Qed.

(** ** The shape of an accepted run *)

Lemma G34_accepted_shape (a : G34_args) (m : Machine) :
  G34_accepts cfg a = true ->
  trace_of (G34 cfg a m)
  = G34_debug_in m ++ prepare_trace cfg m ++ trace_of (G34_loop_run cfg a m)
    ++ G34_tail cfg a m ++ G34_debug_out (state_of (G34 cfg a m))
  /\ (err_break (snd (value_of (G34_loop_run cfg a m))) = true ->
      state_of (G34 cfg a m) = state_of (G34_loop_run cfg a m))
  /\ (err_break (snd (value_of (G34_loop_run cfg a m))) = false ->
      state_of (G34 cfg a m)
      = state_of (G34_finish cfg
                    (int8_t (parser_val (arg_I a) (Z_STEPPER_ALIGN_ITERATIONS cfg)))
                    (fst (value_of (G34_loop_run cfg a m)))
                    (snd (value_of (G34_loop_run cfg a m)))
                    (leveling_active m) (active_extruder m)
                    (state_of (G34_loop_run cfg a m)))).
Proof.
  intro Ha. rewrite G34_unfold. cbn [state_of trace_of fst snd].
  fold (state_of (G34_block cfg a m)). fold (trace_of (G34_block cfg a m)).
  rewrite G34_block_accepted by exact Ha. rewrite G34_run_unfold. cbn zeta.
  destruct (G34_prepare_spec m) as (Pv & Pt & _). cbn zeta in Pv, Pt.
  rewrite Pv, Pt. cbn [fst snd].
  unfold G34_tail, G34_debug_in, G34_debug_out. fold (G34_loop_run cfg a m).
  destruct (err_break (snd (value_of (G34_loop_run cfg a m)))) eqn:Ee;
    cbn [state_of trace_of fst snd].
  - splits; [|reflexivity|discriminate].
    rewrite <- !app_assoc. reflexivity.
  - splits; [|discriminate|reflexivity].
    destruct (G34_finish_spec
                (int8_t (parser_val (arg_I a) (Z_STEPPER_ALIGN_ITERATIONS cfg)))
                (fst (value_of (G34_loop_run cfg a m)))
                (snd (value_of (G34_loop_run cfg a m)))
                (leveling_active m) (active_extruder m)
                (state_of (G34_loop_run cfg a m))) as (Ft & _).
    cbn zeta in Ft. unfold trace_of, state_of in *. rewrite Ft.
    rewrite <- !app_assoc. reflexivity.
Qed.

Lemma loop_probe_count (acc amp : cfloat) (raise_after : ProbePtRaise) (todo : nat) :
  forall (k : nat) (l : Locals) (m : Machine),
  locals_ok cfg l -> err_break l = false ->
  let r := iteration_loop cfg acc amp raise_after todo k l m in
  let n := List.length (iteration_history cfg acc amp raise_after todo k l m) in
  (probes_taken (trace_of r) <= Z_STEPPER_COUNT cfg * n)%nat
  /\ (has_serial "Probing failed." (trace_of r) = false ->
      probes_taken (trace_of r) = (Z_STEPPER_COUNT cfg * n)%nat
      /\ probe_feed (state_of r) = skipn (Z_STEPPER_COUNT cfg * n) (probe_feed m)).
Proof.
  induction todo as [|todo IH]; intros k l m Hok Herr0.
  - cbn. rewrite Nat.mul_0_r. splits; [lia|]. intros _. split; reflexivity.
  - cbn zeta. rewrite iteration_history_S.
    pose proof (iteration_body_spec acc amp raise_after k l m Hok Herr0) as Sb.
    cbn zeta in Sb.
    set (rb := iteration_body cfg acc amp raise_after k l m) in *.
    destruct Sb as (Bok & _ & _ & _ & Bpf & _ & _ & Bbrk & Bcase).
    destruct (snd (value_of rb)) eqn:Ebrk.
    + unfold rb. rewrite iteration_loop_break by exact Ebrk. fold rb.
      cbn [value_of state_of trace_of fst snd List.length]. rewrite Nat.mul_1_r.
      rewrite Bpf.
      destruct (all_valid (Z_STEPPER_COUNT cfg) (probe_feed m)).
      * destruct Bcase as (C1 & C2 & _). rewrite C1. splits; [lia|].
        intros _. split; [reflexivity | exact C2].
      * destruct Bcase as (_ & _ & _ & _ & C & _). splits; [exact C|]. discriminate.
    + unfold rb. rewrite iteration_loop_continue by exact Ebrk. fold rb. cbn zeta.
      cbn [value_of state_of trace_of fst snd List.length].
      assert (He1 : err_break (fst (value_of rb)) = false).
      { destruct (err_break (fst (value_of rb))); [|reflexivity].
        specialize (Bbrk eq_refl). congruence. }
      destruct (all_valid (Z_STEPPER_COUNT cfg) (probe_feed m));
        [|destruct Bcase as (C & _); congruence].
      destruct Bcase as (C1 & C2 & _).
      specialize (IH (S k) (fst (value_of rb)) (state_of rb) Bok He1). cbn zeta in IH.
      destruct IH as (I1 & I2).
      rewrite probes_taken_app, has_serial_app, Bpf, C1. cbn [negb orb].
      rewrite Nat.mul_succ_r. splits; [lia|].
      intro Hpf. destruct (I2 Hpf) as (J1 & J2). rewrite J1, J2, C2.
      split; [lia|]. rewrite skipn_skipn. f_equal; lia.
Qed.

Lemma iteration_history_nonempty (acc amp : cfloat) (raise_after : ProbePtRaise)
    (todo k : nat) (l : Locals) (m : Machine) :
  (1 <= todo)%nat ->
  (1 <= List.length (iteration_history cfg acc amp raise_after todo k l m))%nat.
Proof.
  destruct todo as [|todo]; [lia|]. intros _. rewrite iteration_history_S.
  cbn [List.length]. lia.
Qed.

Lemma accepted_iterations (a : G34_args) :
  G34_accepts cfg a = true ->
  1 <= int8_t (parser_val (arg_I a) (Z_STEPPER_ALIGN_ITERATIONS cfg)) <= 30.
Proof.
  unfold G34_accepts. intro H.
  apply andb_true_iff in H. destruct H as [H _].
  apply andb_true_iff in H. destruct H as [H _].
  apply WITHIN_int_iff in H. exact H.
Qed.

Lemma G34_loop_facts (a : G34_args) (m : Machine) :
  G34_accepts cfg a = true ->
  let rl := G34_loop_run cfg a m in
  let its := int8_t (parser_val (arg_I a) (Z_STEPPER_ALIGN_ITERATIONS cfg)) in
  forallb (loop_event (if arg_E a then PROBE_PT_STOW else PROBE_PT_RAISE)) (trace_of rl)
  = true
  /\ (1 <= iterations_executed (trace_of rl) <= Z.to_nat its)%nat
  /\ has_serial "G34 aborted." (trace_of rl) = false
  /\ forallb not_restoration (trace_of rl) = true
  /\ (probes_taken (trace_of rl)
      <= Z_STEPPER_COUNT cfg * iterations_executed (trace_of rl))%nat
  /\ (has_serial "Probing failed." (trace_of rl) = false ->
      probes_taken (trace_of rl)
      = (Z_STEPPER_COUNT cfg * iterations_executed (trace_of rl))%nat
      /\ probe_feed (state_of rl)
         = skipn (Z_STEPPER_COUNT cfg * iterations_executed (trace_of rl)) (probe_feed m))
  /\ (err_break (snd (value_of rl)) = false ->
      has_serial "Probing failed." (trace_of rl) = false
      /\ has_serial "Decreasing accuracy detected." (trace_of rl) = false
      /\ Z.of_nat (fst (value_of rl))
         + (if Z.of_nat (fst (value_of rl)) =? its then 0 else 1)
         = Z.of_nat (iterations_executed (trace_of rl)))
  /\ (err_break (snd (value_of rl)) = true ->
      has_serial "Probing failed." (trace_of rl) = true
      \/ has_serial "Decreasing accuracy detected." (trace_of rl) = true).
Proof.
  intro Ha. cbn zeta. pose proof (accepted_iterations a Ha) as Hits.
  unfold G34_loop_run.
  set (acc := parser_val (arg_T a) (Z_STEPPER_ALIGN_ACC cfg)).
  set (amp := parser_val (arg_A a) (Z_STEPPER_ALIGN_AMP cfg)).
  set (rs := if arg_E a then PROBE_PT_STOW else PROBE_PT_RAISE).
  set (its := int8_t (parser_val (arg_I a) (Z_STEPPER_ALIGN_ITERATIONS cfg))) in *.
  set (l0 := initial_locals cfg (initial_z_probe cfg (z_auto_align_pos m)) amp).
  set (m0 := state_of (G34_prepare cfg m)).
  pose proof (iteration_loop_spec acc amp rs (Z.to_nat its) 0 l0 m0
                (initial_locals_ok _ _) eq_refl) as Sl.
  pose proof (loop_probe_count acc amp rs (Z.to_nat its) 0 l0 m0
                (initial_locals_ok _ _) eq_refl) as Sp.
  pose proof (iteration_history_nonempty acc amp rs (Z.to_nat its) 0 l0 m0) as Hne.
  cbn zeta in Sl, Sp.
  destruct (G34_prepare_spec m) as (_ & _ & _ & _ & Pfeed & _). cbn zeta in Pfeed.
  fold m0 in Pfeed.
  set (rl := iteration_loop cfg acc amp rs (Z.to_nat its) 0 l0 m0) in *.
  set (hist := iteration_history cfg acc amp rs (Z.to_nat its) 0 l0 m0) in *.
  destruct Sl as (_ & Hit & Hlen & Hga & Hres & Hok & Herr).
  destruct Sp as (Hp1 & Hp2).
  rewrite Hit. splits.
  - apply emits_iteration_loop.
  - lia.
  - lia.
  - exact Hga.
  - exact Hres.
  - exact Hp1.
  - intro H. destruct (Hp2 H) as (J1 & J2). rewrite <- Pfeed. split; assumption.
  - intro He. destruct (Hok He) as (J1 & J2 & _ & J3). splits; try assumption.
    destruct J3 as [(pre & h & E1 & _ & _ & E4 & _)|(_ & E2 & E3 & _)].
    + rewrite E1, length_app in Hlen |- *. cbn [List.length] in *. rewrite E4.
      destruct (Z.eqb_spec (Z.of_nat (0 + List.length pre)) its); lia.
    + rewrite E3, E2. destruct (Z.eqb_spec (Z.of_nat (0 + Z.to_nat its)) its); lia.
  - exact Herr.
Qed.

(** ** Reading the trace of an accepted run *)

Lemma prepare_trace_service (m : Machine) :
  forallb service_event (prepare_trace cfg m) = true.
Proof.
  unfold prepare_trace.
  destruct (HAS_LEVELING cfg), (1 <? HOTENDS cfg)%nat,
    (xy_axes_known m && z_axis_known m); reflexivity.
Qed.

Lemma restore_trace_service (lwa : bool) (old : Z) :
  forallb service_event (restore_trace cfg lwa old) = true.
Proof.
  unfold restore_trace.
  destruct (HAS_LEVELING cfg && RESTORE_LEVELING_AFTER_G34 cfg), (1 <? HOTENDS cfg)%nat;
    reflexivity.
Qed.

Lemma debug_in_debug (m : Machine) : forallb debug_event (G34_debug_in m) = true.
Proof. unfold G34_debug_in. destruct (debug_leveling m); reflexivity. Qed.

Lemma debug_out_debug (m : Machine) : forallb debug_event (G34_debug_out m) = true.
Proof. unfold G34_debug_out. destruct (debug_leveling m); reflexivity. Qed.

Lemma service_hardware (t : list event) :
  forallb service_event t = true -> hardware t = t.
Proof.
  unfold hardware. induction t as [|e t IH]; simpl; [reflexivity|].
  intro H. apply andb_true_iff in H. destruct H as [He Ht].
  rewrite (IH Ht). destruct e; simpl in *; try discriminate; reflexivity.
Qed.

Lemma debug_hardware (t : list event) :
  forallb debug_event t = true -> hardware t = [].
Proof.
  unfold hardware. induction t as [|e t IH]; simpl; [reflexivity|].
  intro H. apply andb_true_iff in H. destruct H as [He Ht].
  rewrite (IH Ht). destruct e; simpl in *; try discriminate; reflexivity.
Qed.

Lemma service_not_serial (t : list event) :
  forallb service_event t = true -> forallb not_serial t = true.
Proof. apply forallb_impl. class_impl. Qed.

Lemma debug_not_serial (t : list event) :
  forallb debug_event t = true -> forallb not_serial t = true.
Proof. apply forallb_impl. class_impl. Qed.

Lemma service_not_banner (t : list event) :
  forallb service_event t = true -> forallb not_banner t = true.
Proof. apply forallb_impl. class_impl. Qed.

Lemma debug_not_banner (t : list event) :
  forallb debug_event t = true -> forallb not_banner t = true.
Proof. apply forallb_impl. class_impl. Qed.

Lemma service_no_probe (t : list event) :
  forallb service_event t = true -> probed_points t = [].
Proof. intro H. apply no_probe_points. revert H. apply forallb_impl. class_impl. Qed.

Lemma debug_no_probe (t : list event) :
  forallb debug_event t = true -> probed_points t = [].
Proof. intro H. apply no_probe_points. revert H. apply forallb_impl. class_impl. Qed.

Lemma debug_not_restoration (t : list event) :
  forallb debug_event t = true -> forallb not_restoration t = true.
Proof. apply forallb_impl. class_impl. Qed.

Lemma not_serial_lines (t : list event) :
  forallb not_serial t = true -> serial_lines t = [].
Proof.
  induction t as [|e t IH]; simpl; [reflexivity|].
  intro H. apply andb_true_iff in H. destruct H as [He Ht].
  destruct e; simpl in *; try discriminate; auto.
Qed.

Lemma not_restoration_existsb (t : list event) :
  forallb not_restoration t = true -> existsb is_restoration t = false.
Proof.
  induction t as [|e t IH]; simpl; [reflexivity|].
  intro H. apply andb_true_iff in H. destruct H as [He Ht].
  unfold not_restoration in He. apply negb_true_iff in He. rewrite He. auto.
Qed.

Lemma G34_tail_facts (a : G34_args) (m : Machine) :
  let e := err_break (snd (value_of (G34_loop_run cfg a m))) in
  has_serial "G34 aborted." (G34_tail cfg a m) = e
  /\ has_serial "Probing failed." (G34_tail cfg a m) = false
  /\ has_serial "Decreasing accuracy detected." (G34_tail cfg a m) = false
  /\ has_serial "Target accuracy achieved." (G34_tail cfg a m) = false
  /\ iterations_executed (G34_tail cfg a m) = 0%nat
  /\ probed_points (G34_tail cfg a m) = []
  /\ hardware (G34_tail cfg a m)
     = (if e then [] else restore_trace cfg (leveling_active m) (active_extruder m))
  /\ forallb not_restoration (G34_tail cfg a m) = e.
Proof.
  cbn zeta. unfold G34_tail.
  destruct (err_break (snd (value_of (G34_loop_run cfg a m)))).
  - splits; reflexivity.
  - pose proof (restore_trace_service (leveling_active m) (active_extruder m)) as Hs.
    rewrite !has_serial_app, iterations_executed_app, probed_points_app, hardware_app,
      forallb_app.
    rewrite (not_serial_has_serial _ _ (service_not_serial _ Hs)),
      (not_serial_has_serial _ _ (service_not_serial _ Hs)),
      (not_serial_has_serial _ _ (service_not_serial _ Hs)),
      (not_serial_has_serial _ _ (service_not_serial _ Hs)),
      (not_banner_count _ (service_not_banner _ Hs)),
      (service_no_probe _ Hs), (service_hardware _ Hs).
    splits; try reflexivity.
    unfold restore_trace. rewrite !forallb_app. cbn. rewrite !andb_false_r. reflexivity.
Qed.

Lemma G34_trace_readings (a : G34_args) (m : Machine) :
  G34_accepts cfg a = true ->
  let t := trace_of (G34 cfg a m) in
  let tl := trace_of (G34_loop_run cfg a m) in
  let e := err_break (snd (value_of (G34_loop_run cfg a m))) in
  has_serial "G34 aborted." t = e
  /\ has_serial "Probing failed." t = has_serial "Probing failed." tl
  /\ has_serial "Decreasing accuracy detected." t
     = has_serial "Decreasing accuracy detected." tl
  /\ has_serial "Target accuracy achieved." t = has_serial "Target accuracy achieved." tl
  /\ iterations_executed t = iterations_executed tl
  /\ probes_taken t = probes_taken tl
  /\ hardware t
     = prepare_trace cfg m ++ hardware tl
       ++ (if e then [] else restore_trace cfg (leveling_active m) (active_extruder m))
  /\ existsb is_restoration t = negb e.
Proof.
  intro Ha. cbn zeta.
  destruct (G34_accepted_shape a m Ha) as (Et & _). rewrite Et.
  pose proof (prepare_trace_service m) as Hp.
  pose proof (debug_in_debug m) as Hi.
  pose proof (debug_out_debug (state_of (G34 cfg a m))) as Ho.
  destruct (G34_tail_facts a m) as (T1 & T2 & T3 & T4 & T5 & T6 & T7 & T8).
  cbn zeta in *.
  destruct (G34_loop_facts a m Ha) as (_ & _ & Lga & Lres & _). cbn zeta in *.
  rewrite !has_serial_app, !iterations_executed_app, !probes_taken_app, !hardware_app.
  rewrite !(not_serial_has_serial _ _ (debug_not_serial _ Hi)),
    !(not_serial_has_serial _ _ (debug_not_serial _ Ho)),
    !(not_serial_has_serial _ _ (service_not_serial _ Hp)),
    (not_banner_count _ (debug_not_banner _ Hi)),
    (not_banner_count _ (debug_not_banner _ Ho)),
    (not_banner_count _ (service_not_banner _ Hp)),
    (probes_taken_nil _ (debug_no_probe _ Hi)),
    (probes_taken_nil _ (debug_no_probe _ Ho)),
    (probes_taken_nil _ (service_no_probe _ Hp)),
    (probes_taken_nil _ T6),
    (debug_hardware _ Hi), (debug_hardware _ Ho), (service_hardware _ Hp),
    T1, T2, T3, T4, T5, T7, Lga.
  cbn [orb app]. rewrite !orb_false_r, !Nat.add_0_r, !app_nil_r.
  splits; try reflexivity.
  rewrite !existsb_app.
  rewrite (not_restoration_existsb _ (debug_not_restoration _ Hi)),
    (not_restoration_existsb _ (debug_not_restoration _ Ho)),
    (not_restoration_existsb _ Lres).
  cbn [orb]. rewrite orb_false_r.
  assert (Hprep : existsb is_restoration (prepare_trace cfg m) = false).
  { unfold prepare_trace.
    destruct (HAS_LEVELING cfg), (1 <? HOTENDS cfg)%nat,
      (xy_axes_known m && z_axis_known m); reflexivity. }
  rewrite Hprep. cbn [orb].
  unfold G34_tail.
  destruct (err_break (snd (value_of (G34_loop_run cfg a m)))); [reflexivity|].
  rewrite existsb_app. unfold restore_trace. rewrite !existsb_app. cbn.
  rewrite !orb_true_r. reflexivity.
Qed.

(** ** The end of a run *)

(** X8.  An accepted [G34] that is not aborted ends with the restoration:
    the last hardware calls of the run are the tool change back to the tool
    selected at entry (with more than one hotend), the re-enabling of bed
    levelling to its state at entry (when built with levelling and
    [RESTORE_LEVELING_AFTER_G34]), the mark that Z is not homed, the stowing
    of the probe and "G28 Z", in this order; afterwards the tool and the
    levelling state are those of entry and the Z position is known again.
    The status of such a run is Converged or IterationsExhausted. *)
Theorem G34_restores_when_not_aborted (a : G34_args) (m : Machine) :
  G34_accepts cfg a = true ->
  has_serial "G34 aborted." (trace_of (G34 cfg a m)) = false ->
  (exists t0, hardware (trace_of (G34 cfg a m))
              = t0 ++ restore_trace cfg (leveling_active m) (active_extruder m))
  /\ ((1 <? HOTENDS cfg)%nat = true ->
      active_extruder (state_of (G34 cfg a m)) = active_extruder m)
  /\ (HAS_LEVELING cfg && RESTORE_LEVELING_AFTER_G34 cfg = true ->
      leveling_active (state_of (G34 cfg a m)) = leveling_active m)
  /\ z_axis_known (state_of (G34 cfg a m)) = true
  /\ (run_status (trace_of (G34 cfg a m)) = Converged
      \/ run_status (trace_of (G34 cfg a m)) = IterationsExhausted).
Proof.
  intros Ha Hga.
  destruct (G34_trace_readings a m Ha) as (R1 & R2 & R3 & R4 & _ & _ & R7 & _).
  cbn zeta in *. rewrite Hga in R1. symmetry in R1.
  destruct (G34_accepted_shape a m Ha) as (_ & _ & Es). rewrite (Es R1).
  match goal with
  | |- context [G34_finish ?c ?i ?it ?l ?w ?o ?s] =>
      destruct (G34_finish_spec i it l w o s) as (_ & _ & _ & _ & _ & F1 & F2 & F3)
  end.
  cbn zeta in F1, F2, F3.
  destruct (G34_loop_facts a m Ha) as (_ & _ & _ & _ & _ & _ & Lok & _).
  cbn zeta in Lok. destruct (Lok R1) as (L1 & L2 & _).
  splits.
  - rewrite R7, R1. eexists. rewrite app_assoc. reflexivity.
  - intro H. rewrite F2, H. reflexivity.
  - intro H. rewrite F1, H. reflexivity.
  - exact F3.
  - rewrite run_status_cases, R2, R3, L1, L2.
    destruct (has_serial "Target accuracy achieved." (trace_of (G34 cfg a m))); auto.
Qed.

(** X9.  An accepted [G34] prints "G34 aborted." exactly when a probe
    failed or decreasing accuracy was detected, and such a run makes none of
    the restoration calls: Z is not marked unhomed, the probe is not stowed,
    no homing command is issued. *)
Theorem G34_abort_iff (a : G34_args) (m : Machine) :
  G34_accepts cfg a = true ->
  (has_serial "G34 aborted." (trace_of (G34 cfg a m)) = true
   <-> (run_status (trace_of (G34 cfg a m)) = AbortedProbeFault
        \/ run_status (trace_of (G34 cfg a m)) = AbortedDiverging))
  /\ existsb is_restoration (trace_of (G34 cfg a m))
     = negb (has_serial "G34 aborted." (trace_of (G34 cfg a m))).
Proof.
  intros Ha.
  destruct (G34_trace_readings a m Ha) as (R1 & R2 & R3 & _ & _ & _ & _ & R8).
  cbn zeta in *.
  destruct (G34_loop_facts a m Ha) as (_ & _ & _ & _ & _ & _ & Lok & Lerr).
  cbn zeta in *. rewrite R1, R8. split; [|reflexivity].
  rewrite run_status_cases, R2, R3. clear R1 R2 R3 R8.
  destruct (err_break (snd (value_of (G34_loop_run cfg a m)))).
  - split; [intros _|reflexivity].
    destruct (has_serial "Probing failed." (trace_of (G34_loop_run cfg a m))) eqn:Ep;
      [left; reflexivity|].
    destruct (Lerr eq_refl) as [H|H]; [discriminate|].
    rewrite H. right. reflexivity.
  - destruct (Lok eq_refl) as (L1 & L2 & _). rewrite L1, L2.
    split; [discriminate|].
    destruct (has_serial "Target accuracy achieved." _); intros [H|H]; discriminate.
Qed.

Lemma reported_iterations_skip (t u : list event) :
  forallb not_did t = true -> reported_iterations (t ++ u) = reported_iterations u.
Proof.
  induction t as [|e t IH]; simpl; [reflexivity|].
  intro H. apply andb_true_iff in H. destruct H as [He Ht].
  destruct e; simpl in *; auto.
  apply negb_true_iff in He. rewrite He. auto.
Qed.

Lemma loop_event_not_did (r : ProbePtRaise) (t : list event) :
  forallb (loop_event r) t = true -> forallb not_did t = true.
Proof. apply forallb_impl. class_impl. Qed.

Lemma service_not_did (t : list event) :
  forallb service_event t = true -> forallb not_did t = true.
Proof. apply forallb_impl. class_impl. Qed.

Lemma debug_not_did (t : list event) :
  forallb debug_event t = true -> forallb not_did t = true.
Proof. apply forallb_impl. class_impl. Qed.

(** X10.  The line "Did n iterations of m" of an accepted [G34] that is
    not aborted reports the number of passes through the iteration loop that
    were executed, whether the loop ran to its limit or was left early on
    reaching the target. *)
Theorem G34_reports_iterations (a : G34_args) (m : Machine) :
  G34_accepts cfg a = true ->
  has_serial "G34 aborted." (trace_of (G34 cfg a m)) = false ->
  reported_iterations (trace_of (G34 cfg a m))
  = Some (Z.of_nat (iterations_executed (trace_of (G34 cfg a m)))).
Proof.
  intros Ha Hga.
  destruct (G34_trace_readings a m Ha) as (R1 & _ & _ & _ & R5 & _). cbn zeta in *.
  rewrite Hga in R1. symmetry in R1. rewrite R5.
  destruct (G34_accepted_shape a m Ha) as (Et & _). rewrite Et.
  destruct (G34_loop_facts a m Ha) as (Lev & _ & _ & _ & _ & _ & Lok & _).
  cbn zeta in *. destruct (Lok R1) as (_ & _ & Hcount).
  rewrite (reported_iterations_skip _ _ (debug_not_did _ (debug_in_debug m))).
  rewrite (reported_iterations_skip _ _ (service_not_did _ (prepare_trace_service m))).
  rewrite (reported_iterations_skip _ _ (loop_event_not_did _ _ Lev)).
  unfold G34_tail. rewrite R1. cbn [app reported_iterations String.eqb Ascii.eqb Bool.eqb].
  rewrite Hcount. reflexivity.
Qed.

(** X11.  An accepted [G34] takes at most [Z_STEPPER_COUNT] probes per
    iteration executed, and exactly that many when no probe fails; it then
    has consumed exactly that many readings of the probe. *)
Theorem G34_probe_count (a : G34_args) (m : Machine) :
  G34_accepts cfg a = true ->
  (probes_taken (trace_of (G34 cfg a m))
   <= Z_STEPPER_COUNT cfg * iterations_executed (trace_of (G34 cfg a m)))%nat
  /\ (has_serial "Probing failed." (trace_of (G34 cfg a m)) = false ->
      probes_taken (trace_of (G34 cfg a m))
      = (Z_STEPPER_COUNT cfg * iterations_executed (trace_of (G34 cfg a m)))%nat
      /\ probe_feed (state_of (G34 cfg a m))
         = skipn (Z_STEPPER_COUNT cfg * iterations_executed (trace_of (G34 cfg a m)))
             (probe_feed m)).
Proof.
  intros Ha.
  destruct (G34_trace_readings a m Ha) as (_ & R2 & _ & _ & R5 & R6 & _). cbn zeta in *.
  destruct (G34_loop_facts a m Ha) as (_ & _ & _ & _ & L5 & L6 & _). cbn zeta in *.
  rewrite R2, R5, R6. split; [exact L5|].
  intro H. destruct (L6 H) as (J1 & J2). split; [exact J1|].
  destruct (G34_accepted_shape a m Ha) as (_ & Ea & Ef).
  destruct (err_break (snd (value_of (G34_loop_run cfg a m)))).
  - rewrite (Ea eq_refl). exact J2.
  - rewrite (Ef eq_refl).
    match goal with
    | |- context [G34_finish ?c ?i ?it ?l ?w ?o ?s] =>
        destruct (G34_finish_spec i it l w o s) as (_ & _ & _ & F & _)
    end.
    cbn zeta in F. rewrite F. exact J2.
Qed.

(** X12.  An accepted [G34] executes at least one pass of the iteration
    loop and at most as many as the value of its iteration count after the
    conversion to [int8_t], the value the range check sees, which is at most
    30.  (The count as given may be another number: I-226 is read as 30.) *)
Theorem G34_iteration_bounds (a : G34_args) (m : Machine) :
  G34_accepts cfg a = true ->
  1 <= Z.of_nat (iterations_executed (trace_of (G34 cfg a m)))
    <= int8_t (parser_val (arg_I a) (Z_STEPPER_ALIGN_ITERATIONS cfg))
  /\ int8_t (parser_val (arg_I a) (Z_STEPPER_ALIGN_ITERATIONS cfg)) <= 30.
Proof.
  intros Ha. pose proof (accepted_iterations a Ha) as Hits.
  destruct (G34_trace_readings a m Ha) as (_ & _ & _ & _ & R5 & _). cbn zeta in *.
  destruct (G34_loop_facts a m Ha) as (_ & L2 & _). cbn zeta in *.
  rewrite R5. lia.
Qed.

(** X13.  Every probe of a [G34] is made in the mode the E parameter
    selects: stowing after each point with E, raising without. *)
Theorem G34_probe_mode (a : G34_args) (m : Machine) :
  probes_in_mode (if arg_E a then PROBE_PT_STOW else PROBE_PT_RAISE)
    (trace_of (G34 cfg a m)) = true.
Proof.
  unfold probes_in_mode.
  set (F := fun e => match e with
                     | Ev_probe_at_point _ r =>
                         ProbePtRaise_eqb r
                           (if arg_E a then PROBE_PT_STOW else PROBE_PT_RAISE)
                     | _ => true
                     end).
  assert (Hd : forall t, forallb debug_event t = true -> forallb F t = true)
    by (intro t; apply forallb_impl; class_impl).
  assert (Hs : forall t, forallb service_event t = true -> forallb F t = true)
    by (intro t; apply forallb_impl; class_impl).
  destruct (G34_accepts cfg a) eqn:Ha.
  - destruct (G34_accepted_shape a m Ha) as (Et & _). rewrite Et.
    destruct (G34_loop_facts a m Ha) as (Lev & _). cbn zeta in Lev.
    assert (Hl : forallb F (trace_of (G34_loop_run cfg a m)) = true).
    { revert Lev. apply forallb_impl. unfold F. class_impl. assumption. }
    assert (Ht : forallb F (G34_tail cfg a m) = true).
    { unfold G34_tail.
      destruct (err_break (snd (value_of (G34_loop_run cfg a m)))); [reflexivity|].
      rewrite forallb_app, (Hs _ (restore_trace_service _ _)). reflexivity. }
    rewrite !forallb_app, (Hd _ (debug_in_debug m)), (Hs _ (prepare_trace_service m)),
      Hl, Ht, (Hd _ (debug_out_debug _)). reflexivity.
  - rewrite G34_unfold. cbn [trace_of snd].
    destruct (G34_block_rejected a m Ha) as [_ Hl].
    fold (trace_of (G34_block cfg a m)).
    assert (Hb : forallb F (trace_of (G34_block cfg a m)) = true)
      by (destruct Hl as [H|[H|H]]; rewrite H; reflexivity).
    rewrite !forallb_app, Hb.
    destruct (debug_leveling m), (debug_leveling (state_of (G34_block cfg a m)));
      reflexivity.
Qed.

Lemma probe_step_hardware (raise_after : ProbePtRaise) (k iz : nat) (l : Locals)
    (zmin : cfloat) (m : Machine) :
  hardware (trace_of (probe_step cfg raise_after k iz l zmin m))
  = (if clearance_move_wanted k iz then [Ev_do_blocking_move_to_z (z_probe l)] else [])
    ++ [Ev_probe_at_point (probe_point m (probe_zstepper cfg k iz)) raise_after].
Proof.
  unfold probe_step, probe_point. run_m.
  destruct (clearance_move_wanted k iz); simpl;
    (destruct (probe_feed m) as [|rd rest]; simpl;
     [|destruct (isnan (measured_z rd)); simpl;
       [|destruct (debug_leveling m); simpl]]); reflexivity.
Qed.

Lemma first_pass_hardware (acc amp : cfloat) (raise_after : ProbePtRaise)
    (todo : nat) (l : Locals) (m : Machine) :
  exists rest,
    hardware (trace_of (iteration_loop cfg acc amp raise_after (S todo) 0 l m))
    = Ev_do_blocking_move_to_z (z_probe l)
      :: Ev_probe_at_point (probe_point m 0) raise_after :: rest.
Proof.
  assert (Hb : exists rest,
            hardware (trace_of (iteration_body cfg acc amp raise_after 0 l m))
            = Ev_do_blocking_move_to_z (z_probe l)
              :: Ev_probe_at_point (probe_point m 0) raise_after :: rest).
  { assert (Hp : exists rest,
              hardware (trace_of (probe_loop cfg raise_after 0
                                    (seq 0 (Z_STEPPER_COUNT cfg)) l (Fin 100000) m))
              = Ev_do_blocking_move_to_z (z_probe l)
                :: Ev_probe_at_point (probe_point m 0) raise_after :: rest).
    { assert (Hs : exists n, seq 0 (Z_STEPPER_COUNT cfg) = 0%nat :: seq 1 n).
      { destruct Z_STEPPER_COUNT_cases as [E|E]; rewrite E; eexists; reflexivity. }
      destruct Hs as (n & Hs). rewrite Hs. cbn [probe_loop].
      rewrite bind_trace, hardware_app, probe_step_hardware.
      cbn [clearance_move_wanted Nat.eqb orb app]. eexists. reflexivity. }
    destruct Hp as (rest & Hp).
    rewrite iteration_body_unfold. cbn zeta.
    match goal with
    | |- context [if err_break ?x then _ else _] => destruct (err_break x)
    end.
    - cbn [trace_of snd]. rewrite !hardware_app.
      fold (trace_of (probe_loop cfg raise_after 0 (seq 0 (Z_STEPPER_COUNT cfg)) l
                        (Fin 100000) m)).
      rewrite Hp. destruct (debug_leveling m); cbn; eexists; reflexivity.
    - match goal with
      | |- context [if err_break ?x then _ else _] => destruct (err_break x)
      end; [|match goal with
             | |- context [if snd ?x then _ else _] => destruct (snd x)
             end];
        cbn [trace_of snd]; rewrite !hardware_app, Hp;
        destruct (debug_leveling m); cbn; eexists; reflexivity. }
  destruct Hb as (rest & Hb). cbn [iteration_loop].
  rewrite bind_trace, hardware_app, Hb. eexists. cbn [app]. reflexivity.
Qed.

(** X14.  The hardware calls of an accepted [G34] begin, in this order,
    with the planner synchronisation, the disabling of bed levelling (when
    built with levelling), the change to tool 0 (with more than one
    hotend) and the homing of all axes exactly when some axis position is
    unknown; then comes the move to the first clearance height and the first
    probe, at the probe point of the first stepper. *)
Theorem G34_prologue (a : G34_args) (m : Machine) :
  G34_accepts cfg a = true ->
  exists rest,
    hardware (trace_of (G34 cfg a m))
    = prepare_trace cfg m
      ++ Ev_do_blocking_move_to_z (initial_z_probe cfg (z_auto_align_pos m))
      :: Ev_probe_at_point (probe_point m 0)
           (if arg_E a then PROBE_PT_STOW else PROBE_PT_RAISE)
      :: rest.
Proof.
  intro Ha. pose proof (accepted_iterations a Ha) as Hits.
  destruct (G34_trace_readings a m Ha) as (_ & _ & _ & _ & _ & _ & R7 & _).
  cbn zeta in R7. rewrite R7. unfold G34_loop_run.
  destruct (Z.to_nat (int8_t (parser_val (arg_I a) (Z_STEPPER_ALIGN_ITERATIONS cfg))))
    as [|todo] eqn:Et; [lia|].
  match goal with
  | |- context [iteration_loop ?c ?acc ?amp ?r (S todo) 0 ?l ?s] =>
      destruct (first_pass_hardware acc amp r todo l s) as (rest & Hr)
  end.
  rewrite Hr. cbn [initial_locals z_probe].
  destruct (G34_prepare_spec m) as (_ & _ & Ppos & _). cbn zeta in Ppos.
  unfold probe_point. rewrite Ppos.
  eexists. cbn [app]. reflexivity.
Qed.

(** X15.  Locking all steppers and then making the [switch] for stepper
    [z] leaves, from any lock state, exactly stepper [z] unlocked; unlocking
    all leaves every stepper unlocked.  Neither touches the switch between
    joint and separate driving. *)
Theorem isolate_stepper_frees_one (z : nat) (m : Machine) :
  (z < Z_STEPPER_COUNT cfg)%nat ->
  (forall i, (i < Z_STEPPER_COUNT cfg)%nat ->
     lock_flag (stepper (state_of (isolate_stepper cfg z m))) i = negb (i =? z)%nat)
  /\ unlocked_count cfg (stepper (state_of (isolate_stepper cfg z m))) = 1%nat
  /\ separate_multi_axis (stepper (state_of (isolate_stepper cfg z m)))
     = separate_multi_axis (stepper m)
  /\ (forall i, (i < Z_STEPPER_COUNT cfg)%nat ->
        lock_flag (stepper (state_of (set_all_z_lock cfg false m))) i = false)
  /\ separate_multi_axis (stepper (state_of (set_all_z_lock cfg false m)))
     = separate_multi_axis (stepper m).
Proof.
  unfold isolate_stepper, set_all_z_lock, unlock_one, unlocked_count, Z_STEPPER_COUNT.
  run_m. destruct (Z_TRIPLE_STEPPER_DRIVERS cfg) eqn:Et; intro Hz;
    destruct z as [|[|[|z']]]; try lia; cbn; rewrite ?Et; cbn; splits;
    try reflexivity; intros i Hi; destruct i as [|[|[|i']]]; try lia; reflexivity.
Qed.

(** ** The clearance height *)




(** ** The reference height *)

Lemma MIN_Fin (a b : Q) :
  exists mn, _MIN (Fin a) (Fin b) = Fin mn /\ (mn <= a)%Q /\ (mn <= b)%Q
             /\ (_MIN (Fin a) (Fin b) = Fin a \/ _MIN (Fin a) (Fin b) = Fin b).
Proof.
  unfold _MIN, flt. destruct (Qle_bool b a) eqn:E; cbn [negb].
  - exists b. apply Qle_bool_iff in E. splits; [reflexivity | exact E | apply Qle_refl|].
    right. reflexivity.
  - exists a. splits; [reflexivity | apply Qle_refl | |left; reflexivity].
    apply Qlt_le_weak, Qnot_le_lt. intro H. apply Qle_bool_iff in H. congruence.
Qed.

Lemma probe_step_values (raise_after : ProbePtRaise) (k iz : nat) (l : Locals)
    (zmin : cfloat) (m : Machine) (rd : ProbeReading) (rest : list ProbeReading) :
  probe_feed m = rd :: rest -> isnan (measured_z rd) = false ->
  let zs := probe_zstepper cfg k iz in
  let l1 := set_z_measured
              (array_set (z_measured l) zs
                 (fadd (measured_z rd) (Z_CLEARANCE_BETWEEN_PROBES cfg))) l in
  value_of (probe_step cfg raise_after k iz l zmin m)
  = (l1, _MIN zmin (fget (z_measured l1) zs), true)
  /\ probe_feed (state_of (probe_step cfg raise_after k iz l zmin m)) = rest.
Proof.
  intros Hf Hv. unfold probe_step. run_m.
  destruct (clearance_move_wanted k iz); simpl; rewrite Hf; simpl; rewrite Hv; simpl;
    destruct (debug_leveling m); simpl; split; reflexivity.
Qed.

Lemma all_valid_cons (n : nat) (feed : list ProbeReading) :
  all_valid (S n) feed = true ->
  exists rd rest, feed = rd :: rest /\ isnan (measured_z rd) = false
                  /\ all_valid n rest = true.
Proof.
  rewrite all_valid_S. intro H. apply andb_true_iff in H. destruct H as [H1 H2].
  destruct feed as [|rd rest]; [discriminate|].
  exists rd, rest. splits; [reflexivity| |exact H2].
  unfold all_valid in H1. cbn in H1. rewrite andb_true_r in H1.
  apply negb_true_iff in H1. exact H1.
Qed.

Lemma probe_loop_minimum (raise_after : ProbePtRaise) (k : nat) (c : Q)
    (izs : list nat) :
  Z_CLEARANCE_BETWEEN_PROBES cfg = Fin c ->
  NoDup (map (probe_zstepper cfg k) izs) ->
  forall (l : Locals) (q0 : Q) (m : Machine),
  Forall (fun iz => (probe_zstepper cfg k iz < List.length (z_measured l))%nat) izs ->
  all_valid (List.length izs) (probe_feed m) = true ->
  let r := probe_loop cfg raise_after k izs l (Fin q0) m in
  let l1 := fst (value_of r) in
  exists q1,
    snd (value_of r) = Fin q1
    /\ (q1 <= q0)%Q
    /\ (forall iz, In iz izs ->
          exists v, fget (z_measured l1) (probe_zstepper cfg k iz) = Fin v /\ (q1 <= v)%Q)
    /\ (forall z, ~ In z (map (probe_zstepper cfg k) izs) ->
          fget (z_measured l1) z = fget (z_measured l) z)
    /\ (snd (value_of r) = Fin q0
        \/ exists iz, In iz izs
             /\ snd (value_of r) = fget (z_measured l1) (probe_zstepper cfg k iz)).
Proof.
  intros Hc. induction izs as [|iz rest IH]; intros Hnd l q0 m Hlen Hv.
  - cbn. exists q0. splits; try reflexivity.
    + apply Qle_refl.
    + intros iz [].
    + left. reflexivity.
  - cbn [List.length] in Hv. destruct (all_valid_cons _ _ Hv) as (rd & feed & Hf & Hrd & Hv').
    destruct (probe_step_values raise_after k iz l (Fin q0) m rd feed Hf Hrd)
      as (Hval & Efeed). cbn zeta in Hval.
    cbn [map] in Hnd. inversion Hnd as [|? ? Hnin Hnd']; subst.
    inversion Hlen as [|? ? Hz Hlen']; subst.
    destruct (measured_z rd) as [|rq] eqn:Erd; [discriminate|].
    rewrite Hc in Hval. cbn [fadd] in Hval.
    set (zs := probe_zstepper cfg k iz) in *.
    set (l1 := set_z_measured (array_set (z_measured l) zs (Fin (rq + c))) l) in *.
    assert (Hget : fget (z_measured l1) zs = Fin (rq + c)).
    { unfold l1, fget. cbn [set_z_measured z_measured].
      apply array_get_set_same. exact Hz. }
    rewrite Hget in Hval.
    destruct (MIN_Fin q0 (rq + c)) as (q1 & Emin & M1 & M2 & Mcase).
    rewrite Emin in Hval.
    assert (Hlen1 : Forall (fun iz' => (probe_zstepper cfg k iz'
                                        < List.length (z_measured l1))%nat) rest).
    { unfold l1. cbn [set_z_measured z_measured]. rewrite array_set_length. exact Hlen'. }
    try rewrite <- Efeed in Hv'.
    specialize (IH Hnd' l1 q1 (state_of (probe_step cfg raise_after k iz l (Fin q0) m))
                  Hlen1 Hv').
    cbn zeta in IH. destruct IH as (q2 & I1 & I2 & I3 & I4 & I5).
    cbn zeta. cbn [probe_loop]. rewrite bind_value, Hval. cbv iota beta.
    exists q2. splits.
    + exact I1.
    + eapply Qle_trans; eassumption.
    + intros iz' [Hi|Hi].
      * subst iz'. exists (rq + c)%Q. split.
        -- fold zs. rewrite I4 by exact Hnin. exact Hget.
        -- eapply Qle_trans; eassumption.
      * apply I3. exact Hi.
    + intros z Hn. rewrite I4 by (intro; apply Hn; right; assumption).
      unfold l1, fget. cbn [set_z_measured z_measured].
      apply array_get_set_other. intro; subst. apply Hn. left. reflexivity.
    + destruct I5 as [I5|(iz' & Hi & I5)].
      * rewrite Emin in Mcase. destruct Mcase as [Mc|Mc].
        -- left. rewrite I5. exact Mc.
        -- right. exists iz. split; [left; reflexivity|].
           fold zs. rewrite I5, I4 by exact Hnin. rewrite Hget. exact Mc.
      * right. exists iz'. split; [right; exact Hi | exact I5].
Qed.

(** X17.  After a completed probing, the reference height of the
    iteration is at most every measured height: the move computed for each
    stepper (measured height minus reference height) is never negative.
    When some measured height is below the initial reference 100000, the
    reference is the height of one of the steppers, which gets the move
    zero. *)
Theorem corrections_are_nonnegative (raise_after : ProbePtRaise) (k : nat)
    (l : Locals) (m : Machine) (c : Q) :
  Z_CLEARANCE_BETWEEN_PROBES cfg = Fin c ->
  locals_ok cfg l ->
  all_valid (Z_STEPPER_COUNT cfg) (probe_feed m) = true ->
  let r := probe_loop cfg raise_after k (seq 0 (Z_STEPPER_COUNT cfg)) l (Fin 100000) m in
  let l2 := adapt_clearance cfg (fst (value_of r)) in
  let zmin := snd (value_of r) in
  (forall z, (z < Z_STEPPER_COUNT cfg)%nat ->
     exists d, z_align_move_of l2 zmin z = Fin d /\ (0 <= d)%Q)
  /\ ((exists z v, (z < Z_STEPPER_COUNT cfg)%nat
                   /\ fget (z_measured l2) z = Fin v /\ (v < 100000)%Q) ->
      exists z d, (z < Z_STEPPER_COUNT cfg)%nat
                  /\ z_align_move_of l2 zmin z = Fin d /\ (d == 0)%Q).
Proof.
  intros Hc [_ Hlen] Hv. cbn zeta.
  assert (Hperm : Permutation (seq 0 (Z_STEPPER_COUNT cfg))
                    (map (probe_zstepper cfg k) (seq 0 (Z_STEPPER_COUNT cfg))))
    by (apply Permutation_sym, probe_order_perm).
  assert (Hnd : NoDup (map (probe_zstepper cfg k) (seq 0 (Z_STEPPER_COUNT cfg))))
    by (eapply Permutation_NoDup; [exact Hperm | apply seq_NoDup]).
  assert (Hlt : Forall (fun iz => (probe_zstepper cfg k iz
                                   < List.length (z_measured l))%nat)
                  (seq 0 (Z_STEPPER_COUNT cfg))).
  { apply Forall_forall. intros iz Hi. rewrite Hlen.
    assert (Hin : In (probe_zstepper cfg k iz) (seq 0 (Z_STEPPER_COUNT cfg))).
    { eapply Permutation_in; [apply Permutation_sym; exact Hperm|].
      apply in_map. exact Hi. }
    apply in_seq in Hin. lia. }
  assert (Hv' : all_valid (List.length (seq 0 (Z_STEPPER_COUNT cfg))) (probe_feed m) = true)
    by (rewrite length_seq; exact Hv).
  destruct (probe_loop_minimum raise_after k c (seq 0 (Z_STEPPER_COUNT cfg)) Hc Hnd
              l 100000%Q m Hlt Hv') as (q1 & I1 & I2 & I3 & _ & I5).
  cbn zeta in *.
  destruct (adapt_clearance_keeps
              (fst (value_of (probe_loop cfg raise_after k (seq 0 (Z_STEPPER_COUNT cfg))
                                l (Fin 100000) m)))) as (Azm & _).
  unfold z_align_move_of. rewrite Azm, I1.
  assert (Hsurj : forall z, (z < Z_STEPPER_COUNT cfg)%nat ->
            exists iz, In iz (seq 0 (Z_STEPPER_COUNT cfg)) /\ probe_zstepper cfg k iz = z).
  { intros z Hz.
    assert (Hin : In z (map (probe_zstepper cfg k) (seq 0 (Z_STEPPER_COUNT cfg)))).
    { eapply Permutation_in; [exact Hperm|]. apply in_seq. lia. }
    apply in_map_iff in Hin. destruct Hin as (iz & E & Hi). exists iz. auto. }
  split.
  - intros z Hz. destruct (Hsurj z Hz) as (iz & Hi & E). subst z.
    destruct (I3 iz Hi) as (v & Ev & Hle). rewrite Ev. cbn [fsub].
    exists (v - q1)%Q. split; [reflexivity|].
    apply (Qplus_le_l _ _ q1). ring_simplify. exact Hle.
  - intros (z & v & Hz & Ev & Hlt100).
    destruct (Hsurj z Hz) as (iz & Hi & E). subst z.
    destruct (I3 iz Hi) as (v' & Ev' & Hle). rewrite Ev' in Ev.
    injection Ev as Ev. subst v'.
    destruct I5 as [I5|(iz' & Hi' & I5)].
    + rewrite I1 in I5. injection I5 as I5. subst q1. exfalso.
      exact (Qlt_not_le _ _ Hlt100 Hle).
    + destruct (I3 iz' Hi') as (w & Ew & _).
      rewrite I1, Ew in I5. injection I5 as I5. subst w.
      exists (probe_zstepper cfg k iz'), (q1 - q1)%Q. splits.
      * assert (Hin : In (probe_zstepper cfg k iz') (seq 0 (Z_STEPPER_COUNT cfg))).
        { eapply Permutation_in; [apply Permutation_sym; exact Hperm|].
          apply in_map. exact Hi'. }
        apply in_seq in Hin. lia.
      * rewrite Ew. reflexivity.
      * ring.
Qed.

(** ** The debug flag *)

Lemma without_debug_app (t u : list event) :
  without_debug (t ++ u) = without_debug t ++ without_debug u.
Proof. unfold without_debug. apply filter_app. Qed.

Lemma db_ret {A : Type} (a : A) : debug_blind (ret a).
Proof. intros b m. splits; reflexivity. Qed.

Lemma db_bind {A B : Type} (c : M A) (k : A -> M B) :
  debug_blind c -> (forall a, debug_blind (k a)) -> debug_blind (bind c k).
Proof.
  intros Hc Hk b m.
  destruct (Hc b m) as (V & S & T & _). destruct (Hc false m) as (V0 & S0 & _ & Q0).
  rewrite !bind_value, !bind_state, !bind_trace, !without_debug_app.
  rewrite V, S, T, V0, S0, Q0.
  destruct (Hk (value_of (c m)) b (state_of (c m))) as (V2 & S2 & T2 & _).
  destruct (Hk (value_of (c m)) false (state_of (c m))) as (_ & _ & _ & Q2).
  rewrite V2, S2, T2, Q2. splits; reflexivity.
Qed.

(** A computation that does not look at the flag and makes no debug
    output. *)
Lemma db_plain {A : Type} (c : M A) :
  (forall b m, c (set_debug_leveling b m)
               = (value_of (c m), set_debug_leveling b (state_of (c m)), trace_of (c m))) ->
  (forall m, without_debug (trace_of (c m)) = trace_of (c m)) ->
  debug_blind c.
Proof.
  intros H Hq b m. rewrite (H b m), (H false m). cbn [value_of state_of trace_of fst snd].
  splits; try reflexivity. apply Hq.
Qed.

Lemma db_when (b : bool) (c : M unit) : debug_blind c -> debug_blind (when b c).
Proof. intro H. destruct b; simpl; [exact H | apply db_ret]. Qed.

Lemma db_DEBUG_call (e : event) :
  debug_output e = true -> debug_blind (DEBUG (call e)).
Proof.
  intros He b m. unfold DEBUG, call. cbn [debug_leveling set_debug_leveling].
  destruct b, (debug_leveling m);
    cbn [value_of state_of trace_of fst snd without_debug filter negb];
    rewrite ?He; cbn [negb]; splits; reflexivity.
Qed.

Lemma db_probe_at_point (pos : xy_pos_t) (r : ProbePtRaise) :
  debug_blind (probe_at_point pos r).
Proof.
  apply db_plain.
  - intros b m. unfold probe_at_point. cbn [probe_feed set_debug_leveling].
    destruct (probe_feed m); reflexivity.
  - intro m. unfold probe_at_point. destruct (probe_feed m); reflexivity.
Qed.

Ltac db_auto :=
  repeat first
    [ apply db_ret
    | apply db_when
    | apply db_DEBUG_call; reflexivity
    | apply db_probe_at_point
    | apply db_bind; [|intros]
    | (apply db_plain; intros; reflexivity) ].

Lemma db_probe_step (raise_after : ProbePtRaise) (k iz : nat) (l : Locals)
    (zmin : cfloat) :
  debug_blind (probe_step cfg raise_after k iz l zmin).
Proof.
  unfold probe_step. apply db_bind; [db_auto|]. intros _.
  apply db_bind; [db_auto|]. intro pos.
  apply db_bind; [apply db_probe_at_point|].
  intro z. destruct (isnan z); unfold DEBUG_ECHOLNPAIR, SERIAL_ECHOLNPGM; db_auto.
Qed.

Lemma db_probe_loop (raise_after : ProbePtRaise) (k : nat) (izs : list nat) :
  forall (l : Locals) (zmin : cfloat),
  debug_blind (probe_loop cfg raise_after k izs l zmin).
Proof.
  induction izs as [|iz rest IH]; intros l zmin; cbn [probe_loop].
  - apply db_ret.
  - apply db_bind; [apply db_probe_step|].
    intros [[l1 zmin1] go_on]. destruct go_on; [apply IH | apply db_ret].
Qed.

Lemma db_set_all_z_lock (b : bool) : debug_blind (set_all_z_lock cfg b).
Proof.
  unfold set_all_z_lock, stepper_set_z_lock, stepper_set_z2_lock, stepper_set_z3_lock.
  db_auto.
Qed.

Lemma db_correct_step (acc amp : cfloat) (k z : nat) (l : Locals) (zmin : cfloat)
    (sb : bool) :
  debug_blind (correct_step cfg acc amp k z l zmin sb).
Proof.
  unfold correct_step. destruct (accuracy_decreased l zmin z).
  - unfold SERIAL_ECHOLNPGM. db_auto.
  - apply db_bind; [unfold DEBUG_ECHOLNPAIR; db_auto|]. intros _.
    apply db_bind; [apply db_set_all_z_lock|]. intros _.
    apply db_bind.
    { unfold unlock_one, stepper_set_z_lock, stepper_set_z2_lock, stepper_set_z3_lock.
      destruct z as [|[|[|z']]]; db_auto. }
    intros _. db_auto.
Qed.

Lemma db_correct_loop (acc amp : cfloat) (k : nat) (zs : list nat) (zmin : cfloat) :
  forall (l : Locals) (sb : bool),
  debug_blind (correct_loop cfg acc amp k zs l zmin sb).
Proof.
  induction zs as [|z rest IH]; intros l sb; cbn [correct_loop].
  - apply db_ret.
  - apply db_bind; [apply db_correct_step|].
    intros [[l1 sb1] go_on]. destruct go_on; [apply IH | apply db_ret].
Qed.

Lemma db_iteration_body (acc amp : cfloat) (raise_after : ProbePtRaise) (k : nat)
    (l : Locals) :
  debug_blind (iteration_body cfg acc amp raise_after k l).
Proof.
  unfold iteration_body.
  apply db_bind; [unfold DEBUG_ECHOLNPGM; db_auto|]. intros _.
  apply db_bind; [unfold SERIAL_ECHOLNPAIR; db_auto|]. intros _.
  apply db_bind; [apply db_probe_loop|]. intros [l1 zmin].
  destruct (err_break l1); [apply db_ret|].
  apply db_bind.
  { unfold report_differences, SERIAL_ECHOPAIR_F, SERIAL_EOL. db_auto. }
  intros _.
  apply db_bind; [unfold stepper_set_separate_multi_axis; db_auto|]. intros _.
  apply db_bind; [apply db_correct_loop|]. intros [l3 sb].
  apply db_bind; [apply db_set_all_z_lock|]. intros _.
  apply db_bind; [unfold stepper_set_separate_multi_axis; db_auto|]. intros _.
  destruct (err_break l3); [apply db_ret|].
  destruct sb; [unfold SERIAL_ECHOLNPGM; db_auto | apply db_ret].
Qed.

Lemma db_iteration_loop (acc amp : cfloat) (raise_after : ProbePtRaise) (todo : nat) :
  forall (k : nat) (l : Locals),
  debug_blind (iteration_loop cfg acc amp raise_after todo k l).
Proof.
  induction todo as [|todo IH]; intros k l; cbn [iteration_loop].
  - apply db_ret.
  - apply db_bind; [apply db_iteration_body|].
    intros [l1 broke]. destruct broke; [apply db_ret | apply IH].
Qed.

Lemma db_G34_run (its : Z) (acc amp : cfloat) (E : bool) :
  debug_blind (G34_run cfg its acc amp E).
Proof.
  unfold G34_run, planner_synchronize, all_axes_known.
  do 12 (apply db_bind; [db_auto|]; intros).
  apply db_bind; [apply db_iteration_loop|]. intros [it l].
  destruct (err_break l);
    unfold SERIAL_ECHOLNPGM, SERIAL_ECHOLNPAIR, SERIAL_ECHOPAIR_F, SERIAL_EOL,
      restore_after_alignment, STOW_PROBE; db_auto.
Qed.

Lemma db_G34 (a : G34_args) : debug_blind (G34 cfg a).
Proof.
  unfold G34. apply db_bind.
  { intros b m. unfold DEBUG, call, bind. cbn [debug_leveling set_debug_leveling].
    destruct b, (debug_leveling m); cbn; splits; reflexivity. }
  intros _. apply db_bind; [|intros _; unfold DEBUG_ECHOLNPGM; db_auto].
  unfold G34_block.
  repeat match goal with
         | |- debug_blind (if ?c then _ else _) => destruct c
         end;
    first [apply db_G34_run | unfold SERIAL_ECHOLNPGM; db_auto].
Qed.

Lemma db_M422 (a : M422_args) : debug_blind (M422 cfg a).
Proof.
  unfold M422.
  destruct (negb (WITHIN_int _ 0 _)); [unfold SERIAL_ECHOLNPGM; db_auto|].
  apply db_bind; [db_auto|]. intro stored. cbn zeta.
  repeat match goal with
         | |- debug_blind (if ?c then _ else _) => destruct c
         end; unfold SERIAL_ECHOLNPGM; db_auto.
Qed.

(** X18.  The debug option only adds debug output.  Run from two machine
    states that differ in [DEBUGGING(LEVELING)] alone, [G34] and [M422] end
    in states that differ in that flag alone and make the same calls and
    print the same lines, in the same order, once the debug output is
    left out; with the option off there is no debug output at all. *)
Theorem debug_option_only_adds_output (a : G34_args) (s : M422_args) (b : bool)
    (m : Machine) :
  state_of (G34 cfg a (set_debug_leveling b m))
  = set_debug_leveling b (state_of (G34 cfg a m))
  /\ without_debug (trace_of (G34 cfg a (set_debug_leveling b m)))
     = without_debug (trace_of (G34 cfg a m))
  /\ without_debug (trace_of (G34 cfg a (set_debug_leveling false m)))
     = trace_of (G34 cfg a (set_debug_leveling false m))
  /\ state_of (M422 cfg s (set_debug_leveling b m))
     = set_debug_leveling b (state_of (M422 cfg s m))
  /\ trace_of (M422 cfg s (set_debug_leveling b m)) = trace_of (M422 cfg s m).
Proof.
  destruct (db_G34 a b m) as (_ & S & T & Q).
  destruct (db_M422 s b m) as (_ & S2 & T2 & _).
  splits; try assumption.
  assert (Hm : forall m', without_debug (trace_of (M422 cfg s m')) = trace_of (M422 cfg s m')).
  { intro m'. unfold M422.
    destruct (negb (WITHIN_int _ 0 _)); [reflexivity|].
    rewrite !bind_trace. cbn [read trace_of value_of state_of fst snd app].
    repeat match goal with
           | |- context [if ?c then _ else _] => destruct c
           end; reflexivity. }
  rewrite <- (Hm (set_debug_leveling b m)), <- (Hm m). exact T2.
Qed.

(** ** What the iteration loop leaves alone *)

Section Untouched.

Context {B : Type} (f : Machine -> B).
Hypothesis f_stepper : forall s m, f (set_stepper s m) = f m.
Hypothesis f_position : forall z m, f (set_current_position_z z m) = f m.
Hypothesis f_feed : forall r m, f (set_probe_feed r m) = f m.

Lemma kf_ret {A : Type} (a : A) : keeps_field f (ret a).
Proof. intro m. reflexivity. Qed.

Lemma kf_bind {A C : Type} (c : M A) (k : A -> M C) :
  keeps_field f c -> (forall a, keeps_field f (k a)) -> keeps_field f (bind c k).
Proof. intros Hc Hk m. rewrite bind_state, Hk. apply Hc. Qed.

Lemma kf_call (e : event) : keeps_field f (call e).
Proof. intro m. reflexivity. Qed.

Lemma kf_read {A : Type} (g : Machine -> A) : keeps_field f (read g).
Proof. intro m. reflexivity. Qed.

Lemma kf_when (b : bool) (c : M unit) : keeps_field f c -> keeps_field f (when b c).
Proof. intro H. destruct b; simpl; [exact H | apply kf_ret]. Qed.

Lemma kf_DEBUG (c : M unit) : keeps_field f c -> keeps_field f (DEBUG c).
Proof.
  intros H m. unfold DEBUG. destruct (debug_leveling m); [apply H | reflexivity].
Qed.

Lemma kf_stepper_call (e : event) : keeps_field f (stepper_call e).
Proof. intro m. apply f_stepper. Qed.

Lemma kf_move (z : cfloat) : keeps_field f (do_blocking_move_to_z z).
Proof. intro m. apply f_position. Qed.

Lemma kf_probe_at_point (pos : xy_pos_t) (r : ProbePtRaise) :
  keeps_field f (probe_at_point pos r).
Proof.
  intro m. unfold probe_at_point.
  destruct (probe_feed m); cbn [state_of fst snd]; [reflexivity|].
  rewrite f_position. apply f_feed.
Qed.

Lemma kf_probe_loop (raise_after : ProbePtRaise) (k : nat) (izs : list nat) :
  forall (l : Locals) (zmin : cfloat),
  keeps_field f (probe_loop cfg raise_after k izs l zmin).
Proof.
  induction izs as [|iz rest IH]; intros l zmin; cbn [probe_loop].
  - apply kf_ret.
  - apply kf_bind.
    + unfold probe_step. apply kf_bind; [apply kf_when, kf_move|]. intros _.
      apply kf_bind; [apply kf_read|]. intro pos.
      apply kf_bind; [apply kf_probe_at_point|]. intro z.
      destruct (isnan z); unfold DEBUG_ECHOLNPAIR, SERIAL_ECHOLNPGM;
        (apply kf_bind; [|intros _; apply kf_ret]);
        [apply kf_call | apply kf_DEBUG, kf_call].
    + intros [[l1 zmin1] go_on]. destruct go_on; [apply IH | apply kf_ret].
Qed.

Lemma kf_set_all_z_lock (b : bool) : keeps_field f (set_all_z_lock cfg b).
Proof.
  unfold set_all_z_lock. apply kf_bind; [apply kf_stepper_call|]. intros _.
  apply kf_bind; [apply kf_stepper_call|]. intros _.
  apply kf_when, kf_stepper_call.
Qed.

Lemma kf_correct_loop (acc amp : cfloat) (k : nat) (zs : list nat) (zmin : cfloat) :
  forall (l : Locals) (sb : bool),
  keeps_field f (correct_loop cfg acc amp k zs l zmin sb).
Proof.
  induction zs as [|z rest IH]; intros l sb; cbn [correct_loop].
  - apply kf_ret.
  - apply kf_bind.
    + unfold correct_step. destruct (accuracy_decreased l zmin z).
      * apply kf_bind; [apply kf_call | intros _; apply kf_ret].
      * apply kf_bind; [apply kf_DEBUG, kf_call|]. intros _.
        apply kf_bind; [apply kf_set_all_z_lock|]. intros _.
        apply kf_bind.
        { unfold unlock_one. destruct z as [|[|[|z']]];
            first [apply kf_stepper_call | apply kf_when, kf_stepper_call | apply kf_ret]. }
        intros _. apply kf_bind; [apply kf_read|]. intro z0.
        apply kf_bind; [apply kf_move | intros _; apply kf_ret].
    + intros [[l1 sb1] go_on]. destruct go_on; [apply IH | apply kf_ret].
Qed.

Lemma kf_iteration_loop (acc amp : cfloat) (raise_after : ProbePtRaise) (todo : nat) :
  forall (k : nat) (l : Locals),
  keeps_field f (iteration_loop cfg acc amp raise_after todo k l).
Proof.
  induction todo as [|todo IH]; intros k l; cbn [iteration_loop].
  - apply kf_ret.
  - apply kf_bind.
    + unfold iteration_body.
      apply kf_bind; [apply kf_DEBUG, kf_call|]. intros _.
      apply kf_bind; [apply kf_call|]. intros _.
      apply kf_bind; [apply kf_probe_loop|]. intros [l1 zmin].
      destruct (err_break l1); [apply kf_ret|].
      apply kf_bind.
      { unfold report_differences.
        apply kf_bind; [apply kf_call|]. intros _.
        apply kf_bind.
        { apply kf_when. apply kf_bind; [apply kf_call | intros _; apply kf_call]. }
        intros _. apply kf_bind; [apply kf_call | intros _; apply kf_call]. }
      intros _.
      apply kf_bind; [apply kf_stepper_call|]. intros _.
      apply kf_bind; [apply kf_correct_loop|]. intros [l3 sb].
      apply kf_bind; [apply kf_set_all_z_lock|]. intros _.
      apply kf_bind; [apply kf_stepper_call|]. intros _.
      destruct (err_break l3); [apply kf_ret|].
      destruct sb; [|apply kf_ret].
      apply kf_bind; [apply kf_call | intros _; apply kf_ret].
    + intros [l1 broke]. destruct broke; [apply kf_ret | apply IH].
Qed.

End Untouched.

Lemma G34_prepare_settings (m : Machine) :
  workspace_plane (state_of (G34_prepare cfg m))
  = (if CNC_WORKSPACE_PLANES cfg then PLANE_XY else workspace_plane m)
  /\ extruder_duplication_enabled (state_of (G34_prepare cfg m))
     = (if HAS_DUPLICATION_MODE cfg then false else extruder_duplication_enabled m).
Proof.
  unfold G34_prepare.
  cbv beta iota zeta delta
    [bind ret call read write when planner_synchronize set_bed_leveling_enabled
     tool_change all_axes_known home_all_axes trace_of state_of value_of fst snd].
  destruct (HAS_LEVELING cfg), (CNC_WORKSPACE_PLANES cfg), (1 <? HOTENDS cfg)%nat,
    (HAS_DUPLICATION_MODE cfg); cbn [set_leveling_active set_workspace_plane
      set_active_extruder set_extruder_duplication_enabled xy_axes_known z_axis_known
      z_auto_align_pos current_position_z leveling_active active_extruder andb];
    destruct (xy_axes_known m && z_axis_known m); cbn; split; reflexivity.
Qed.

Lemma G34_finish_settings (its : Z) (it : nat) (l : Locals) (lwa : bool) (old : Z)
    (m : Machine) :
  workspace_plane (state_of (G34_finish cfg its it l lwa old m)) = workspace_plane m
  /\ extruder_duplication_enabled (state_of (G34_finish cfg its it l lwa old m))
     = extruder_duplication_enabled m.
Proof.
  unfold G34_finish, restore_after_alignment.
  cbv beta iota zeta delta
    [bind ret call read write when set_bed_leveling_enabled tool_change
     SERIAL_ECHOLNPGM SERIAL_ECHOLNPAIR SERIAL_ECHOPAIR_F SERIAL_EOL
     set_axis_is_not_at_home_Z STOW_PROBE process_subcommands_now
     trace_of state_of value_of fst snd].
  destruct (HAS_LEVELING cfg), (RESTORE_LEVELING_AFTER_G34 cfg),
    (1 <? HOTENDS cfg)%nat; cbn; split; reflexivity.
Qed.

(** X19.  An accepted [G34] selects the XY workspace plane (when built
    with [CNC_WORKSPACE_PLANES]) and switches extruder duplication off (when
    built with duplication mode), and unlike the tool and the levelling it
    puts neither back: they are so when the command returns, however the
    run ends. *)
Theorem G34_plane_and_duplication_not_restored (a : G34_args) (m : Machine) :
  G34_accepts cfg a = true ->
  workspace_plane (state_of (G34 cfg a m))
  = (if CNC_WORKSPACE_PLANES cfg then PLANE_XY else workspace_plane m)
  /\ extruder_duplication_enabled (state_of (G34 cfg a m))
     = (if HAS_DUPLICATION_MODE cfg then false else extruder_duplication_enabled m).
Proof.
  intro Ha. destruct (G34_accepted_shape a m Ha) as (_ & Se & Sn).
  destruct (G34_prepare_settings m) as (Pw & Pd).
  assert (Lw : workspace_plane (state_of (G34_loop_run cfg a m))
               = workspace_plane (state_of (G34_prepare cfg m))).
  { unfold G34_loop_run. apply (kf_iteration_loop workspace_plane); reflexivity. }
  assert (Ld : extruder_duplication_enabled (state_of (G34_loop_run cfg a m))
               = extruder_duplication_enabled (state_of (G34_prepare cfg m))).
  { unfold G34_loop_run. apply (kf_iteration_loop extruder_duplication_enabled);
      reflexivity. }
  destruct (err_break (snd (value_of (G34_loop_run cfg a m)))) eqn:Ee.
  - rewrite (Se eq_refl), Lw, Ld. split; assumption.
  - rewrite (Sn eq_refl).
    match goal with
    | |- context [G34_finish cfg ?i ?it ?l ?lwa ?old ?m0] =>
        destruct (G34_finish_settings i it l lwa old m0) as (Fw & Fd)
    end.
    rewrite Fw, Fd, Lw, Ld. split; assumption.
Qed.

(** X20.  An accepted [G34] that is aborted returns with the machine as
    the preparation left it: tool 0 selected (with more than one hotend),
    bed levelling disabled (when built with levelling), and every axis
    still marked as known, the mark that Z needs homing being part of the
    restoration that is not reached. *)
Theorem G34_abort_leaves_setup (a : G34_args) (m : Machine) :
  G34_accepts cfg a = true ->
  has_serial "G34 aborted." (trace_of (G34 cfg a m)) = true ->
  active_extruder (state_of (G34 cfg a m))
  = (if (1 <? HOTENDS cfg)%nat then 0 else active_extruder m)
  /\ leveling_active (state_of (G34 cfg a m))
     = (if HAS_LEVELING cfg then false else leveling_active m)
  /\ xy_axes_known (state_of (G34 cfg a m)) && z_axis_known (state_of (G34 cfg a m))
     = true.
Proof.
  intros Ha Hab. destruct (G34_accepted_shape a m Ha) as (St & Se & Sn).
  destruct (G34_prepare_spec m) as (_ & _ & _ & _ & _ & _ & Pl & Pe & Pk).
  cbn zeta in Pl, Pe, Pk.
  destruct (G34_trace_readings a m Ha) as (Hr & _). cbn zeta in Hr.
  assert (Ee : err_break (snd (value_of (G34_loop_run cfg a m))) = true)
    by (rewrite <- Hr; exact Hab).
  rewrite (Se Ee). unfold G34_loop_run. splits.
  - rewrite (kf_iteration_loop active_extruder) by reflexivity. exact Pe.
  - rewrite (kf_iteration_loop leveling_active) by reflexivity. exact Pl.
  - rewrite (kf_iteration_loop (fun m => xy_axes_known m && z_axis_known m))
      by reflexivity.
    exact Pk.
Qed.

(** ** Which stepper a corrective move frees *)

Lemma turn_quiet (s : Stepper) (n : nat) (t u : list event) :
  forallb quiet_event t = true ->
  corrects_in_turn cfg s n (t ++ u) = corrects_in_turn cfg s n u.
Proof.
  induction t as [|e t IH]; intro H; [reflexivity|].
  cbn [forallb] in H. apply andb_true_iff in H. destruct H as [He Ht].
  unfold quiet_event in He. apply andb_true_iff in He. destruct He as [Hq Hm].
  apply negb_true_iff in Hq, Hm.
  assert (E : stepper_apply s e = s) by (destruct e; simpl in *; congruence).
  assert (Eo : is_sep_on e = false) by (destruct e; simpl in *; congruence).
  cbn [app corrects_in_turn]. rewrite Hm, E, Eo. cbn [andb]. apply IH. exact Ht.
Qed.

Lemma turn_joint (s : Stepper) (n : nat) (t u : list event) :
  forallb not_stepper_event t = true ->
  separate_multi_axis s = false ->
  corrects_in_turn cfg s n (t ++ u) = corrects_in_turn cfg s n u.
Proof.
  induction t as [|e t IH]; intros H Hs; [reflexivity|].
  cbn [forallb] in H. apply andb_true_iff in H. destruct H as [He Ht].
  unfold not_stepper_event in He. apply negb_true_iff in He.
  assert (E : stepper_apply s e = s) by (destruct e; simpl in *; congruence).
  assert (Eo : is_sep_on e = false) by (destruct e; simpl in *; congruence).
  cbn [app corrects_in_turn]. rewrite Hs, E, Eo, andb_false_r. cbn [andb].
  apply IH; assumption.
Qed.

Lemma kt_ret {A : Type} (P : Stepper -> nat -> bool) (a : A) :
  keeps_turn cfg P (fun _ => P) (ret a).
Proof. intros m n H. exists n. split; [reflexivity | exact H]. Qed.

Lemma kt_bind {A B : Type} (P : Stepper -> nat -> bool)
    (Q : A -> Stepper -> nat -> bool) (R : B -> Stepper -> nat -> bool)
    (c : M A) (k : A -> M B) :
  keeps_turn cfg P Q c ->
  (forall a, keeps_turn cfg (Q a) R (k a)) ->
  keeps_turn cfg P R (bind c k).
Proof.
  intros Hc Hk m n HP. destruct (Hc m n HP) as (n1 & T1 & Q1).
  destruct (Hk (value_of (c m)) (state_of (c m)) n1 Q1) as (n2 & T2 & R2).
  exists n2. rewrite bind_trace, bind_state, bind_value. split; [|exact R2].
  intro u. rewrite <- app_assoc, T1. apply T2.
Qed.

Lemma kt_weaken {A : Type} (P P' : Stepper -> nat -> bool)
    (Q Q' : A -> Stepper -> nat -> bool) (c : M A) :
  (forall s n, P' s n = true -> P s n = true) ->
  (forall a s n, Q a s n = true -> Q' a s n = true) ->
  keeps_turn cfg P Q c -> keeps_turn cfg P' Q' c.
Proof.
  intros HP HQ H m n Hm. destruct (H m n (HP _ _ Hm)) as (n' & T & Q1).
  exists n'. auto.
Qed.

Lemma kt_quiet {A : Type} (P : Stepper -> nat -> bool) (c : M A) :
  emits quiet_event c ->
  (forall m, stepper (state_of (c m)) = stepper m) ->
  keeps_turn cfg P (fun _ => P) c.
Proof.
  intros He Hs m n HP. exists n. rewrite Hs. split; [|exact HP].
  intro u. apply turn_quiet, He.
Qed.

Lemma kt_joint {A : Type} (c : M A) :
  emits not_stepper_event c ->
  (forall m, stepper (state_of (c m)) = stepper m) ->
  keeps_turn cfg joint (fun _ => joint) c.
Proof.
  intros He Hs m n HP. exists n. rewrite Hs. split; [|exact HP].
  intro u. apply turn_joint; [apply He|].
  unfold joint in HP. apply negb_true_iff in HP. exact HP.
Qed.

Lemma kt_when (P : Stepper -> nat -> bool) (b : bool) (c : M unit) :
  keeps_turn cfg P (fun _ => P) c -> keeps_turn cfg P (fun _ => P) (when b c).
Proof. intro H. destruct b; [exact H | apply kt_ret]. Qed.

Lemma kt_probe_loop (raise_after : ProbePtRaise) (k : nat) (izs : list nat)
    (l : Locals) (zmin : cfloat) :
  keeps_turn cfg joint (fun _ => joint) (probe_loop cfg raise_after k izs l zmin).
Proof.
  apply kt_joint.
  - intro m.
    destruct (probe_loop_spec raise_after k izs l zmin m) as (_ & _ & _ & H & _).
    eapply forallb_impl; [|exact H]. intros e He. destruct e; try discriminate; reflexivity.
  - intro m.
    destruct (probe_loop_spec raise_after k izs l zmin m) as (_ & H & _). exact H.
Qed.

Lemma kt_correct_step (acc amp : cfloat) (k z : nat) (l : Locals) (zmin : cfloat)
    (sb : bool) :
  (z < Z_STEPPER_COUNT cfg)%nat ->
  keeps_turn cfg (turn_at z)
    (fun (v : Locals * bool * bool) s n =>
       separate_multi_axis s && (if snd v then (n =? S z)%nat else true))
    (correct_step cfg acc amp k z l zmin sb).
Proof.
  intros Hz m n Hpre. unfold turn_at in Hpre.
  apply andb_true_iff in Hpre. destruct Hpre as [Hsep Hn].
  apply Nat.eqb_eq in Hn. subst n.
  exists (if accuracy_decreased l zmin z then z else S z).
  revert Hz Hsep.
  unfold correct_step, set_all_z_lock, unlock_one, only_free, Z_STEPPER_COUNT. run_m.
  destruct (stepper m) as [a b c d] eqn:Es.
  destruct (Z_TRIPLE_STEPPER_DRIVERS cfg) eqn:Et;
    destruct (accuracy_decreased l zmin z), (debug_leveling m), z as [|[|[|z']]];
    cbn -[Nat.eqb]; rewrite ?Es; intros Hz Hsep; subst;
    unfold only_free, Z_STEPPER_COUNT; rewrite ?Et; cbn;
    rewrite ?Nat.eqb_refl; try (split; [intro u|]; reflexivity); lia.
Qed.

Lemma kt_correct_loop (acc amp : cfloat) (k : nat) (zmin : cfloat) (len : nat) :
  forall (z : nat) (l : Locals) (sb : bool),
  (z + len <= Z_STEPPER_COUNT cfg)%nat ->
  keeps_turn cfg (turn_at z) (fun _ => apart)
    (correct_loop cfg acc amp k (seq z len) l zmin sb).
Proof.
  induction len as [|len IH]; intros z l sb Hz; cbn [seq correct_loop].
  - apply kt_weaken with (P := turn_at z) (Q := fun _ => turn_at z);
      [auto | | apply kt_ret].
    intros _ s n H. unfold turn_at in H. apply andb_true_iff in H. apply H.
  - eapply kt_bind; [apply kt_correct_step; lia|].
    intros [[l1 sb1] go_on]. cbv beta. cbn [snd]. destruct go_on.
    + apply kt_weaken with (P := turn_at (S z)) (Q := fun _ => apart);
        [auto | auto | apply (IH (S z)); lia].
    + apply kt_weaken with (P := apart) (Q := fun _ => apart);
        [ | auto | apply kt_ret].
      intros s n H. rewrite andb_true_r in H. exact H.
Qed.

Lemma kt_sep_on :
  keeps_turn cfg joint (fun _ => turn_at 0) (stepper_set_separate_multi_axis true).
Proof. intros m n _. exists 0%nat. split; [intro u|]; reflexivity. Qed.

Lemma kt_unlock_all :
  keeps_turn cfg apart (fun _ => apart) (set_all_z_lock cfg false).
Proof.
  intros m n H. exists n. unfold apart in *. revert H.
  unfold set_all_z_lock. run_m.
  destruct (stepper m) as [a b c d], (Z_TRIPLE_STEPPER_DRIVERS cfg); cbn;
    intro H; (split; [intro u|]; [reflexivity | exact H]).
Qed.

Lemma kt_sep_off :
  keeps_turn cfg apart (fun _ => joint) (stepper_set_separate_multi_axis false).
Proof. intros m n _. exists n. split; [intro u|]; reflexivity. Qed.

Ltac kt_joint_auto :=
  apply kt_joint;
  [ emits_auto
  | intro;
    repeat first
      [ reflexivity
      | match goal with
        | |- context [debug_leveling ?m] => destruct (debug_leveling m)
        | |- context [when ?b _] => destruct b
        end
      | progress (unfold DEBUG_ECHOLNPGM, DEBUG_ECHOLNPAIR, DEBUG;
                  rewrite ?bind_state) ] ].

Lemma kt_iteration_body (acc amp : cfloat) (raise_after : ProbePtRaise) (k : nat)
    (l : Locals) :
  keeps_turn cfg joint (fun _ => joint) (iteration_body cfg acc amp raise_after k l).
Proof.
  unfold iteration_body.
  apply kt_bind with (Q := fun _ => joint); [kt_joint_auto|]. intros _.
  apply kt_bind with (Q := fun _ => joint); [kt_joint_auto|]. intros _.
  apply kt_bind with (Q := fun _ => joint); [apply kt_probe_loop|]. intros [l1 zmin].
  destruct (err_break l1); [apply kt_ret|].
  apply kt_bind with (Q := fun _ => joint).
  { unfold report_differences. kt_joint_auto. }
  intros _.
  apply kt_bind with (Q := fun _ => turn_at 0); [apply kt_sep_on|]. intros _.
  apply kt_bind with (Q := fun _ => apart).
  { apply (kt_correct_loop acc amp k zmin (Z_STEPPER_COUNT cfg) 0). lia. }
  intros [l3 sb].
  apply kt_bind with (Q := fun _ => apart); [apply kt_unlock_all|]. intros _.
  apply kt_bind with (Q := fun _ => joint); [apply kt_sep_off|]. intros _.
  destruct (err_break l3); [apply kt_ret|].
  destruct sb; [|apply kt_ret].
  apply kt_bind with (Q := fun _ => joint); [kt_joint_auto|]. intros _. apply kt_ret.
Qed.

Lemma kt_iteration_loop (acc amp : cfloat) (raise_after : ProbePtRaise) (todo : nat) :
  forall (k : nat) (l : Locals),
  keeps_turn cfg joint (fun _ => joint)
    (iteration_loop cfg acc amp raise_after todo k l).
Proof.
  induction todo as [|todo IH]; intros k l; cbn [iteration_loop].
  - apply kt_ret.
  - apply kt_bind with (Q := fun _ => joint); [apply kt_iteration_body|].
    intros [l1 broke]. destruct broke; [apply kt_ret | apply IH].
Qed.

Ltac kt_step :=
  match goal with
  | |- keeps_turn _ _ _ (bind _ _) =>
      apply kt_bind with (Q := fun _ => joint); [|intros]
  | |- keeps_turn _ _ _ (ret _) => apply kt_ret
  | |- keeps_turn _ _ _ (when _ _) => apply kt_when
  | |- keeps_turn _ _ _ (iteration_loop _ _ _ _ _ _ _) =>
      apply kt_iteration_loop
  | |- keeps_turn _ _ _ (if ?b then _ else _) => destruct b
  | |- keeps_turn _ _ _ (let '(_, _) := ?p in _) => destruct p
  | |- keeps_turn _ _ _ _ => kt_joint_auto
  end.

Lemma kt_G34 (a : G34_args) :
  keeps_turn cfg joint (fun _ => joint) (G34 cfg a).
Proof.
  unfold G34, G34_block.
  repeat first
    [ (match goal with
       | |- keeps_turn _ _ _ (G34_run _ _ _ _ _) =>
           unfold G34_run, restore_after_alignment, all_axes_known,
             planner_synchronize, STOW_PROBE
       end)
    | kt_step ].
Qed.

Lemma correct_step_isolates (acc amp : cfloat) (k z : nat) (l : Locals) (zmin : cfloat)
    (sb : bool) (m : Machine) :
  (z < Z_STEPPER_COUNT cfg)%nat ->
  accuracy_decreased l zmin z = false ->
  let r := correct_step cfg acc amp k z l zmin sb m in
  only_free cfg (stepper (state_of r)) z = true
  /\ exists t0,
       trace_of r
       = t0 ++ [Ev_do_blocking_move_to_z
                  (fadd (fmul (tuned_amplification amp k l zmin z)
                              (z_align_move_of l zmin z))
                        (current_position_z m))]
       /\ forallb (fun e => negb (moves_z e)) t0 = true
       /\ replay (stepper m) t0 = stepper (state_of r).
Proof.
  intros Hz Hdec. cbn zeta. revert Hz.
  unfold correct_step, set_all_z_lock, unlock_one, only_free, replay, Z_STEPPER_COUNT.
  rewrite Hdec. run_m.
  destruct (stepper m) as [a b c d] eqn:Es.
  destruct (Z_TRIPLE_STEPPER_DRIVERS cfg) eqn:Et;
    destruct (debug_leveling m), z as [|[|[|z']]]; cbn; rewrite ?Es; cbn;
    intro Hz; try lia;
    (split; [reflexivity|]);
    match goal with
    | |- exists t0, ?t = t0 ++ _ /\ _ =>
        exists (removelast t); repeat split; reflexivity
    end.
Qed.

(** C2 (amended).  Started with every Z stepper unlocked and the steppers
    driven together, [G34] keeps this lock discipline on every path.
    Every Z move commanded inside the correction loop (while the steppers
    are driven separately) is made with exactly one stepper unlocked, and
    every Z move outside it (clearance moves, probing, homing) with all
    [Z_STEPPER_COUNT] steppers unlocked, not with none.  The corrective
    moves free the steppers in turn: in every iteration the first is made
    with only stepper 0 unlocked, the next with only stepper 1 unlocked,
    and so on, so that the stepper corrected before is locked again by the
    time the next one moves.  The lock flags of the machine are the ones
    the lock calls of the trace produce, and when the handler returns every
    stepper is unlocked and the steppers are driven together again.
    The stepper a pass of the correction loop frees is the one it
    corrects: the pass for stepper [z] that is not left on decreasing
    accuracy makes one Z move, its last call, by the amplified correction
    computed for stepper [z], and from whatever lock state it starts,
    exactly stepper [z] is unlocked at that move and stays so until the
    next pass locks all steppers. *)
Theorem G34_lock_discipline (a : G34_args) (m : Machine) :
  idle cfg (stepper m) = true ->
  lock_discipline cfg (stepper m) (trace_of (G34 cfg a m)) = true
  /\ corrects_in_turn cfg (stepper m) 0 (trace_of (G34 cfg a m)) = true
  /\ stepper (state_of (G34 cfg a m)) = replay (stepper m) (trace_of (G34 cfg a m))
  /\ idle cfg (stepper (state_of (G34 cfg a m))) = true
  /\ (forall (acc amp : cfloat) (k z : nat) (l : Locals) (zmin : cfloat) (sb : bool)
             (m' : Machine),
        (z < Z_STEPPER_COUNT cfg)%nat ->
        accuracy_decreased l zmin z = false ->
        let r := correct_step cfg acc amp k z l zmin sb m' in
        only_free cfg (stepper (state_of r)) z = true
        /\ exists t0,
             trace_of r
             = t0 ++ [Ev_do_blocking_move_to_z
                        (fadd (fmul (tuned_amplification amp k l zmin z)
                                    (z_align_move_of l zmin z))
                              (current_position_z m'))]
             /\ forallb (fun e => negb (moves_z e)) t0 = true
             /\ replay (stepper m') t0 = stepper (state_of r)).
Proof.
  intro H. destruct (kd_G34 a m H) as (D & S & I).
  assert (J : joint (stepper m) 0 = true).
  { unfold idle in H. apply andb_true_iff in H. apply H. }
  destruct (kt_G34 a m 0%nat J) as (n' & T & _).
  specialize (T []). rewrite app_nil_r in T.
  splits; try assumption.
  intros acc amp k z l zmin sb m' Hz Hdec.
  apply correct_step_isolates; assumption.
Qed.

(** ** The clearance move *)

Lemma move_heights_app (t u : list event) :
  move_heights (t ++ u) = move_heights t ++ move_heights u.
Proof.
  induction t as [|e t IH]; [reflexivity|].
  destruct e; cbn [app move_heights]; rewrite IH; reflexivity.
Qed.

Lemma probe_step_moves (raise_after : ProbePtRaise) (k iz : nat) (l : Locals)
    (zmin : cfloat) (m : Machine) :
  move_heights (trace_of (probe_step cfg raise_after k iz l zmin m))
  = (if clearance_move_wanted k iz then [z_probe l] else []).
Proof.
  unfold probe_step. run_m.
  destruct (clearance_move_wanted k iz); simpl;
    (destruct (probe_feed m) as [|rd rest]; simpl;
     [|destruct (isnan (measured_z rd)); simpl;
       [|destruct (debug_leveling m); simpl]]); reflexivity.
Qed.

Lemma probe_loop_moves (raise_after : ProbePtRaise) (k : nat) (izs : list nat) :
  forall (l : Locals) (zmin : cfloat) (m : Machine),
  exists n,
    move_heights (trace_of (probe_loop cfg raise_after k izs l zmin m))
    = repeat (z_probe l) n.
Proof.
  induction izs as [|iz rest IH]; intros l zmin m; cbn [probe_loop].
  - exists 0%nat. reflexivity.
  - rewrite bind_trace, move_heights_app, probe_step_moves.
    destruct (probe_step_spec raise_after k iz l zmin m)
      as (_ & _ & _ & _ & _ & _ & _ & _ & _ & Hp & _).
    cbn zeta in Hp.
    destruct (value_of (probe_step cfg raise_after k iz l zmin m)) as [[l1 zmin1] go_on].
    cbn [fst snd] in Hp. destruct go_on.
    + destruct (IH l1 zmin1 (state_of (probe_step cfg raise_after k iz l zmin m)))
        as (n & Hn).
      rewrite Hn, Hp.
      destruct (clearance_move_wanted k iz); [exists (S n) | exists n]; reflexivity.
    + cbn [ret trace_of snd move_heights]. rewrite app_nil_r.
      destruct (clearance_move_wanted k iz); [exists 1%nat | exists 0%nat]; reflexivity.
Qed.

Lemma correct_loop_keeps_heights (acc amp : cfloat) (k : nat) (zmin : cfloat)
    (zs : list nat) :
  forall (l : Locals) (sb : bool) (m : Machine),
  let l1 := fst (value_of (correct_loop cfg acc amp k zs l zmin sb m)) in
  z_measured l1 = z_measured l /\ z_probe l1 = z_probe l /\ z_maxdiff l1 = z_maxdiff l.
Proof.
  induction zs as [|z rest IH]; intros l sb m; cbn zeta; [splits; reflexivity|].
  cbn [correct_loop]. rewrite bind_value.
  destruct (correct_step_spec acc amp k z l zmin sb m) as (_ & _ & Hm & Hp & Hd & _).
  cbn zeta in Hm, Hp, Hd.
  destruct (value_of (correct_step cfg acc amp k z l zmin sb m)) as [[l1 sb1] go_on].
  cbn [fst snd] in *. destruct go_on.
  - destruct (IH l1 sb1 (state_of (correct_step cfg acc amp k z l zmin sb m)))
      as (A & B & C).
    cbn zeta in A, B, C. rewrite A, B, C. auto.
  - cbn. auto.
Qed.

(** What a pass through the body of the iteration loop hands on: when it
    does not end in an error, the measured heights of its probing and the
    clearance height and the largest difference adapted to them. *)
Lemma iteration_body_heights (acc amp : cfloat) (raise_after : ProbePtRaise)
    (k : nat) (l : Locals) (m : Machine) :
  let rb := iteration_body cfg acc amp raise_after k l m in
  let rp := probe_loop cfg raise_after k (seq 0 (Z_STEPPER_COUNT cfg)) l (Fin 100000) m in
  err_break (fst (value_of rb)) = false ->
  z_measured (fst (value_of rb)) = z_measured (fst (value_of rp))
  /\ z_probe (fst (value_of rb)) = z_probe (adapt_clearance cfg (fst (value_of rp)))
  /\ z_maxdiff (fst (value_of rb)) = z_maxdiff (adapt_clearance cfg (fst (value_of rp))).
Proof.
  cbn zeta. rewrite iteration_body_unfold. cbn zeta.
  set (rp := probe_loop cfg raise_after k (seq 0 (Z_STEPPER_COUNT cfg)) l (Fin 100000) m).
  destruct (err_break (fst (value_of rp))) eqn:E1.
  - cbn [value_of fst]. rewrite E1. discriminate.
  - match goal with
    | |- context [correct_loop cfg acc amp k ?zs ?l2 ?zmin ?sb ?ms] =>
        destruct (correct_loop_keeps_heights acc amp k zmin zs l2 sb ms) as (A & B & C);
        cbn zeta in A, B, C;
        set (rc := correct_loop cfg acc amp k zs l2 zmin sb ms) in *
    end.
    assert (Em : z_measured (adapt_clearance cfg (fst (value_of rp)))
                 = z_measured (fst (value_of rp))).
    { unfold adapt_clearance. destruct (Z_TRIPLE_STEPPER_DRIVERS cfg); reflexivity. }
    intros _.
    destruct (err_break (fst (value_of rc))); [|destruct (snd (value_of rc))];
      cbn [value_of fst]; rewrite A, B, C, Em; auto.
Qed.

Lemma iteration_body_starts_probing (acc amp : cfloat) (raise_after : ProbePtRaise)
    (k : nat) (l : Locals) (m : Machine) :
  exists rest,
    hardware (trace_of (iteration_body cfg acc amp raise_after k l m))
    = hardware (trace_of (probe_loop cfg raise_after k (seq 0 (Z_STEPPER_COUNT cfg))
                            l (Fin 100000) m))
      ++ rest.
Proof.
  rewrite iteration_body_unfold. cbn zeta.
  set (rp := probe_loop cfg raise_after k (seq 0 (Z_STEPPER_COUNT cfg)) l (Fin 100000) m).
  destruct (err_break (fst (value_of rp))).
  - exists []. cbn [trace_of snd]. rewrite !hardware_app, app_nil_r.
    destruct (debug_leveling m); reflexivity.
  - match goal with
    | |- context [if ?c then _ else if ?d then _ else _] => destruct c; [|destruct d]
    end; cbn [trace_of snd]; rewrite !hardware_app, <- ?app_assoc;
      (destruct (debug_leveling m); cbn [hardware filter is_output_only negb app];
       eexists; reflexivity).
Qed.

(** C3 (amended).  One pass of the probing loop begins with the move to
    the current clearance height, the value of [z_probe], unless it is the
    first pass ([izstepper = 0]) of an iteration after the first
    ([iteration <> 0]): the move is made for every probe point of
    iteration 0 and skipped for the first probe point of every later
    iteration.  The move, when made, is directly followed by the probe at
    the point of the stepper whose turn it is, and these are all the
    hardware calls of the pass.  The probing does not change the clearance
    height: every Z move of the probing loop of one iteration goes to the
    height the iteration was entered with.  The iteration starts with that
    probing loop, and when it does not end in an error it hands on to the
    next the clearance height adapted to its measurements. *)
Theorem clearance_move_skipped_iff (acc amp : cfloat) (raise_after : ProbePtRaise)
    (k iz : nat) (l : Locals) (zmin : cfloat) (m : Machine) :
  let r := probe_step cfg raise_after k iz l zmin m in
  let rp := probe_loop cfg raise_after k (seq 0 (Z_STEPPER_COUNT cfg)) l (Fin 100000) m in
  let rb := iteration_body cfg acc amp raise_after k l m in
  (leading_move (trace_of r) = None <-> (k <> 0%nat /\ iz = 0%nat))
  /\ (leading_move (trace_of r) = Some (z_probe l) <-> (k = 0%nat \/ iz <> 0%nat))
  /\ hardware (trace_of r)
     = match leading_move (trace_of r) with
       | Some z => [Ev_do_blocking_move_to_z z]
       | None => []
       end
       ++ [Ev_probe_at_point (probe_point m (probe_zstepper cfg k iz)) raise_after]
  /\ z_probe (fst (fst (value_of r))) = z_probe l
  /\ (exists n, move_heights (trace_of rp) = repeat (z_probe l) n)
  /\ (exists rest, hardware (trace_of rb) = hardware (trace_of rp) ++ rest)
  /\ (err_break (fst (value_of rb)) = false ->
      z_probe (fst (value_of rb)) = z_probe (adapt_clearance cfg (fst (value_of rp)))).
Proof.
  cbn zeta.
  destruct (probe_step_spec raise_after k iz l zmin m)
    as (_ & _ & _ & _ & _ & _ & H & _ & _ & Hp & _).
  cbn zeta in Hp. rewrite (probe_step_hardware raise_after k iz l zmin m), H.
  assert (W : clearance_move_wanted k iz = false <-> (k <> 0%nat /\ iz = 0%nat)).
  { unfold clearance_move_wanted. destruct k as [|k], iz as [|iz]; cbn;
      split; intro H0; try discriminate; try reflexivity;
      try (destruct H0; congruence).
    split; [discriminate | reflexivity]. }
  splits.
  - rewrite <- W. destruct (clearance_move_wanted k iz); split; intro H0;
      try discriminate; reflexivity.
  - assert (W2 : (k = 0%nat \/ iz <> 0%nat) <-> clearance_move_wanted k iz = true).
    { unfold clearance_move_wanted. destruct k as [|k], iz as [|iz]; cbn;
        split; intro H0; try reflexivity; try discriminate;
        try (left; reflexivity); try (right; discriminate).
      destruct H0 as [H0|H0]; [discriminate | exfalso; apply H0; reflexivity]. }
    rewrite W2. destruct (clearance_move_wanted k iz); split; intro H0;
      try discriminate; reflexivity.
  - destruct (clearance_move_wanted k iz); reflexivity.
  - exact Hp.
  - apply probe_loop_moves.
  - apply iteration_body_starts_probing.
  - intro He. apply (iteration_body_heights acc amp raise_after k l m He).
Qed.

(** ** When a run starts *)

Lemma G34_rejected_hardware (a : G34_args) (m : Machine) :
  G34_accepts cfg a = false -> hardware (trace_of (G34 cfg a m)) = [].
Proof.
  intro H. rewrite G34_unfold. cbn [state_of trace_of fst snd].
  fold (state_of (G34_block cfg a m)). fold (trace_of (G34_block cfg a m)).
  destruct (G34_block_rejected a m H) as [Es Et]. rewrite Es, !hardware_app.
  destruct Et as [Et|[Et|Et]]; rewrite Et; destruct (debug_leveling m); reflexivity.
Qed.

(** X2.  With numeric T and A, [G34] starts the alignment, its first
    hardware call being [planner.synchronize()], exactly when the iteration
    count, as converted to [int8_t], is in 1..30, the target accuracy is in
    0.01..1.0 and the magnitude of the amplification is in 0.5..2.0, all
    bounds included, whatever the sign of the amplification; otherwise it
    makes no hardware call at all. *)
Theorem G34_starts_iff_in_range (a : G34_args) (t g : Q) (m : Machine) :
  parser_val (arg_T a) (Z_STEPPER_ALIGN_ACC cfg) = Fin t ->
  parser_val (arg_A a) (Z_STEPPER_ALIGN_AMP cfg) = Fin g ->
  let in_range :=
    1 <= int8_t (parser_val (arg_I a) (Z_STEPPER_ALIGN_ITERATIONS cfg)) <= 30
    /\ (1 # 100 <= t <= 1)%Q
    /\ ((1 # 2 <= g <= 2)%Q \/ (- (2) <= g <= - (1 # 2))%Q) in
  (hd_error (hardware (trace_of (G34 cfg a m))) = Some Ev_planner_synchronize
   <-> in_range)
  /\ (hardware (trace_of (G34 cfg a m)) = [] <-> ~ in_range).
Proof.
  intros Ht Hg. cbn zeta. pose proof (G34_accepts_ranges a t g Ht Hg) as R.
  destruct (G34_accepts cfg a) eqn:Ea.
  - destruct (G34_trace_readings a m Ea) as (_ & _ & _ & _ & _ & _ & Hh & _).
    cbn zeta in Hh. rewrite Hh. unfold prepare_trace. cbn [app hd_error].
    split; split; intro H; try reflexivity; try discriminate.
    + apply R. reflexivity.
    + exfalso. apply H, R. reflexivity.
  - rewrite (G34_rejected_hardware a m Ea). cbn [hd_error].
    split; split; intro H; try reflexivity; try discriminate.
    + apply R in H. discriminate.
    + intro H0. apply R in H0. discriminate.
Qed.

(** ** The reported accuracy *)

Lemma last_reported_app (label : string) (t u : list event) :
  last_reported label (t ++ u)
  = match last_reported label u with
    | Some v => Some v
    | None => last_reported label t
    end.
Proof.
  induction t as [|e t IH]; cbn [app last_reported].
  - destruct (last_reported label u); reflexivity.
  - rewrite IH. destruct (last_reported label u); reflexivity.
Qed.

Lemma last_reported_app_some (label : string) (t u : list event) (v : cfloat) :
  last_reported label u = Some v -> last_reported label (t ++ u) = Some v.
Proof. intro H. rewrite last_reported_app, H. reflexivity. Qed.

Lemma last_reported_none (label : string) (t : list event) :
  forallb no_float t = true -> last_reported label t = None.
Proof.
  induction t as [|e t IH]; intro H; [reflexivity|].
  cbn [forallb] in H. apply andb_true_iff in H. destruct H as [He Ht].
  cbn [last_reported]. rewrite (IH Ht). destruct e; try reflexivity; discriminate.
Qed.

Lemma no_float_correct_loop (acc amp : cfloat) (k : nat) (zs : list nat)
    (zmin : cfloat) :
  forall (l : Locals) (sb : bool),
  emits no_float (correct_loop cfg acc amp k zs l zmin sb).
Proof.
  induction zs as [|z rest IH]; intros l sb; cbn [correct_loop].
  - apply emits_ret.
  - apply emits_bind.
    + unfold correct_step. destruct (accuracy_decreased l zmin z).
      * unfold SERIAL_ECHOLNPGM. emits_auto.
      * apply emits_bind; [unfold DEBUG_ECHOLNPAIR; emits_auto|]. intros _.
        apply emits_bind; [apply emits_set_all_z_lock; reflexivity|]. intros _.
        apply emits_bind.
        { unfold unlock_one, stepper_set_z_lock, stepper_set_z2_lock,
            stepper_set_z3_lock.
          destruct z as [|[|[|z']]]; emits_auto. }
        intros _. emits_auto.
    + intros [[l1 sb1] go_on]. destruct go_on; [apply IH | apply emits_ret].
Qed.

Lemma report_differences_final (l : Locals) (m : Machine) :
  let t := trace_of (report_differences cfg l m) in
  let z := fget (z_measured l) in
  last_reported (nl ++ "DIFFERENCE Z1-Z2=") t = Some (ABS (fsub (z 0%nat) (z 1%nat)))
  /\ (Z_TRIPLE_STEPPER_DRIVERS cfg = true ->
      last_reported " Z2-Z3=" t = Some (ABS (fsub (z 1%nat) (z 2%nat)))
      /\ last_reported " Z3-Z1=" t = Some (ABS (fsub (z 2%nat) (z 0%nat)))).
Proof.
  cbn zeta. unfold report_differences. run_m.
  destruct (Z_TRIPLE_STEPPER_DRIVERS cfg); split; try reflexivity;
    intro H; try discriminate; split; reflexivity.
Qed.

Lemma adapt_clearance_maxdiff (l : Locals) :
  let z := fget (z_measured l) in
  z_measured (adapt_clearance cfg l) = z_measured l
  /\ z_maxdiff (adapt_clearance cfg l)
     = (if Z_TRIPLE_STEPPER_DRIVERS cfg
        then _MAX3 (ABS (fsub (z 0%nat) (z 1%nat))) (ABS (fsub (z 1%nat) (z 2%nat)))
                   (ABS (fsub (z 2%nat) (z 0%nat)))
        else ABS (fsub (z 0%nat) (z 1%nat))).
Proof.
  cbn zeta. unfold adapt_clearance.
  destruct (Z_TRIPLE_STEPPER_DRIVERS cfg); split; reflexivity.
Qed.

Lemma iteration_body_final_report (acc amp : cfloat) (raise_after : ProbePtRaise)
    (k : nat) (l : Locals) (m : Machine) :
  let rb := iteration_body cfg acc amp raise_after k l m in
  err_break (fst (value_of rb)) = false ->
  final_report cfg (fst (value_of rb)) (trace_of rb).
Proof.
  cbn zeta. intro He.
  destruct (iteration_body_heights acc amp raise_after k l m He) as (Hm & _ & Hd).
  revert He Hm Hd. rewrite iteration_body_unfold. cbn zeta.
  set (rp := probe_loop cfg raise_after k (seq 0 (Z_STEPPER_COUNT cfg)) l (Fin 100000) m).
  destruct (err_break (fst (value_of rp))) eqn:E1.
  { cbn [value_of fst]. rewrite E1. discriminate. }
  set (l2 := adapt_clearance cfg (fst (value_of rp))).
  set (rr := report_differences cfg l2 (state_of rp)).
  match goal with
  | |- context [correct_loop cfg acc amp k ?zs l2 ?zmin ?sb ?ms] =>
      pose proof (no_float_correct_loop acc amp k zs zmin l2 sb ms) as Nc;
      set (rc := correct_loop cfg acc amp k zs l2 zmin sb ms) in *
  end.
  set (ru := set_all_z_lock cfg false (state_of rc)).
  assert (Nu : forallb no_float (trace_of ru) = true)
    by (apply emits_set_all_z_lock; reflexivity).
  destruct (adapt_clearance_maxdiff (fst (value_of rp))) as (Am & Ad). cbn zeta in Ad.
  fold l2 in Am, Ad.
  destruct (report_differences_final l2 (state_of rp)) as (R1 & R2). cbn zeta in R1, R2.
  fold rr in R1, R2.
  assert (G : forall lbl v extra,
            last_reported lbl (trace_of rr) = Some v ->
            forallb no_float extra = true ->
            last_reported lbl
              ((if debug_leveling m then [Ev_debug "> probing all positions."] else [])
               ++ [Ev_serial_int (nl ++ "ITERATION: ") (Z.of_nat k + 1)]
               ++ trace_of rp ++ trace_of rr ++ [Ev_set_separate_multi_axis true]
               ++ trace_of rc ++ trace_of ru ++ [Ev_set_separate_multi_axis false]
               ++ extra)
            = Some v).
  { intros lbl v extra Hv Hx.
    do 3 apply last_reported_app_some.
    rewrite last_reported_app.
    rewrite (last_reported_none lbl
               ([Ev_set_separate_multi_axis true] ++ trace_of rc ++ trace_of ru
                ++ [Ev_set_separate_multi_axis false] ++ extra)).
    - exact Hv.
    - rewrite !forallb_app, Nc, Nu, Hx. reflexivity. }
  assert (F : forall lf extra,
            z_measured lf = z_measured l2 -> z_maxdiff lf = z_maxdiff l2 ->
            forallb no_float extra = true ->
            final_report cfg lf
              ((if debug_leveling m then [Ev_debug "> probing all positions."] else [])
               ++ [Ev_serial_int (nl ++ "ITERATION: ") (Z.of_nat k + 1)]
               ++ trace_of rp ++ trace_of rr ++ [Ev_set_separate_multi_axis true]
               ++ trace_of rc ++ trace_of ru ++ [Ev_set_separate_multi_axis false]
               ++ extra)).
  { intros lf extra Em Ed Hx. unfold final_report. cbn zeta. rewrite Em, Ed, Am.
    rewrite Am in R1, R2.
    splits.
    - apply G; assumption.
    - intro Ht. destruct (R2 Ht) as (R3 & R4). split; apply G; assumption.
    - exact Ad. }
  destruct (err_break (fst (value_of rc))); [|destruct (snd (value_of rc))];
    cbn [value_of state_of trace_of fst snd]; intros _ Hm Hd.
  - replace (trace_of rp ++ trace_of rr ++ [Ev_set_separate_multi_axis true]
             ++ trace_of rc ++ trace_of ru ++ [Ev_set_separate_multi_axis false])
      with (trace_of rp ++ trace_of rr ++ [Ev_set_separate_multi_axis true]
            ++ trace_of rc ++ trace_of ru ++ [Ev_set_separate_multi_axis false] ++ [])
      by (rewrite app_nil_r; reflexivity).
    apply F; [rewrite Hm; symmetry; exact Am | exact Hd | reflexivity].
  - rewrite <- !app_assoc.
    apply F; [rewrite Hm; symmetry; exact Am | exact Hd | reflexivity].
  - replace (trace_of rp ++ trace_of rr ++ [Ev_set_separate_multi_axis true]
             ++ trace_of rc ++ trace_of ru ++ [Ev_set_separate_multi_axis false])
      with (trace_of rp ++ trace_of rr ++ [Ev_set_separate_multi_axis true]
            ++ trace_of rc ++ trace_of ru ++ [Ev_set_separate_multi_axis false] ++ [])
      by (rewrite app_nil_r; reflexivity).
    apply F; [rewrite Hm; symmetry; exact Am | exact Hd | reflexivity].
Qed.

Lemma final_report_app (l : Locals) (t u : list event) :
  final_report cfg l u -> final_report cfg l (t ++ u).
Proof.
  unfold final_report. cbn zeta. intros (H1 & H2 & H3). splits.
  - apply last_reported_app_some. exact H1.
  - intro Ht. destruct (H2 Ht) as (H4 & H5).
    split; apply last_reported_app_some; assumption.
  - exact H3.
Qed.

Lemma iteration_loop_final_report (acc amp : cfloat) (raise_after : ProbePtRaise)
    (todo : nat) :
  forall (k : nat) (l : Locals) (m : Machine),
  let r := iteration_loop cfg acc amp raise_after (S todo) k l m in
  err_break (snd (value_of r)) = false ->
  final_report cfg (snd (value_of r)) (trace_of r).
Proof.
  induction todo as [|todo IH]; intros k l m; cbn zeta;
    destruct (snd (value_of (iteration_body cfg acc amp raise_after k l m))) eqn:Eb.
  - rewrite iteration_loop_break by exact Eb. cbn [value_of state_of trace_of fst snd].
    apply iteration_body_final_report.
  - rewrite (iteration_loop_continue acc amp raise_after 0 k l m Eb). cbn zeta.
    cbn [iteration_loop ret value_of state_of trace_of fst snd]. rewrite app_nil_r.
    apply iteration_body_final_report.
  - rewrite iteration_loop_break by exact Eb. cbn [value_of state_of trace_of fst snd].
    apply iteration_body_final_report.
  - rewrite (iteration_loop_continue acc amp raise_after (S todo) k l m Eb). cbn zeta.
    cbn [value_of state_of trace_of fst snd]. intro He.
    apply final_report_app. apply IH. exact He.
Qed.

Lemma restore_trace_no_float (lwa : bool) (old : Z) :
  forallb no_float (restore_trace cfg lwa old) = true.
Proof.
  unfold restore_trace.
  destruct (1 <? HOTENDS cfg)%nat, (HAS_LEVELING cfg && RESTORE_LEVELING_AFTER_G34 cfg);
    reflexivity.
Qed.

(** X21.  The accuracy an accepted [G34] that is not aborted reports at
    its end is the largest of the differences between the measured heights
    it last reported: the one difference Z1-Z2 with two Z steppers, the
    largest of Z1-Z2, Z2-Z3 and Z3-Z1 with three. *)
Theorem accuracy_is_largest_last_difference (a : G34_args) (m : Machine) :
  G34_accepts cfg a = true ->
  has_serial "G34 aborted." (trace_of (G34 cfg a m)) = false ->
  exists d12,
    last_reported (nl ++ "DIFFERENCE Z1-Z2=") (trace_of (G34 cfg a m)) = Some d12
    /\ if Z_TRIPLE_STEPPER_DRIVERS cfg
       then exists d23 d31,
              last_reported " Z2-Z3=" (trace_of (G34 cfg a m)) = Some d23
              /\ last_reported " Z3-Z1=" (trace_of (G34 cfg a m)) = Some d31
              /\ last_reported "Accuracy: " (trace_of (G34 cfg a m))
                 = Some (_MAX3 d12 d23 d31)
       else last_reported "Accuracy: " (trace_of (G34 cfg a m)) = Some d12.
Proof.
  intros Ha Hab.
  destruct (G34_trace_readings a m Ha) as (Hr & _). cbn zeta in Hr.
  rewrite Hab in Hr. symmetry in Hr.
  destruct (G34_accepted_shape a m Ha) as (St & _).
  pose proof (accepted_iterations a Ha) as Hits.
  assert (Hl : final_report cfg (snd (value_of (G34_loop_run cfg a m)))
                 (trace_of (G34_loop_run cfg a m))).
  { revert Hr. unfold G34_loop_run.
    destruct (Z.to_nat (int8_t (parser_val (arg_I a) (Z_STEPPER_ALIGN_ITERATIONS cfg))))
      as [|todo] eqn:En; [lia|].
    apply iteration_loop_final_report. }
  destruct Hl as (L1 & L2 & L3). cbn zeta in L1, L2, L3.
  set (lf := snd (value_of (G34_loop_run cfg a m))) in *.
  assert (Tl : G34_tail cfg a m
               = [Ev_serial_int "Did "
                    (Z.of_nat (fst (value_of (G34_loop_run cfg a m)))
                     + (if Z.of_nat (fst (value_of (G34_loop_run cfg a m)))
                           =? int8_t (parser_val (arg_I a) (Z_STEPPER_ALIGN_ITERATIONS cfg))
                        then 0 else 1));
                  Ev_serial_int " iterations of "
                    (int8_t (parser_val (arg_I a) (Z_STEPPER_ALIGN_ITERATIONS cfg)));
                  Ev_serial_float "Accuracy: " (z_maxdiff lf);
                  Ev_serial EmptyString]
                 ++ restore_trace cfg (leveling_active m) (active_extruder m)).
  { unfold G34_tail. cbn zeta. fold lf. rewrite Hr. reflexivity. }
  assert (Nd : forallb no_float (G34_debug_out (state_of (G34 cfg a m))) = true).
  { unfold G34_debug_out. destruct (debug_leveling _); reflexivity. }
  assert (Hacc : last_reported "Accuracy: " (trace_of (G34 cfg a m))
                 = Some (z_maxdiff lf)).
  { rewrite St. do 3 apply last_reported_app_some.
    rewrite last_reported_app, (last_reported_none _ _ Nd), Tl.
    rewrite last_reported_app, (last_reported_none _ _ (restore_trace_no_float _ _)).
    reflexivity. }
  assert (Hdiff : forall lbl v,
            String.eqb "Accuracy: " lbl = false ->
            last_reported lbl (trace_of (G34_loop_run cfg a m)) = Some v ->
            last_reported lbl (trace_of (G34 cfg a m)) = Some v).
  { intros lbl v Hne Hv. rewrite St. do 2 apply last_reported_app_some.
    rewrite last_reported_app.
    replace (last_reported lbl
               (G34_tail cfg a m ++ G34_debug_out (state_of (G34 cfg a m))))
      with (@None cfloat); [exact Hv|].
    rewrite last_reported_app, (last_reported_none _ _ Nd), Tl.
    rewrite last_reported_app, (last_reported_none _ _ (restore_trace_no_float _ _)).
    cbn [last_reported]. rewrite Hne. reflexivity. }
  eexists. split; [apply Hdiff; [reflexivity | exact L1]|].
  rewrite Hacc, L3.
  destruct (Z_TRIPLE_STEPPER_DRIVERS cfg) eqn:Et; [|reflexivity].
  destruct (L2 eq_refl) as (L4 & L5).
  eexists. eexists. split; [apply Hdiff; [reflexivity | exact L4]|].
  split; [apply Hdiff; [reflexivity | exact L5]|]. reflexivity.
Qed.

End Proofs.

(** * The handlers on the bench *)

Lemma G34_lock_discipline_witness :
  idle bench_cfg (stepper (bench feed_converging)) = true
  /\ lock_discipline bench_cfg (stepper (bench feed_converging))
       (trace_of (G34 bench_cfg G34_default (bench feed_converging))) = true
  /\ corrects_in_turn bench_cfg (stepper (bench feed_converging)) 0
       (trace_of (G34 bench_cfg G34_default (bench feed_converging))) = true
  /\ (1 < Z_STEPPER_COUNT bench_cfg)%nat
  /\ accuracy_decreased bench_locals (Fin 6) 1 = false
  /\ only_free bench_cfg
       (stepper (state_of (correct_step bench_cfg (Fin (2 # 100)) (Fin 1) 1 1
                             bench_locals (Fin 6) true (bench []))))
       1 = true.
Proof.
  split; [reflexivity|].
  destruct (G34_lock_discipline bench_cfg G34_default (bench feed_converging) eq_refl)
    as (H1 & H2 & _ & _ & H5).
  split; [exact H1|]. split; [exact H2|].
  split; [apply le_n|]. split; [reflexivity|].
  destruct (H5 (Fin (2 # 100)) (Fin 1) 1%nat 1%nat bench_locals (Fin 6) true (bench [])
              (le_n 2) eq_refl) as (H6 & _).
  exact H6.
Defined.

(** C2 as the spec words it fails on the bench: outside the correction
    loop both steppers are unlocked, not none.  The run probes four times,
    each time with two steppers free, and returns with two steppers
    free. *)
Lemma lock_discipline_spec_fails :
  lock_discipline_spec bench_cfg (stepper (bench feed_converging))
    (trace_of (G34 bench_cfg G34_default (bench feed_converging))) = false
  /\ unlocked_count bench_cfg
       (stepper (state_of (G34 bench_cfg G34_default (bench feed_converging)))) = 2%nat.
Proof. split; vm_compute; reflexivity. Qed.

(** C3 as the spec words it fails on the bench: the very first probe of
    the run is preceded by the move to the clearance height, and the first
    probe of the second iteration is preceded by no move. *)
Lemma clearance_move_spec_fails :
  leading_move
    (trace_of (probe_step bench_cfg PROBE_PT_RAISE 0 0
                 (initial_locals bench_cfg (Fin 10) (Fin 1)) (Fin 100000)
                 (bench feed_converging)))
  = Some (z_probe (initial_locals bench_cfg (Fin 10) (Fin 1)))
  /\ leading_move
       (trace_of (probe_step bench_cfg PROBE_PT_RAISE 1 0
                    (initial_locals bench_cfg (Fin 10) (Fin 1)) (Fin 100000)
                    (bench feed_converging)))
     = None.
Proof. split; vm_compute; reflexivity. Qed.

Lemma clearance_move_skipped_iff_witness :
  err_break
    (fst (value_of (iteration_body bench_cfg (Fin (2 # 100)) (Fin 1) PROBE_PT_RAISE 0
                      (initial_locals bench_cfg (Fin 10) (Fin 1))
                      (bench feed_converging)))) = false
  /\ z_probe
       (fst (value_of (iteration_body bench_cfg (Fin (2 # 100)) (Fin 1) PROBE_PT_RAISE 0
                         (initial_locals bench_cfg (Fin 10) (Fin 1))
                         (bench feed_converging))))
     = z_probe
         (adapt_clearance bench_cfg
            (fst (value_of (probe_loop bench_cfg PROBE_PT_RAISE 0
                              (seq 0 (Z_STEPPER_COUNT bench_cfg))
                              (initial_locals bench_cfg (Fin 10) (Fin 1)) (Fin 100000)
                              (bench feed_converging))))).
Proof.
  split; [vm_compute; reflexivity|].
  destruct (clearance_move_skipped_iff bench_cfg (Fin (2 # 100)) (Fin 1) PROBE_PT_RAISE
              0 0 (initial_locals bench_cfg (Fin 10) (Fin 1)) (Fin 100000)
              (bench feed_converging)) as (_ & _ & _ & _ & _ & _ & H).
  apply H. vm_compute. reflexivity.
Defined.

(** C1.  A run that is aborted leaves without the restoration.  On the
    bench, after a probe fault and after a divergence abort: no
    restoration call is in the trace (the Z axis is not marked unhomed, the
    probe is not stowed, no "G28 Z"), bed levelling stays disabled though it
    was enabled and [RESTORE_LEVELING_AFTER_G34] is set, and tool 0 stays
    selected though tool 1 was.  The run that converges does restore. *)
Lemma G34_abort_skips_restoration :
  (run_status (trace_of (G34 bench_cfg G34_default (bench feed_fault)))
   = AbortedProbeFault
   /\ existsb is_restoration (trace_of (G34 bench_cfg G34_default (bench feed_fault)))
      = false
   /\ leveling_active (state_of (G34 bench_cfg G34_default (bench feed_fault))) = false
   /\ active_extruder (state_of (G34 bench_cfg G34_default (bench feed_fault))) = 0)
  /\ (run_status (trace_of (G34 bench_cfg G34_default (bench feed_diverging)))
      = AbortedDiverging
      /\ existsb is_restoration
           (trace_of (G34 bench_cfg G34_default (bench feed_diverging))) = false
      /\ leveling_active (state_of (G34 bench_cfg G34_default (bench feed_diverging)))
         = false
      /\ active_extruder (state_of (G34 bench_cfg G34_default (bench feed_diverging)))
         = 0)
  /\ (run_status (trace_of (G34 bench_cfg G34_default (bench feed_converging)))
      = Converged
      /\ existsb is_restoration
           (trace_of (G34 bench_cfg G34_default (bench feed_converging))) = true
      /\ leveling_active (state_of (G34 bench_cfg G34_default (bench feed_converging)))
         = true
      /\ active_extruder (state_of (G34 bench_cfg G34_default (bench feed_converging)))
         = 1)
  /\ leveling_active (bench feed_fault) = true
  /\ active_extruder (bench feed_fault) = 1.
Proof. vm_compute. repeat split; reflexivity. Qed.

(** C6.  The command [G34 I257] is not rejected: the iteration count is
    converted to [int8_t] before it is checked, 257 becomes 1, and the run
    is made with one iteration, probing and moving. *)
Lemma G34_I257_runs :
  int8_t 257 = 1
  /\ G34_accepts bench_cfg (G34_I 257) = true
  /\ G34 bench_cfg (G34_I 257) (bench feed_converging)
     = G34 bench_cfg (G34_I 1) (bench feed_converging)
  /\ has_serial "?(I)teration out of bounds (1-30)."
       (trace_of (G34 bench_cfg (G34_I 257) (bench feed_converging))) = false
  /\ probes_taken (trace_of (G34 bench_cfg (G34_I 257) (bench feed_converging))) = 2%nat
  /\ iterations_executed
       (trace_of (G34 bench_cfg (G34_I 257) (bench feed_converging))) = 1%nat.
Proof. vm_compute. repeat split; reflexivity. Qed.

(** C5 as the spec words it fails on the bench: with two readings more
    than 10001 mm apart the divergence check trips in the first
    iteration. *)
Lemma sentinel_trips_on_first_iteration :
  run_status (trace_of (G34 bench_cfg G34_default (bench feed_far))) = AbortedDiverging
  /\ iterations_executed (trace_of (G34 bench_cfg G34_default (bench feed_far))) = 1%nat.
Proof. vm_compute. split; reflexivity. Qed.

Lemma amplification_selection_witness :
  fgt (z_align_abs_of bench_locals (Fin 6) 1) (Fin 0) = true
  /\ amplification
       (fst (fst (value_of (correct_step bench_cfg (Fin (2 # 100)) (Fin 1) 1 1
                              bench_locals (Fin 6) true (bench [])))))
     = _MIN (fdiv (fget (last_z_align_move bench_locals) 1)
                  (z_align_abs_of bench_locals (Fin 6) 1)) (Fin 2).
Proof.
  split; [reflexivity|].
  destruct (amplification_selection bench_cfg (Fin (2 # 100)) (Fin 1) 1 1
              bench_locals (Fin 6) true (bench [])) as (H & _).
  apply H; reflexivity.
Defined.

Lemma divergence_check_witness :
  snd (value_of (correct_step bench_cfg (Fin (2 # 100)) (Fin 1) 1 1
                   bench_locals_worse (Fin 6) true (bench []))) = false
  /\ trace_of (correct_step bench_cfg (Fin (2 # 100)) (Fin 1) 1 1
                 bench_locals_worse (Fin 6) true (bench []))
     = [Ev_serial "Decreasing accuracy detected."].
Proof.
  split; [reflexivity|].
  destruct (divergence_check bench_cfg (Fin (2 # 100)) (Fin 1) 1 1 []
              bench_locals_worse (Fin 6) true (bench [])) as (_ & H & _).
  apply H. reflexivity.
Defined.

Lemma probe_count_and_fault_witness :
  locals_ok bench_cfg (initial_locals bench_cfg (Fin 10) (Fin 1))
  /\ all_valid (Z_STEPPER_COUNT bench_cfg) (probe_feed (bench feed_converging)) = true
  /\ probes_taken
       (trace_of (iteration_body bench_cfg (Fin (2 # 100)) (Fin 1) PROBE_PT_RAISE 0
                    (initial_locals bench_cfg (Fin 10) (Fin 1)) (bench feed_converging)))
     = Z_STEPPER_COUNT bench_cfg.
Proof.
  split; [split; reflexivity|]. split; [reflexivity|].
  destruct (probe_count_and_fault bench_cfg (Fin (2 # 100)) (Fin 1) PROBE_PT_RAISE 0 0
              (initial_locals bench_cfg (Fin 10) (Fin 1)) (bench feed_converging)
              (conj eq_refl eq_refl) eq_refl) as (H & _).
  apply H. reflexivity.
Defined.


Lemma M422_set_then_read_witness :
  well_formed bench_cfg (bench [])
  /\ probe_point
       (state_of (M422 bench_cfg
                    {| arg_S := Some 2; arg_X := Some (Fin 100); arg_Y := Some (Fin 50) |}
                    (bench [])))
       1
     = {| pos_x := Fin 100; pos_y := Fin 50 |}.
Proof.
  split; [reflexivity|].
  destruct (M422_set_then_read bench_cfg 1 (Fin 100) (Fin 50) (bench [])
              eq_refl (le_n 2)) as (H & _).
  apply H; reflexivity.
Defined.

(** ** The further properties on the bench *)

Lemma G34_rejects_bad_parameters_witness :
  G34_accepts bench_cfg (G34_I 0) = false
  /\ state_of (G34 bench_cfg (G34_I 0) (bench feed_converging)) = bench feed_converging.
Proof.
  split; [reflexivity|].
  apply (G34_rejects_bad_parameters bench_cfg (G34_I 0) (bench feed_converging)).
  reflexivity.
Defined.

Lemma G34_starts_iff_in_range_witness :
  hd_error (hardware (trace_of (G34 bench_cfg G34_default (bench feed_converging))))
  = Some Ev_planner_synchronize
  <-> 1 <= int8_t (parser_val (arg_I G34_default) (Z_STEPPER_ALIGN_ITERATIONS bench_cfg))
        <= 30
      /\ (1 # 100 <= 2 # 100 <= 1)%Q
      /\ ((1 # 2 <= 1 <= 2)%Q \/ (- (2) <= 1 <= - (1 # 2))%Q).
Proof.
  destruct (G34_starts_iff_in_range bench_cfg G34_default (2 # 100) 1
              (bench feed_converging) eq_refl eq_refl) as (H & _).
  exact H.
Defined.

Lemma M422_rejects_bad_index_witness :
  state_of (M422 bench_cfg {| arg_S := None; arg_X := Some (Fin 1); arg_Y := None |}
              (bench []))
  = bench [].
Proof.
  apply (M422_rejects_bad_index bench_cfg
           {| arg_S := None; arg_X := Some (Fin 1); arg_Y := None |} (bench [])).
  left. reflexivity.
Defined.

Lemma M422_keeps_missing_coordinate_witness :
  probe_point
    (state_of (M422 bench_cfg
                 {| arg_S := Some (Z.of_nat 1 + 1); arg_X := Some (Fin 150); arg_Y := None |}
                 (bench [])))
    1
  = {| pos_x := Fin 150; pos_y := pos_y (probe_point (bench []) 1) |}.
Proof.
  destruct (M422_keeps_missing_coordinate bench_cfg 1 (Fin 150) (bench [])
              eq_refl (le_n 2)) as (H & _).
  apply H; reflexivity.
Defined.

Lemma handlers_keep_probe_table_witness :
  well_formed bench_cfg (bench feed_converging)
  /\ z_auto_align_pos (state_of (G34 bench_cfg G34_default (bench feed_converging)))
     = z_auto_align_pos (bench feed_converging).
Proof.
  split; [reflexivity|].
  destruct (handlers_keep_probe_table bench_cfg (bench feed_converging) eq_refl)
    as (_ & H & _).
  apply H.
Defined.

Lemma M422_sets_compose_witness :
  probe_point
    (state_of (M422 bench_cfg (M422_set 1 (Fin 150) (Fin 60))
                 (state_of (M422 bench_cfg (M422_set 0 (Fin 20) (Fin 30)) (bench [])))))
    1
  = {| pos_x := Fin 150; pos_y := Fin 60 |}.
Proof.
  destruct (M422_sets_compose bench_cfg 0 1 (Fin 20) (Fin 30) (Fin 150) (Fin 60) (bench [])
              eq_refl (Nat.lt_0_succ 1) (le_n 2) eq_refl eq_refl eq_refl eq_refl)
    as (H & _).
  exact H.
Defined.

Lemma G34_restores_when_not_aborted_witness :
  G34_accepts bench_cfg G34_default = true
  /\ has_serial "G34 aborted."
       (trace_of (G34 bench_cfg G34_default (bench feed_converging))) = false
  /\ active_extruder (state_of (G34 bench_cfg G34_default (bench feed_converging)))
     = active_extruder (bench feed_converging).
Proof.
  split; [reflexivity|]. split; [vm_compute; reflexivity|].
  destruct (G34_restores_when_not_aborted bench_cfg G34_default (bench feed_converging)
              eq_refl) as (_ & H & _).
  - vm_compute. reflexivity.
  - apply H. reflexivity.
Defined.

Lemma G34_abort_iff_witness :
  G34_accepts bench_cfg G34_default = true
  /\ existsb is_restoration (trace_of (G34 bench_cfg G34_default (bench feed_fault)))
     = negb (has_serial "G34 aborted."
               (trace_of (G34 bench_cfg G34_default (bench feed_fault)))).
Proof.
  split; [reflexivity|].
  apply (G34_abort_iff bench_cfg G34_default (bench feed_fault)). reflexivity.
Defined.

Lemma G34_reports_iterations_witness :
  G34_accepts bench_cfg G34_default = true
  /\ reported_iterations (trace_of (G34 bench_cfg G34_default (bench feed_stuck)))
     = Some (Z.of_nat (iterations_executed
                         (trace_of (G34 bench_cfg G34_default (bench feed_stuck))))).
Proof.
  split; [reflexivity|].
  apply (G34_reports_iterations bench_cfg G34_default (bench feed_stuck)).
  - reflexivity.
  - vm_compute. reflexivity.
Defined.

Lemma G34_probe_count_witness :
  G34_accepts bench_cfg G34_default = true
  /\ (probes_taken (trace_of (G34 bench_cfg G34_default (bench feed_fault)))
      <= Z_STEPPER_COUNT bench_cfg
         * iterations_executed (trace_of (G34 bench_cfg G34_default (bench feed_fault))))%nat.
Proof.
  split; [reflexivity|].
  apply (G34_probe_count bench_cfg G34_default (bench feed_fault)). reflexivity.
Defined.

Lemma G34_iteration_bounds_witness :
  G34_accepts bench_cfg G34_default = true
  /\ int8_t (parser_val (arg_I G34_default) (Z_STEPPER_ALIGN_ITERATIONS bench_cfg)) <= 30.
Proof.
  split; [reflexivity|].
  apply (G34_iteration_bounds bench_cfg G34_default (bench feed_stuck)). reflexivity.
Defined.

Lemma G34_prologue_witness :
  G34_accepts bench_cfg G34_default = true
  /\ exists rest,
       hardware (trace_of (G34 bench_cfg G34_default (bench feed_converging)))
       = prepare_trace bench_cfg (bench feed_converging)
         ++ Ev_do_blocking_move_to_z
              (initial_z_probe bench_cfg (z_auto_align_pos (bench feed_converging)))
         :: Ev_probe_at_point (probe_point (bench feed_converging) 0)
              (if arg_E G34_default then PROBE_PT_STOW else PROBE_PT_RAISE)
         :: rest.
Proof.
  split; [reflexivity|].
  apply (G34_prologue bench_cfg G34_default (bench feed_converging)). reflexivity.
Defined.

Lemma isolate_stepper_frees_one_witness :
  (1 < Z_STEPPER_COUNT bench_cfg)%nat
  /\ unlocked_count bench_cfg (stepper (state_of (isolate_stepper bench_cfg 1 (bench []))))
     = 1%nat.
Proof.
  split; [apply le_n|].
  apply (isolate_stepper_frees_one bench_cfg 1 (bench []) (le_n 2)).
Defined.


Lemma corrections_are_nonnegative_witness :
  Z_CLEARANCE_BETWEEN_PROBES bench_cfg = Fin 5
  /\ all_valid (Z_STEPPER_COUNT bench_cfg) (probe_feed (bench feed_converging)) = true
  /\ forall z, (z < Z_STEPPER_COUNT bench_cfg)%nat ->
       exists d,
         z_align_move_of
           (adapt_clearance bench_cfg
              (fst (value_of (probe_loop bench_cfg PROBE_PT_RAISE 0
                                (seq 0 (Z_STEPPER_COUNT bench_cfg))
                                (initial_locals bench_cfg (Fin 10) (Fin 1)) (Fin 100000)
                                (bench feed_converging)))))
           (snd (value_of (probe_loop bench_cfg PROBE_PT_RAISE 0
                             (seq 0 (Z_STEPPER_COUNT bench_cfg))
                             (initial_locals bench_cfg (Fin 10) (Fin 1)) (Fin 100000)
                             (bench feed_converging))))
           z
         = Fin d /\ (0 <= d)%Q.
Proof.
  split; [reflexivity|]. split; [reflexivity|].
  apply (corrections_are_nonnegative bench_cfg PROBE_PT_RAISE 0
           (initial_locals bench_cfg (Fin 10) (Fin 1)) (bench feed_converging) 5).
  - reflexivity.
  - split; reflexivity.
  - reflexivity.
Defined.

Lemma G34_plane_and_duplication_not_restored_witness :
  G34_accepts bench_cfg G34_default = true
  /\ workspace_plane (state_of (G34 bench_cfg G34_default (bench feed_converging)))
     = (if CNC_WORKSPACE_PLANES bench_cfg then PLANE_XY
        else workspace_plane (bench feed_converging)).
Proof.
  split; [reflexivity|].
  apply (G34_plane_and_duplication_not_restored bench_cfg G34_default
           (bench feed_converging)).
  reflexivity.
Defined.

Lemma G34_abort_leaves_setup_witness :
  G34_accepts bench_cfg G34_default = true
  /\ has_serial "G34 aborted."
       (trace_of (G34 bench_cfg G34_default (bench feed_fault))) = true
  /\ active_extruder (state_of (G34 bench_cfg G34_default (bench feed_fault)))
     = (if (1 <? HOTENDS bench_cfg)%nat then 0
        else active_extruder (bench feed_fault)).
Proof.
  split; [reflexivity|]. split; [vm_compute; reflexivity|].
  apply (G34_abort_leaves_setup bench_cfg G34_default (bench feed_fault)).
  - reflexivity.
  - vm_compute. reflexivity.
Defined.

Lemma accuracy_is_largest_last_difference_witness :
  G34_accepts bench_cfg G34_default = true
  /\ has_serial "G34 aborted."
       (trace_of (G34 bench_cfg G34_default (bench feed_stuck))) = false
  /\ exists d12,
       last_reported (nl ++ "DIFFERENCE Z1-Z2=")
         (trace_of (G34 bench_cfg G34_default (bench feed_stuck))) = Some d12
       /\ last_reported "Accuracy: "
            (trace_of (G34 bench_cfg G34_default (bench feed_stuck))) = Some d12.
Proof.
  split; [reflexivity|]. split; [vm_compute; reflexivity|].
  apply (accuracy_is_largest_last_difference bench_cfg G34_default (bench feed_stuck)).
  - reflexivity.
  - vm_compute. reflexivity.
Defined.
